(** * The RAML splitter and its layout validator

    A shallow embedding of [raml_processor.py] (example synthesis, Markdown
    rendering, splitting of a schema document into a tree of files) and of
    [raml_validator.py] (the checks run over such a tree), with the
    properties of the two programs proved about the embedding.

    Conventions.
    - Python [str] is [string] (a sequence of bytes); [lower] and [upper]
      act on the ASCII letters.
    - A [dict] is an association list in insertion order.
    - A value read from YAML or JSON is a [json]; numbers are integers and
      the keys of a mapping are strings.
    - An exception is a value of [exn]; code that can raise returns a
      [result]. A run of the splitter that raises leaves no tree to look
      at: what it had written by then is not modelled.
    - [datetime.now()] reads a clock whose successive readings are given;
      the number of readings taken is part of the state. *)

From Stdlib Require Import String Ascii List ZArith Bool Arith Lia Permutation.
Import ListNotations.
Open Scope list_scope.
Open Scope string_scope.

(** ** Values *)

#[warnings="-register-all"]
Inductive json : Type :=
| JNull
| JBool (b : bool)
| JNum (n : Z)
| JStr (s : string)
| JArr (items : list json)
| JObj (fields : list (string * json)).

Definition dict : Type := list (string * json).
Bind Scope list_scope with dict.

(** ** Exceptions *)

Inductive exn_kind : Type :=
| AttributeError
| TypeError
| KeyError
| JSONDecodeError
| FileNotFoundError
| FileExistsError
| IsADirectoryError
| NotADirectoryError.

(** [message] is what [str(e)] gives. *)
Record exn : Type := Exn { kind : exn_kind; message : string }.

Inductive result (A : Type) : Type :=
| Ok (a : A)
| Raise (e : exn).
Arguments Ok {A} a.
Arguments Raise {A} e.

Definition bind {A B : Type} (r : result A) (k : A -> result B) : result B :=
  match r with
  | Ok a => k a
  | Raise e => Raise e
  end.

Notation "'let*' x ':=' r 'in' k" := (bind r (fun x => k))
  (at level 10, x pattern, r at level 100, k at level 200).

(** ** The Python primitives the two programs use *)

Module Py.

(** *** [str] *)

Definition is_upper (c : ascii) : bool :=
  let n := nat_of_ascii c in ((65 <=? n)%nat && (n <=? 90)%nat)%bool.

Definition is_lower (c : ascii) : bool :=
  let n := nat_of_ascii c in ((97 <=? n)%nat && (n <=? 122)%nat)%bool.

Definition lower_char (c : ascii) : ascii :=
  if is_upper c then ascii_of_nat (nat_of_ascii c + 32) else c.

Definition upper_char (c : ascii) : ascii :=
  if is_lower c then ascii_of_nat (nat_of_ascii c - 32) else c.

(** [s.isascii()]: every character of the text is below 128. *)
Fixpoint isascii (s : string) : bool :=
  match s with
  | EmptyString => true
  | String c t => (nat_of_ascii c <? 128)%nat && isascii t
  end.

(** [s.lower()] and [s.upper()] on ASCII text: the letters [A] to [Z] and
    [a] to [z] change, everything else stays. On a text with other
    characters Python also changes the letters of other alphabets; a
    statement that depends on the case of such a text asks for
    [isascii]. *)
Fixpoint lower (s : string) : string :=
  match s with
  | EmptyString => EmptyString
  | String c t => String (lower_char c) (lower t)
  end.

Fixpoint upper (s : string) : string :=
  match s with
  | EmptyString => EmptyString
  | String c t => String (upper_char c) (upper t)
  end.

(** [s.startswith(p)] *)
Fixpoint startswith (s p : string) : bool :=
  match p, s with
  | EmptyString, _ => true
  | String a p', String b s' => Ascii.eqb a b && startswith s' p'
  | String _ _, EmptyString => false
  end.

(** [k in s], for two strings: [k] occurs in [s] as a substring. *)
Fixpoint contains (s k : string) : bool :=
  startswith s k ||
  match s with
  | EmptyString => false
  | String _ t => contains t k
  end.

(** [s.endswith(p)] *)
Fixpoint endswith (s p : string) : bool :=
  String.eqb s p ||
  match s with
  | EmptyString => false
  | String _ t => endswith t p
  end.

(** [s.lstrip(c)], [s.rstrip(c)] and [s.strip(c)] for a one-character
    argument. *)
Fixpoint lstrip (c : ascii) (s : string) : string :=
  match s with
  | EmptyString => EmptyString
  | String a t => if Ascii.eqb a c then lstrip c t else s
  end.

Fixpoint rstrip (c : ascii) (s : string) : string :=
  match s with
  | EmptyString => EmptyString
  | String a t =>
      match rstrip c t with
      | EmptyString => if Ascii.eqb a c then EmptyString else String a EmptyString
      | t' => String a t'
      end
  end.

Definition strip (c : ascii) (s : string) : string := rstrip c (lstrip c s).

(** [sep.join(parts)] *)
Fixpoint join (sep : string) (parts : list string) : string :=
  match parts with
  | [] => EmptyString
  | [p] => p
  | p :: rest => p ++ sep ++ join sep rest
  end.

(** *** [dict] *)

(** [d.get(k)] *)
Fixpoint get {V : Type} (d : list (string * V)) (k : string) : option V :=
  match d with
  | [] => None
  | (k', v) :: rest => if String.eqb k' k then Some v else get rest k
  end.

(** [d.get(k, default)] *)
Definition get_default {V : Type} (d : list (string * V)) (k : string) (default : V) : V :=
  match get d k with
  | Some v => v
  | None => default
  end.

(** [k in d] *)
Definition has_key {V : Type} (d : list (string * V)) (k : string) : bool :=
  match get d k with
  | Some _ => true
  | None => false
  end.

(** [d[k] = v]: an existing key keeps its place, a new one goes last. *)
Fixpoint set {V : Type} (d : list (string * V)) (k : string) (v : V) : list (string * V) :=
  match d with
  | [] => [(k, v)]
  | (k', v') :: rest =>
      if String.eqb k' k then (k', v) :: rest else (k', v') :: set rest k v
  end.

(** *** [list] *)

(** [l.append(x)] and [l.extend(xs)] *)
Definition append {A : Type} (l : list A) (x : A) : list A := (l ++ [x])%list.

Definition extend {A : Type} (l xs : list A) : list A := (l ++ xs)%list.

(** *** Dynamic typing *)

(** [type(v).__name__] *)
Definition type_name (v : json) : string :=
  match v with
  | JNull => "NoneType"
  | JBool _ => "bool"
  | JNum _ => "int"
  | JStr _ => "str"
  | JArr _ => "list"
  | JObj _ => "dict"
  end.

Definition no_attribute {A : Type} (v : json) (attr : string) : result A :=
  Raise (Exn AttributeError
           ("'" ++ type_name v ++ "' object has no attribute '" ++ attr ++ "'")).

Definition unhashable {A : Type} (v : json) : result A :=
  Raise (Exn TypeError ("unhashable type: '" ++ type_name v ++ "'")).

(** [v.items()], defined on a [dict] only. *)
Definition items (v : json) : result dict :=
  match v with
  | JObj d => Ok d
  | _ => no_attribute v "items"
  end.

(** [v.get(k, default)], defined on a [dict] only. *)
Definition dget (v : json) (k : string) (default : json) : result json :=
  match v with
  | JObj d => Ok (get_default d k default)
  | _ => no_attribute v "get"
  end.

(** [v.lower()], defined on a [str] only. *)
Definition vlower (v : json) : result string :=
  match v with
  | JStr s => Ok (lower s)
  | _ => no_attribute v "lower"
  end.

(** [hash(v)] succeeds on everything but lists and dicts. *)
Definition hashable (v : json) : bool :=
  match v with
  | JArr _ | JObj _ => false
  | _ => true
  end.

(** The truth value of [v] in a condition. *)
Definition truthy (v : json) : bool :=
  match v with
  | JNull => false
  | JBool b => b
  | JNum n => negb (Z.eqb n 0)
  | JStr s => negb (String.eqb s "")
  | JArr l => match l with [] => false | _ => true end
  | JObj d => match d with [] => false | _ => true end
  end.

Definition is_str (k : string) (v : json) : bool :=
  match v with
  | JStr s => String.eqb s k
  | _ => false
  end.

(** [k in v] for a string [k] and any value [v]: key membership in a
    dict, element membership in a list, substring test in a string,
    [TypeError] elsewhere. *)
Definition vin (k : string) (v : json) : result bool :=
  match v with
  | JObj d => Ok (has_key d k)
  | JArr l => Ok (existsb (is_str k) l)
  | JStr s => Ok (contains s k)
  | _ => Raise (Exn TypeError
                  ("argument of type '" ++ type_name v ++ "' is not iterable"))
  end.

(** [v[k]] for a string [k]: the value under the key of a dict. *)
Definition subscript (v : json) (k : string) : result json :=
  match v with
  | JObj d =>
      match get d k with
      | Some x => Ok x
      | None => Raise (Exn KeyError ("'" ++ k ++ "'"))
      end
  | JArr _ => Raise (Exn TypeError "list indices must be integers or slices, not str")
  | JStr _ => Raise (Exn TypeError "string indices must be integers")
  | _ => Raise (Exn TypeError ("'" ++ type_name v ++ "' object is not subscriptable"))
  end.

(** The values [for x in v] goes through: the elements of a list, the
    keys of a dict, the characters of a string. *)
Definition iterate (v : json) : result (list json) :=
  match v with
  | JArr l => Ok l
  | JObj d => Ok (map (fun kv => JStr (fst kv)) d)
  | JStr s => Ok (map (fun c => JStr (String c EmptyString)) (list_ascii_of_string s))
  | _ => Raise (Exn TypeError ("'" ++ type_name v ++ "' object is not iterable"))
  end.

(** A [for] loop whose body may raise: the first exception ends it. *)
Fixpoint for_each {A S : Type} (xs : list A) (body : A -> S -> result S) (s : S) : result S :=
  match xs with
  | [] => Ok s
  | x :: rest => let* s' := body x s in for_each rest body s'
  end.

End Py.

(** ** The host: library behaviour the programs pass through

    What the two programs get from the Python library and the machine
    they run on, and hand on unchanged: the text [json.dumps] makes of a
    value, the text an f-string makes of a value that is not a string,
    the message of the JSON decoder on a text it rejects, the successive
    readings of the clock, and whether a place exists that the tree under
    [api_dir] does not decide: an absolute path, or a path with a
    component [..]. *)

Record datetime : Type := Datetime {
  strftime : string;   (* [t.strftime('%Y-%m-%d %H:%M:%S')] *)
  isoformat : string   (* [t.isoformat()] *)
}.

Record host : Type := Host {
  dumps : json -> string;
  repr : json -> string;
  decode_error : string -> string;
  clock : nat -> datetime;
  exists_outside : string -> bool
}.

(** [f"{v}"] *)
Definition format (h : host) (v : json) : string :=
  match v with
  | JStr s => s
  | _ => repr h v
  end.

(** ** [raml_processor.py] *)

Record ApiExample : Type := {
  request : json;
  response : json;
  description : string
}.

Record ValidationRule : Type := {
  type : string;
  pattern : string;
  rule_description : string;
  example : string
}.

(** [obj.__dict__] of the two dataclasses. *)
Definition ApiExample_dict (e : ApiExample) : json :=
  JObj [("request", request e); ("response", response e);
        ("description", JStr (description e))].

Definition ValidationRule_dict (r : ValidationRule) : json :=
  JObj [("type", JStr (type r)); ("pattern", JStr (pattern r));
        ("description", JStr (rule_description r)); ("example", JStr (example r))].

Module ExampleGenerator.

(** [self.example_values], in the order the constructor writes it. *)
Definition example_values : dict :=
  [ ("ip", JStr "192.168.88.1");
    ("ipv6", JStr "2001:db8::1");
    ("interface", JStr "ether1");
    ("mac", JStr "00:0C:29:45:67:89");
    ("string", JStr "example_value");
    ("number", JNum 1);
    ("boolean", JBool true);
    ("comment", JStr "Example comment");
    ("username", JStr "admin");
    ("password", JStr "password123");
    ("port", JNum 8080);
    ("vlan", JNum 100) ].

(** The loop of [get_example_value]: the first key of the table, in its
    order, that occurs in the lowered parameter name. *)
Fixpoint first_key_in (keys : list string) (name : string) : option string :=
  match keys with
  | [] => None
  | key :: rest => if Py.contains name key then Some key else first_key_in rest name
  end.

Definition get_example_value (param_type : json) (param_name : string) : result json :=
  match first_key_in (map fst example_values) (Py.lower param_name) with
  | Some key => Py.subscript (JObj example_values) key
  | None =>
      match param_type with
      | JStr t => Ok (Py.get_default example_values t (JStr "example_value"))
      | JArr _ | JObj _ => Py.unhashable param_type
      | _ => Ok (JStr "example_value")
      end
  end.

(** The first loop of [generate_example_for_endpoint]. *)
Definition request_body_step (param : string * json) (request_body : dict) : result dict :=
  let (param_name, param_info) := param in
  let* param_type := Py.dget param_info "type" (JStr "string") in
  let* v := get_example_value param_type param_name in
  Ok (Py.set request_body param_name v).

Definition generate_example_for_endpoint (h : host)
    (endpoint_path : string) (method params : json) : result ApiExample :=
  let* ps := Py.items params in
  let* request_body := Py.for_each ps request_body_step [] in
  let* m := Py.vlower method in
  let response_body :=
    if String.eqb m "get" then JObj [("items", JArr [JObj request_body])]
    else if String.eqb m "post" then JObj [("result", JStr "success"); ("ret", JStr "done")]
    else JObj [("status", JStr "success")] in
  Ok {| request := JObj [("method", method); ("path", JStr endpoint_path);
                         ("body", JObj request_body)];
        response := JObj [("status", JNum 200); ("body", response_body)];
        description := "Example " ++ format h method ++ " request to " ++ endpoint_path |}.

(** The resolution order as section 4.1 of the specification words it: a
    keyword matches a parameter name when, both in lower case, it occurs
    in the name; the first entry of the table that matches wins; failing
    that the declared type is looked up in the same table; failing that
    the literal is returned. *)
Definition keyword_matches (keyword parameterName : string) : bool :=
  Py.contains (Py.lower parameterName) (Py.lower keyword).

Definition synthesize_spec (declaredType parameterName : string) : json :=
  match find (fun entry => keyword_matches (fst entry) parameterName) example_values with
  | Some (_, value) => value
  | None =>
      match find (fun entry => String.eqb (fst entry) declaredType) example_values with
      | Some (_, value) => value
      | None => JStr "example_value"
      end
  end.

End ExampleGenerator.

(** ** The output tree

    A path is the list of its components below the output directory
    ([self.base_path], [self.api_dir]), the innermost name first, so [name]
    is the head and [parent] the tail; [[]] is the output directory itself.
    pathlib drops empty and ["."] components when it joins and keeps
    [".."]; the operating system's resolution of [".."] is not modelled, a
    component is a name.

    The tree is a list of entries in the order they were created; a
    directory is listed in that order ([glob], [rglob]). A file has its text
    and, when that text is a JSON document, the value [json.load] reads
    from it. *)

Definition path : Type := list string.
Bind Scope list_scope with path.

Definition name (p : path) : string := hd EmptyString p.
Definition parent (p : path) : path := tl p.

Definition nl : string := String (ascii_of_nat 10) EmptyString.

(** [s.split('/')] *)
Fixpoint split_slash (s : string) : list string :=
  match s with
  | EmptyString => [EmptyString]
  | String c t =>
      if Ascii.eqb c "/" then EmptyString :: split_slash t
      else match split_slash t with
           | [] => [String c EmptyString]
           | x :: r => String c x :: r
           end
  end.

(** The components pathlib keeps of a relative path text. *)
Definition parts (s : string) : list string :=
  filter (fun x => negb (String.eqb x "") && negb (String.eqb x ".")) (split_slash s).

(** Whether a path text has a component [..]: the operating system
    resolves it against the directories on the way, and the place it names
    is not the entry of the tree under these components. *)
Definition has_dotdot (s : string) : bool :=
  existsb (String.eqb "..") (split_slash s).

(** [d / s] for a text [s] that does not start with a slash. *)
Definition joinpath (d : path) (s : string) : path := (rev (parts s) ++ d)%list.

(** [str(p)], for the output directory written as [root]. *)
Definition path_str (root : string) (p : path) : string := Py.join "/" (root :: rev p).

Record file : Type := { text : string; parsed : option json }.

Inductive node : Type :=
| Dir
| File (f : file).

Definition tree : Type := list (path * node).
Bind Scope list_scope with tree.

Fixpoint path_eqb (p q : path) : bool :=
  match p, q with
  | [], [] => true
  | a :: p', b :: q' => String.eqb a b && path_eqb p' q'
  | _, _ => false
  end.

Fixpoint lookup (t : tree) (p : path) : option node :=
  match t with
  | [] => None
  | (q, n) :: rest => if path_eqb q p then Some n else lookup rest p
  end.

(** An existing entry is replaced where it stands, a new one goes last. *)
Fixpoint put (t : tree) (p : path) (n : node) : tree :=
  match t with
  | [] => [(p, n)]
  | (q, m) :: rest => if path_eqb q p then (q, n) :: rest else (q, m) :: put rest p n
  end.

(** [p.exists()], [p.is_dir()] *)
Definition exists_ (t : tree) (p : path) : bool :=
  match lookup t p with Some _ => true | None => false end.

Definition is_dir (t : tree) (p : path) : bool :=
  match lookup t p with Some Dir => true | _ => false end.

Definition os_error (k : exn_kind) (what root : string) (p : path) : exn :=
  Exn k (what ++ ": '" ++ path_str root p ++ "'").

Section FileSystem.

Variable root : string.

(** [os.mkdir(p)] *)
Definition os_mkdir (t : tree) (p : path) : result tree :=
  match lookup t p with
  | Some _ => Raise (os_error FileExistsError "[Errno 17] File exists" root p)
  | None =>
      match p with
      | [] => Ok (t ++ [(p, Dir)])%list
      | _ :: up =>
          match lookup t up with
          | Some Dir => Ok (t ++ [(p, Dir)])%list
          | Some (File _) =>
              Raise (os_error NotADirectoryError "[Errno 20] Not a directory" root p)
          | None =>
              Raise (os_error FileNotFoundError "[Errno 2] No such file or directory" root p)
          end
      end
  end.

(** [p.mkdir(exist_ok=True)] *)
Definition mkdir (t : tree) (p : path) : result tree :=
  match os_mkdir t p with
  | Ok t' => Ok t'
  | Raise e =>
      match kind e with
      | FileNotFoundError => Raise e
      | _ => if is_dir t p then Ok t else Raise e
      end
  end.

(** [p.mkdir(parents=True, exist_ok=True)]: pathlib tries the directory
    itself, and on [FileNotFoundError] makes the parent first. *)
Fixpoint mkdir_parents (t : tree) (p : path) : result tree :=
  match os_mkdir t p with
  | Ok t' => Ok t'
  | Raise e =>
      match kind e with
      | FileNotFoundError =>
          match p with
          | [] => Raise e
          | _ :: up => let* t1 := mkdir_parents t up in mkdir t1 p
          end
      | _ => if is_dir t p then Ok t else Raise e
      end
  end.

(** [open(p, 'w')] followed by the write of the whole content. *)
Definition write (t : tree) (p : path) (f : file) : result tree :=
  match lookup t p with
  | Some Dir => Raise (os_error IsADirectoryError "[Errno 21] Is a directory" root p)
  | Some (File _) => Ok (put t p (File f))
  | None =>
      match p with
      | [] => Ok (t ++ [(p, File f)])%list
      | _ :: up =>
          match lookup t up with
          | Some Dir => Ok (t ++ [(p, File f)])%list
          | Some (File _) =>
              Raise (os_error NotADirectoryError "[Errno 20] Not a directory" root p)
          | None =>
              Raise (os_error FileNotFoundError "[Errno 2] No such file or directory" root p)
          end
      end
  end.

(** [open(p)] followed by the read of the whole content. *)
Definition read (t : tree) (p : path) : result file :=
  match lookup t p with
  | Some (File f) => Ok f
  | Some Dir => Raise (os_error IsADirectoryError "[Errno 21] Is a directory" root p)
  | None => Raise (os_error FileNotFoundError "[Errno 2] No such file or directory" root p)
  end.

End FileSystem.

(** [json.dump(v, f, indent=2)] and [f.write(s)] as file contents. The one
    text the splitter writes with [f.write] is a Markdown document, which
    starts with ["# "] and is no JSON document. *)
Definition json_file (h : host) (v : json) : file :=
  {| text := dumps h v; parsed := Some v |}.

Definition text_file (s : string) : file :=
  {| text := s; parsed := None |}.

(** [json.load(f)] *)
Definition json_load (h : host) (f : file) : result json :=
  match parsed f with
  | Some v => Ok v
  | None => Raise (Exn JSONDecodeError (decode_error h (text f)))
  end.

(** The entries directly inside [d], in listing order. *)
Definition children (t : tree) (d : path) : list path :=
  map fst (filter (fun e => match fst e with
                            | [] => false
                            | _ :: up => path_eqb up d
                            end) t).

(** [d.glob('*/')] followed by the loop's own test: the directories
    directly inside [d] whose name does not start with a dot. *)
Definition family_dirs (t : tree) (d : path) : list path :=
  filter (fun p => is_dir t p && negb (Py.startswith (name p) ".")) (children t d).

(** What the run works on: the tree and the number of clock readings
    taken so far. *)
Record world : Type := { files : tree; ticks : nat }.

(** [datetime.now()] *)
Definition now (h : host) (w : world) : datetime * world :=
  (clock h (ticks w), {| files := files w; ticks := S (ticks w) |}).

Definition on_files (f : tree -> result tree) (w : world) : result world :=
  let* t := f (files w) in Ok {| files := t; ticks := ticks w |}.

Module ApiDocGenerator.

(** [self.validation_rules] *)
Definition validation_rules : list (string * ValidationRule) :=
  [ ("ip", {| type := "ip";
              pattern := "^(\d{1,3}\.){3}\d{1,3}(/\d{1,2})?$";
              rule_description := "IPv4 address with optional CIDR";
              example := "192.168.88.1" |});
    ("mac", {| type := "mac";
               pattern := "^([0-9A-Fa-f]{2}[:-]){5}([0-9A-Fa-f]{2})$";
               rule_description := "MAC address in XX:XX:XX:XX:XX:XX format";
               example := "00:0C:29:45:67:89" |});
    ("interface", {| type := "interface";
                     pattern := "^[a-zA-Z0-9-_]+$";
                     rule_description := "Interface name";
                     example := "ether1" |}) ].

Section Render.

Variable h : host.

(** One row of the parameter table. *)
Definition parameter_row (entry : string * json) (md : list string) : result (list string) :=
  let (param, param_details) := entry in
  let* req := Py.dget param_details "required" (JBool false) in
  let required := if Py.truthy req then "Yes" else "No" in
  let* desc := Py.dget param_details "description" (JStr "") in
  let* ty := Py.dget param_details "type" (JStr "") in
  Ok (Py.append md ("| " ++ param ++ " | " ++ format h ty ++ " | " ++ required
                    ++ " | " ++ format h desc ++ " |" ++ nl)).

(** The body of the loop over [endpoint_data.get('endpoints', {})]. *)
Definition method_section (entry : string * json) (md : list string) : result (list string) :=
  let (method, details) := entry in
  let md := Py.extend md ["### " ++ Py.upper method ++ nl;
                          "#### Parameters" ++ nl;
                          "| Name | Type | Required | Description |" ++ nl;
                          "|------|------|----------|-------------|" ++ nl] in
  let* has_parameters := Py.vin "parameters" details in
  let* md :=
    if has_parameters : bool then
      let* ps := Py.subscript details "parameters" in
      let* rows := Py.items ps in
      Py.for_each rows parameter_row md
    else Ok md in
  let* has_examples := Py.vin "examples" details in
  let* md :=
    if has_examples : bool then
      let* ex := Py.subscript details "examples" in
      Ok (Py.extend md [nl ++ "#### Examples" ++ nl; "```json" ++ nl;
                        dumps h ex; nl ++ "```" ++ nl])
    else Ok md in
  let* has_validation := Py.vin "validation" details in
  if has_validation : bool then
    let* va := Py.subscript details "validation" in
    Ok (Py.extend md [nl ++ "#### Validation Rules" ++ nl; "```json" ++ nl;
                      dumps h va; nl ++ "```" ++ nl])
  else Ok md.

(** The list [md] at the [return] of [generate_markdown]. *)
Definition markdown_lines (endpoint_data : dict) (path : string) (w : world)
  : result (list string * world) :=
  let (t, w) := now h w in
  let md := ["# " ++ path ++ " API Documentation" ++ nl;
             "Generated on: " ++ strftime t ++ nl] in
  let* md :=
    if Py.has_key endpoint_data "description" then
      let* d := Py.subscript (JObj endpoint_data) "description" in
      Ok (Py.extend md ["## Description" ++ nl; format h d ++ nl])
    else Ok md in
  let md := Py.append md ("## Endpoints" ++ nl) in
  let* sections := Py.items (Py.get_default endpoint_data "endpoints" (JObj [])) in
  let* md := Py.for_each sections method_section md in
  Ok (md, w).

Definition generate_markdown (endpoint_data : dict) (path : string) (w : world)
  : result (string * world) :=
  let* (md, w) := markdown_lines endpoint_data path w in
  Ok (String.concat "" md, w).

End Render.

End ApiDocGenerator.

Module EnhancedRamlSplitter.

Section Splitter.

Variable h : host.
Variable output_dir : string.

(** [get_validation_rules]: the loop body and the function. *)
Definition validation_step (entry : string * json) (rules : dict) : result dict :=
  let (param, details) := entry in
  let* param_type := Py.dget details "type" (JStr "string") in
  match param_type with
  | JStr t =>
      match Py.get ApiDocGenerator.validation_rules t with
      | Some rule => Ok (Py.set rules param (ValidationRule_dict rule))
      | None => Ok rules
      end
  | JArr _ | JObj _ => Py.unhashable param_type
  | _ => Ok rules
  end.

Definition get_validation_rules (data : dict) : result dict :=
  let* ps := Py.items (Py.get_default data "parameters" (JObj [])) in
  Py.for_each ps validation_step [].

(** The mapping [enhanced_data] of [process_endpoint]. *)
Definition enhanced_data (endpoint : string) (data : dict) (examples : ApiExample)
    (validation : dict) : dict :=
  [ ("endpoint", JStr endpoint);
    ("data", JObj data);
    ("examples", ApiExample_dict examples);
    ("validation", JObj validation) ].

(** The two file names of an endpoint, as texts relative to the family
    directory and to its [docs]. *)
Definition endpoint_file_name (endpoint : string) : string :=
  Py.strip "/" endpoint ++ ".json".

Definition doc_file_name (endpoint : string) : string :=
  Py.strip "/" endpoint ++ ".md".

Definition process_endpoint (endpoint : string) (data : dict) (family_dir : path) (w : world)
  : result (dict * world) :=
  let* examples :=
    ExampleGenerator.generate_example_for_endpoint h endpoint
      (Py.get_default data "method" (JStr "GET"))
      (Py.get_default data "parameters" (JObj [])) in
  let* validation := get_validation_rules data in
  let enhanced := enhanced_data endpoint data examples validation in
  let endpoint_file := joinpath family_dir (endpoint_file_name endpoint) in
  let* w := on_files (fun t => write output_dir t endpoint_file (json_file h (JObj enhanced))) w in
  let doc_file := joinpath (joinpath family_dir "docs") (doc_file_name endpoint) in
  let* (doc_content, w) := ApiDocGenerator.generate_markdown h enhanced endpoint w in
  let* w := on_files (fun t => write output_dir t doc_file (text_file doc_content)) w in
  Ok (enhanced, w).

(** The loop body of [process_family]: the list is
    [family_index["endpoints"]]. *)
Definition family_step (family_dir : path) (entry : string * json) (s : list json * world)
  : result (list json * world) :=
  let (endpoint, data) := entry in
  let (endpoints, w) := s in
  match data with
  | JObj d =>
      let* (processed_endpoint, w) := process_endpoint endpoint d family_dir w in
      Ok (Py.append endpoints (JObj processed_endpoint), w)
  | _ => Ok (endpoints, w)
  end.

Definition family_index (family : string) (endpoints : list json) : json :=
  JObj [("family", JStr family); ("endpoints", JArr endpoints); ("examples", JArr [])].

Definition process_family (family : string) (endpoints : json) (family_dir : path) (w : world)
  : result world :=
  let* es := Py.items endpoints in
  let* (processed, w) := Py.for_each es (family_step family_dir) ([], w) in
  on_files (fun t => write output_dir t (joinpath family_dir "_index.json")
                       (json_file h (family_index family processed))) w.

Definition create_family_directory (family : string) (w : world) : result (path * world) :=
  let family_dir := joinpath [] family in
  let* w := on_files (fun t => mkdir_parents output_dir t family_dir) w in
  let* w := on_files (fun t => mkdir output_dir t (joinpath family_dir "docs")) w in
  Ok (family_dir, w).

(** The loop body of [split_raml]. *)
Definition split_step (entry : string * json) (w : world) : result world :=
  let (family, endpoints) := entry in
  if Py.startswith family "/" then
    let* (family_dir, w) := create_family_directory (Py.strip "/" family) w in
    process_family family endpoints family_dir w
  else Ok w.

Definition split_raml (raml_content : json) (w : world) : result world :=
  let* fs := Py.items raml_content in
  Py.for_each fs split_step w.

Definition create_directory_structure (w : world) : result world :=
  Py.for_each [ []; joinpath [] "docs"; joinpath [] "examples" ]
    (fun dir_path => on_files (fun t => mkdir_parents output_dir t dir_path)) w.

(** The loop body of [generate_index]: the list is [index["families"]]. *)
Definition index_step (t : tree) (family_dir : path) (families : list json)
  : result (list json) :=
  let index_file := joinpath family_dir "_index.json" in
  if exists_ t index_file then
    let* f := read output_dir t index_file in
    let* family_data := json_load h f in
    Ok (Py.append families family_data)
  else Ok families.

Definition root_index (t : datetime) (families : list json) : json :=
  JObj [("generated_at", JStr (isoformat t)); ("families", JArr families)].

Definition generate_index (w : world) : result world :=
  let (t, w) := now h w in
  let* families := Py.for_each (family_dirs (files w) []) (index_step (files w)) [] in
  on_files (fun tr => write output_dir tr (joinpath [] "index.json")
                        (json_file h (root_index t families))) w.

(** [process_raml], on the document [load_raml] has read. *)
Definition process_raml (raml_content : json) (w : world) : result world :=
  let* w := create_directory_structure w in
  let* w := split_raml raml_content w in
  generate_index w.

End Splitter.

End EnhancedRamlSplitter.

(** ** [raml_validator.py] *)

Record RamlValidator : Type := {
  api_dir : string;
  errors : list string;
  warnings : list string
}.

(** [RamlValidator(api_dir)] *)
Definition new_validator (dir : string) : RamlValidator :=
  {| api_dir := dir; errors := []; warnings := [] |}.

(** Code of the validator changes [self.errors] and [self.warnings] and
    may raise; what it has appended before it raises stays. *)
Definition check (A : Type) : Type := RamlValidator -> RamlValidator * result A.

Definition ret {A : Type} (a : A) : check A := fun self => (self, Ok a).

Definition lift {A : Type} (r : result A) : check A := fun self => (self, r).

Definition and_then {A B : Type} (c : check A) (k : A -> check B) : check B :=
  fun self =>
    match c self with
    | (self', Ok a) => k a self'
    | (self', Raise e) => (self', Raise e)
    end.

Notation "'do' x '<-' c ';' k" := (and_then c (fun x => k))
  (at level 10, x pattern, c at level 100, k at level 200).

(** [self.errors.append(msg)], [self.warnings.append(msg)] *)
Definition add_error (msg : string) : check unit :=
  fun self => ({| api_dir := api_dir self; errors := Py.append (errors self) msg;
                  warnings := warnings self |}, Ok tt).

Definition add_warning (msg : string) : check unit :=
  fun self => ({| api_dir := api_dir self; errors := errors self;
                  warnings := Py.append (warnings self) msg |}, Ok tt).

(** [try: body  except Exception as e: self.errors.append(handler(e))] *)
Definition try_except (body : check unit) (handler : exn -> string) (self : RamlValidator)
  : RamlValidator :=
  match body self with
  | (self', Ok _) => self'
  | (self', Raise e) => fst (add_error (handler e) self')
  end.

(** A [for] loop inside a [try]. *)
Fixpoint each {A : Type} (xs : list A) (body : A -> check unit) : check unit :=
  match xs with
  | [] => ret tt
  | x :: rest => do _ <- body x; each rest body
  end.

(** A [for] loop whose body handles its own exceptions. *)
Fixpoint loop {A : Type} (xs : list A) (body : A -> RamlValidator -> RamlValidator)
    (self : RamlValidator) : RamlValidator :=
  match xs with
  | [] => self
  | x :: rest => loop rest body (body x self)
  end.

(** [d.rglob('*' + suffix)]: every entry below [d = []] whose name ends
    with the suffix; [(d / sub).glob('*' + suffix)]: those directly in
    [sub]. *)
Definition rglob (t : tree) (suffix : string) : list path :=
  filter (fun p => match p with
                   | [] => false
                   | n :: _ => Py.endswith n suffix
                   end) (map fst t).

Definition glob_in (t : tree) (d : path) (suffix : string) : list path :=
  filter (fun p => Py.endswith (name p) suffix) (children t d).

Module Validator.

Section Checks.

Variable h : host.
Variable t : tree.

Definition pstr (self : RamlValidator) (p : path) : string := path_str (api_dir self) p.

(** [if field not in data: self.errors.append(msg(field))], for each
    field. *)
Definition require (fields : list string) (data : json) (msg : string -> string) : check unit :=
  each fields (fun field =>
    do present <- lift (Py.vin field data);
    if present : bool then ret tt else add_error (msg field)).

Definition validate_directory_structure (self : RamlValidator) : RamlValidator :=
  let self :=
    loop ["docs"; "examples"] (fun dir_name self =>
      if exists_ t (joinpath [] dir_name) then self
      else fst (add_error ("Missing required directory: " ++ dir_name) self)) self in
  loop (family_dirs t []) (fun family_dir self =>
    let self :=
      if exists_ t (joinpath family_dir "docs") then self
      else fst (add_error ("Missing docs directory in " ++ name family_dir) self) in
    if exists_ t (joinpath family_dir "_index.json") then self
    else fst (add_error ("Missing _index.json in " ++ name family_dir) self)) self.

Definition validate_index_files (self : RamlValidator) : RamlValidator :=
  let main_index_path := joinpath [] "index.json" in
  if exists_ t main_index_path then
    try_except
      (do f <- lift (read (api_dir self) t main_index_path);
       do data <- lift (json_load h f);
       do present <- lift (Py.vin "families" data);
       if present : bool then ret tt else add_error "Missing 'families' in main index.json")
      (fun e => "Error validating main index.json: " ++ message e) self
  else fst (add_error "Missing main index.json" self).

Definition _validate_index_file (data : json) (file_path : string) : check unit :=
  require ["family"; "endpoints"] data
    (fun field => "Missing required field '" ++ field ++ "' in " ++ file_path).

(** The class has no method [_validate_examples]: the call in
    [_validate_endpoint_file] raises on the attribute, before its
    arguments are looked at. *)
Definition _validate_endpoint_file (data : json) (file_path : string) : check unit :=
  do _ <- require ["endpoint"; "data"] data
            (fun field => "Missing required field '" ++ field ++ "' in " ++ file_path);
  do present <- lift (Py.vin "examples" data);
  if present : bool then
    lift (Raise (Exn AttributeError
                   "'RamlValidator' object has no attribute '_validate_examples'"))
  else ret tt.

(** What [validate_json_files] does with one file: the body of its loop. *)
Definition check_json_file (json_file : path) (self : RamlValidator) : RamlValidator :=
  match
    (do f <- lift (read (api_dir self) t json_file);
     do data <- lift (json_load h f);
     if String.eqb (name json_file) "_index.json" then
       _validate_index_file data (pstr self json_file)
     else if Py.endswith (name json_file) ".json" then
       _validate_endpoint_file data (pstr self json_file)
     else ret tt) self
  with
  | (self', Ok _) => self'
  | (self', Raise e) =>
      match kind e with
      | JSONDecodeError =>
          fst (add_error ("Invalid JSON in " ++ pstr self json_file ++ ": " ++ message e) self')
      | _ =>
          fst (add_error ("Error processing " ++ pstr self json_file ++ ": " ++ message e) self')
      end
  end.

Definition validate_json_files (self : RamlValidator) : RamlValidator :=
  loop (rglob t ".json") check_json_file self.

(** [md_file.read_text()] *)
Definition read_text (self : RamlValidator) (p : path) : result string :=
  let* f := read (api_dir self) t p in Ok (text f).

Definition check_markdown_file (md_file : path) (self : RamlValidator) : RamlValidator :=
  try_except
    (do content <- lift (read_text self md_file);
     each ["# "; "## Description"; "## Endpoints"] (fun section =>
       if Py.contains content section then ret tt
       else add_warning ("Missing section '" ++ section ++ "' in " ++ pstr self md_file)))
    (fun e => "Error reading markdown file " ++ pstr self md_file ++ ": " ++ message e) self.

Definition validate_markdown_files (self : RamlValidator) : RamlValidator :=
  loop (rglob t ".md") check_markdown_file self.

Definition check_example_file (json_file : path) (self : RamlValidator) : RamlValidator :=
  try_except
    (do f <- lift (read (api_dir self) t json_file);
     do data <- lift (json_load h f);
     require ["request"; "response"] data
       (fun field => "Missing required field '" ++ field ++ "' in example "
                     ++ pstr self json_file))
    (fun e => "Error validating example " ++ pstr self json_file ++ ": " ++ message e) self.

Definition validate_examples (self : RamlValidator) : RamlValidator :=
  loop (glob_in t (joinpath [] "examples") ".json") check_example_file self.

(** [(self.api_dir / family).exists()]: a text that starts with a slash
    replaces the directory, and one with a component [..] is resolved by
    the operating system: for both the answer is the host's. Anything but
    a text is a [TypeError]. *)
Definition family_exists (family : json) : result bool :=
  match family with
  | JStr s =>
      if Py.startswith s "/" || has_dotdot s then Ok (exists_outside h s)
      else Ok (exists_ t (joinpath [] s))
  | _ => Raise (Exn TypeError
                  ("unsupported operand type(s) for /: 'PosixPath' and '"
                   ++ Py.type_name family ++ "'"))
  end.

Definition validate_references (self : RamlValidator) : RamlValidator :=
  try_except
    (do f <- lift (read (api_dir self) t (joinpath [] "index.json"));
     do main_index <- lift (json_load h f);
     do families <- lift (Py.dget main_index "families" (JArr []));
     do items <- lift (Py.iterate families);
     each items (fun family =>
       do found <- lift (family_exists family);
       if found : bool then ret tt
       else add_error ("Referenced family directory does not exist: " ++ format h family)))
    (fun e => "Error validating cross-references: " ++ message e) self.

(** [validate_all]: the validator after the six passes, and the value
    returned, [len(self.errors) == 0]. [report_results] prints and changes
    nothing. *)
Definition run_all (self : RamlValidator) : RamlValidator :=
  let self := validate_directory_structure self in
  let self := validate_index_files self in
  let self := validate_json_files self in
  let self := validate_markdown_files self in
  let self := validate_examples self in
  validate_references self.

Definition validate_all (self : RamlValidator) : RamlValidator * bool :=
  let self := run_all self in
  (self, Nat.eqb (List.length (errors self)) 0).

End Checks.

End Validator.

(** ** Vocabulary of the statements *)

(** A parameter description the synthesizer accepts: a mapping whose
    [type], when it has one, can be hashed. *)
Definition typed_parameter (param_info : json) : bool :=
  match param_info with
  | JObj d => Py.hashable (Py.get_default d "type" (JStr "string"))
  | _ => false
  end.

Definition parameter_mapping (params : dict) : bool :=
  forallb (fun entry => typed_parameter (snd entry)) params.


(** The last character of a text. *)
Fixpoint last_char (s : string) : option ascii :=
  match s with
  | EmptyString => None
  | String c EmptyString => Some c
  | String _ t => last_char t
  end.

(** The findings of [extra] added after those of [self]; a validator of the
    same directory with no findings yet. *)
Definition merge (self extra : RamlValidator) : RamlValidator :=
  {| api_dir := api_dir self;
     errors := errors self ++ errors extra;
     warnings := warnings self ++ warnings extra |}.

Definition fresh (self : RamlValidator) : RamlValidator := new_validator (api_dir self).

(** Code that only adds findings, and adds the same ones whatever was found
    before. *)
Definition framed {A : Type} (c : check A) : Prop :=
  forall self, c self = (merge self (fst (c (fresh self))), snd (c (fresh self))).

Definition framed_pass (f : RamlValidator -> RamlValidator) : Prop :=
  forall self, f self = merge self (f (fresh self)).

(** *** Two runs of the splitter *)

(** The entries of a tree with their kinds, in order. *)
Definition is_dir_node (n : node) : bool :=
  match n with Dir => true | File _ => false end.

Definition shape (t : tree) : list (path * bool) :=
  map (fun e => (fst e, is_dir_node (snd e))) t.

(** Every entry of [t] is in [t'] with the same kind. *)
Definition below (t t' : tree) : Prop :=
  forall q n, lookup t q = Some n ->
    exists n', lookup t' q = Some n' /\ is_dir_node n' = is_dir_node n.

(** The Markdown written for an endpoint at a time whose [strftime] text
    is [stamp]. *)
Definition md_text (endpoint stamp : string) : string :=
  String.concat "" [ "# " ++ endpoint ++ " API Documentation" ++ nl;
                     "Generated on: " ++ stamp ++ nl;
                     "## Endpoints" ++ nl ].

(** What is at a path after one run and after another is the same up to
    the time of the run: equal; or under a name in [.md] two Markdown
    documents of one endpoint that differ in the text after
    [Generated on:] only; or at [index.json] two root indexes that differ
    in [generated_at] only. *)
Definition same_up_to_time (h : host) (p : path) (x y : option node) : Prop :=
  x = y
  \/ (Py.endswith (name p) ".md" = true
      /\ exists endpoint stamp1 stamp2,
           x = Some (File (text_file (md_text endpoint stamp1)))
           /\ y = Some (File (text_file (md_text endpoint stamp2))))
  \/ (p = ["index.json"]
      /\ exists t1 t2 families,
           x = Some (File (json_file h (EnhancedRamlSplitter.root_index t1 families)))
           /\ y = Some (File (json_file h (EnhancedRamlSplitter.root_index t2 families)))).

(** The second run, now at [b], has done again what the first run had done
    when it was at [a]; [final] is the tree the first run ended with. *)
Definition replays (h : host) (final : tree) (a b : tree) : Prop :=
  shape b = shape final
  /\ forall q, same_up_to_time h q (lookup a q) (lookup b q) \/ lookup b q = lookup final q.

(** What the directory operations change: nothing, or an absent path that
    becomes a directory. *)
Definition adds_directories (t t' : tree) : Prop :=
  forall q, lookup t' q = lookup t q \/ (lookup t q = None /\ lookup t' q = Some Dir).

(** The file at [p] is the descriptor of an endpoint, as [process_endpoint]
    writes it. *)
Definition descriptor_at (h : host) (t : tree) (p : path) : Prop :=
  exists endpoint data examples validation,
    lookup t p
    = Some (File (json_file h
                    (JObj (EnhancedRamlSplitter.enhanced_data endpoint data examples
                             validation)))).

(** What the splitter leaves of a tree: every entry is still there as it
    was, or it was a file under a name in [.json] or [.md] and is a file
    still, with another content. *)
Definition kept (t t' : tree) : Prop :=
  forall q n, lookup t q = Some n ->
    lookup t' q = Some n
    \/ (exists f f', n = File f /\ lookup t' q = Some (File f')
                     /\ Py.endswith (name q) ".json" || Py.endswith (name q) ".md" = true).

(** A step of the splitter on a state [S] that holds the tree [tr s]:
    [mono], it keeps what is in the tree; [replay], when the first run
    has taken the step from [a] the second run can take it from [b], and
    ends where the first run's work is done again. [same] relates the rest
    of the two states. *)
Definition mono {S : Type} (tr : S -> tree) (f : S -> result S) : Prop :=
  forall a a', f a = Ok a' -> below (tr a) (tr a').

Definition replay {S : Type} (h : host) (tr : S -> tree) (same : S -> S -> Prop)
    (f : S -> result S) : Prop :=
  forall final a a' b,
    f a = Ok a' -> below (tr a') final -> same a b -> replays h final (tr a) (tr b) ->
    exists b', f b = Ok b' /\ same a' b' /\ replays h final (tr a') (tr b').

(** The tree of the state of the loop of [process_family]; the relation
    between the states of that loop in two runs, and between two worlds. *)
Definition family_tree (s : list json * world) : tree := files (snd s).

Definition same_list (a b : list json * world) : Prop := fst a = fst b.

Definition any_world (a b : world) : Prop := True.

(** The findings that mention a text. *)
Definition mentioning (what : string) (findings : list string) : list string :=
  filter (fun finding => Py.contains finding what) findings.

(** A host for the closed examples: the serializer, the formatter and the
    decoder message are place holders, the clock advances by one second
    at each reading. *)
Definition digit (n : nat) : string := String (ascii_of_nat (48 + n mod 10)) EmptyString.

Definition demo_host : host :=
  {| dumps := fun _ => "{...}";
     repr := fun v => "<" ++ Py.type_name v ++ ">";
     decode_error := fun _ => "Expecting value: line 1 column 1 (char 0)";
     clock := fun n => {| strftime := "2024-05-01 12:00:0" ++ digit n;
                          isoformat := "2024-05-01T12:00:0" ++ digit n ++ ".000000" |};
     exists_outside := fun _ => false |}.

(** A tree with the two required directories and one file in
    [examples]. *)
Definition tree_with_example (content : json) : tree :=
  [ ([], Dir); (["docs"], Dir); (["examples"], Dir);
    (["foo.json"; "examples"], File (json_file demo_host content)) ].

(** A document with one family and one endpoint, which has a description
    and a parameter. *)
Definition demo_document : json :=
  JObj [ ("title", JStr "RouterOS");
         ("/interface",
          JObj [ ("/ethernet",
                  JObj [ ("method", JStr "GET");
                         ("description", JStr "Ethernet ports");
                         ("parameters",
                          JObj [ ("ip-address",
                                  JObj [ ("type", JStr "ip");
                                         ("required", JBool true);
                                         ("description", JStr "Address") ]) ]) ]) ]) ].

Definition empty_world : world := {| files := []; ticks := 0 |}.


Definition index_named_document : json :=
  JObj [ ("/interface", JObj [ ("/_index", JObj []) ]) ].

(** A tree with an unreadable JSON file listed before a readable one that
    lacks the key [data]. *)
Definition tree_with_corrupt_file : tree :=
  [ ([], Dir);
    (["a.json"], File (text_file "{oops"));
    (["b.json"], File (json_file demo_host (JObj [("endpoint", JStr "/b")]))) ].

(** *** Shapes of values *)

(** [isinstance(v, dict)], [isinstance(v, str)] *)
Definition is_mapping (v : json) : bool :=
  match v with JObj _ => true | _ => false end.

Definition is_string (v : json) : bool :=
  match v with JStr _ => true | _ => false end.

(** A tree that lacks [docs], and one that lacks [index.json]. *)
Definition tree_without_docs : tree :=
  [ ([], Dir); (["examples"], Dir);
    (["index.json"], File (json_file demo_host (JObj [("families", JArr [])]))) ].

Definition tree_without_index : tree :=
  [ ([], Dir); (["docs"], Dir); (["examples"], Dir) ].

(** [p] is there and is a file. *)
Definition is_file (t : tree) (p : path) : bool :=
  match lookup t p with Some (File _) => true | _ => false end.

(** A tree in which [docs] is a file. *)
Definition tree_with_docs_file : tree :=
  [ ([], Dir); (["docs"], File (text_file "notes")) ].

(** *** The lines of a Markdown document *)

(** The two lines every document starts with, the section of the
    description when the descriptor has the key, and the four lines a
    method section starts with. *)
Definition md_head (h : host) (path : string) (w : world) : list string :=
  [ "# " ++ path ++ " API Documentation" ++ nl;
    "Generated on: " ++ strftime (clock h (ticks w)) ++ nl ].

Definition md_description (h : host) (data : dict) : list string :=
  if Py.has_key data "description"
  then [ "## Description" ++ nl; format h (Py.get_default data "description" JNull) ++ nl ]
  else [].

Definition md_endpoints : list string := [ "## Endpoints" ++ nl ].

Definition method_head (method : string) : list string :=
  [ "### " ++ Py.upper method ++ nl;
    "#### Parameters" ++ nl;
    "| Name | Type | Required | Description |" ++ nl;
    "|------|------|----------|-------------|" ++ nl ].

(** * Properties *)

#[local] Arguments Ascii.eqb : simpl never.
#[local] Arguments String.eqb : simpl never.

Lemma bind_Ok_inv {A B : Type} (r : result A) (k : A -> result B) (b : B) :
  bind r k = Ok b -> exists a, r = Ok a /\ k a = Ok b.
Proof.
  destruct r as [a | e]; simpl; intros H; [exists a; split; auto | discriminate].
Qed.

(** ** Strings *)

Lemma startswith_spec (s p : string) :
  Py.startswith s p = true <-> exists t, s = p ++ t.
Proof.
  revert s; induction p as [| a p IH]; intros s; simpl.
  - split; [intros _; exists s; reflexivity | intros _; destruct s; reflexivity].
  - destruct s as [| b s]; simpl.
    + split; [discriminate | intros [t Ht]; discriminate].
    + rewrite andb_true_iff, Ascii.eqb_eq, IH. split.
      * intros [-> [t ->]]. exists t. reflexivity.
      * intros [t Ht]. injection Ht as -> ->. split; [reflexivity | exists t; reflexivity].
Qed.

Lemma contains_nil (k : string) :
  Py.contains "" k = Py.startswith "" k.
Proof. simpl. apply orb_false_r. Qed.

Lemma contains_cons (c : ascii) (s k : string) :
  Py.contains (String c s) k = Py.startswith (String c s) k || Py.contains s k.
Proof. reflexivity. Qed.

Lemma contains_spec (s k : string) :
  Py.contains s k = true <-> exists pre post, s = pre ++ k ++ post.
Proof.
  induction s as [| c s IH].
  - rewrite contains_nil, startswith_spec. split.
    + intros [t Ht]. exists "", t. exact Ht.
    + intros [pre [post H]]. destruct pre; [exists post; exact H | discriminate].
  - rewrite contains_cons, orb_true_iff, startswith_spec, IH. split.
    + intros [[t Ht] | [pre [post H]]].
      * exists "", t. exact Ht.
      * exists (String c pre), post. simpl. rewrite H. reflexivity.
    + intros [pre [post H]]. destruct pre as [| a pre]; simpl in H.
      * left. exists post. exact H.
      * right. injection H as _ H. exists pre, post. exact H.
Qed.

Lemma lower_app (a b : string) : Py.lower (a ++ b) = Py.lower a ++ Py.lower b.
Proof.
  induction a as [| c a IH]; simpl; [reflexivity | rewrite IH; reflexivity].
Qed.

Lemma contains_lower (name pre mid post : string) :
  name = pre ++ mid ++ post ->
  Py.contains (Py.lower name) (Py.lower mid) = true.
Proof.
  intros ->. apply contains_spec.
  exists (Py.lower pre), (Py.lower post). rewrite !lower_app. reflexivity.
Qed.

(** ** The example synthesizer *)

Ltac split_on_contains :=
  repeat match goal with
         | |- context [Py.contains ?n ?k] => destruct (Py.contains n k) eqn:?; cbn
         end.

Lemma get_default_as_find {V : Type} (d : list (string * V)) (k : string) (default : V) :
  match find (fun entry => String.eqb (fst entry) k) d with
  | Some (_, value) => value
  | None => default
  end = Py.get_default d k default.
Proof.
  unfold Py.get_default. induction d as [| [k' v] d IH]; simpl; [reflexivity |].
  destruct (String.eqb k' k); [reflexivity | exact IH].
Qed.

(** C5. For every declared type and parameter name that are strings,
    [get_example_value] returns a value, and it is the one the resolution
    order of the specification gives: first keyword of the table found,
    case-insensitively, in the name; else the table entry of the declared
    type; else ["example_value"]. *)
Theorem get_example_value_resolution (declaredType parameterName : string) :
  ExampleGenerator.get_example_value (JStr declaredType) parameterName
  = Ok (ExampleGenerator.synthesize_spec declaredType parameterName).
Proof.
  unfold ExampleGenerator.get_example_value, ExampleGenerator.synthesize_spec,
    ExampleGenerator.keyword_matches.
  rewrite get_default_as_find.
  generalize (Py.get_default ExampleGenerator.example_values declaredType
                (JStr "example_value")) as by_type.
  generalize (Py.lower parameterName) as n. intros n by_type.
  cbv -[Py.contains].
  split_on_contains; reflexivity.
Qed.

(** C6. A parameter name in which ["ip"] occurs, in any mix of cases, gets
    the example IP address, whatever the declared type is. *)
Theorem ip_in_name_gives_example_ip (param_type : json) (pre mid post : string) :
  Py.lower mid = "ip" ->
  ExampleGenerator.get_example_value param_type (pre ++ mid ++ post)
  = Ok (JStr "192.168.88.1").
Proof.
  intros Hmid. unfold ExampleGenerator.get_example_value.
  assert (H : Py.contains (Py.lower (pre ++ mid ++ post)) "ip" = true).
  { rewrite <- Hmid. apply (contains_lower _ pre mid post). reflexivity. }
  cbn. rewrite H. reflexivity.
Qed.

Lemma ip_in_name_gives_example_ip_witness :
  Py.lower "IP" = "ip" /\
  ExampleGenerator.get_example_value (JStr "ipv6") ("src-" ++ "IP" ++ "v6-address")
  = Ok (JStr "192.168.88.1").
Proof.
  split; [reflexivity |].
  apply (ip_in_name_gives_example_ip (JStr "ipv6") "src-" "IP" "v6-address").
  reflexivity.
Defined.

Lemma get_example_value_total (param_type : json) (param_name : string) :
  Py.hashable param_type = true ->
  exists v, ExampleGenerator.get_example_value param_type param_name = Ok v.
Proof.
  intros Hh. unfold ExampleGenerator.get_example_value.
  generalize (Py.lower param_name) as n. intros n.
  cbv -[Py.contains Py.get_default Py.unhashable].
  split_on_contains; eauto.
  destruct param_type; simpl in Hh; try discriminate; eauto.
Qed.

Lemma request_body_total (params request_body : dict) :
  parameter_mapping params = true ->
  exists body, Py.for_each params ExampleGenerator.request_body_step request_body = Ok body.
Proof.
  revert request_body. induction params as [| [param_name param_info] rest IH];
    intros request_body Hp; simpl.
  - eauto.
  - simpl in Hp. apply andb_true_iff in Hp as [Hinfo Hrest].
    destruct param_info; simpl in Hinfo; try discriminate. simpl.
    destruct (get_example_value_total _ param_name Hinfo) as [v ->]. simpl.
    apply IH. exact Hrest.
Qed.

(** C10. For a method that is a string and a parameter mapping, an example
    is synthesized; its response has status 200 and a body fixed by the
    method in lower case: ["get"] wraps the request body in [items],
    ["post"] gives the result pair, anything else the status pair. *)
Theorem example_response_by_method (h : host) (endpoint_path m : string) (params : dict) :
  parameter_mapping params = true ->
  exists (ex : ApiExample) (request_body : dict) (response_body : json),
    ExampleGenerator.generate_example_for_endpoint h endpoint_path (JStr m) (JObj params)
    = Ok ex
    /\ request ex = JObj [("method", JStr m); ("path", JStr endpoint_path);
                          ("body", JObj request_body)]
    /\ response ex = JObj [("status", JNum 200); ("body", response_body)]
    /\ (Py.lower m = "get" -> response_body = JObj [("items", JArr [JObj request_body])])
    /\ (Py.lower m = "post" ->
        response_body = JObj [("result", JStr "success"); ("ret", JStr "done")])
    /\ (Py.lower m <> "get" -> Py.lower m <> "post" ->
        response_body = JObj [("status", JStr "success")]).
Proof.
  intros Hp. unfold ExampleGenerator.generate_example_for_endpoint. simpl.
  destruct (request_body_total params [] Hp) as [body ->]. simpl.
  eexists _, body, _. split; [reflexivity |]. simpl.
  split; [reflexivity |]. split; [reflexivity |].
  destruct (String.eqb (Py.lower m) "get") eqn:Eget.
  - apply String.eqb_eq in Eget. repeat split; try reflexivity.
    + rewrite Eget. discriminate.
    + intros Hn. contradiction.
  - apply String.eqb_neq in Eget.
    destruct (String.eqb (Py.lower m) "post") eqn:Epost.
    + apply String.eqb_eq in Epost. repeat split; try reflexivity.
      * intros Hg. contradiction.
      * intros _ Hn. contradiction.
    + apply String.eqb_neq in Epost. repeat split; try reflexivity.
      * intros Hg. contradiction.
      * intros Hq. contradiction.
Qed.

Lemma example_response_by_method_witness :
  exists (ex : ApiExample) (request_body : dict) (response_body : json),
    ExampleGenerator.generate_example_for_endpoint demo_host "/ethernet" (JStr "GET")
      (JObj [("ip-address", JObj [("type", JStr "ip")]); ("name", JObj [])])
    = Ok ex
    /\ request ex = JObj [("method", JStr "GET"); ("path", JStr "/ethernet");
                          ("body", JObj request_body)]
    /\ response ex = JObj [("status", JNum 200); ("body", response_body)]
    /\ (Py.lower "GET" = "get" -> response_body = JObj [("items", JArr [JObj request_body])])
    /\ (Py.lower "GET" = "post" ->
        response_body = JObj [("result", JStr "success"); ("ret", JStr "done")])
    /\ (Py.lower "GET" <> "get" -> Py.lower "GET" <> "post" ->
        response_body = JObj [("status", JStr "success")]).
Proof.
  apply (example_response_by_method demo_host "/ethernet" "GET"
           [("ip-address", JObj [("type", JStr "ip")]); ("name", JObj [])]).
  reflexivity.
Defined.

(** ** File names *)


Lemma lstrip_fixed (s : string) :
  Py.startswith s "/" = false -> Py.lstrip "/" s = s.
Proof.
  destruct s as [| c s]; simpl; [reflexivity |].
  rewrite (Ascii.eqb_sym "/" c). destruct (Ascii.eqb c "/"); intros H.
  - destruct s; simpl in H; discriminate.
  - reflexivity.
Qed.


Lemma endswith_cons (c : ascii) (s p : string) :
  Py.endswith (String c s) p = String.eqb (String c s) p || Py.endswith s p.
Proof. reflexivity. Qed.




(** ** The tree *)

Lemma path_eqb_eq (p q : path) : path_eqb p q = true <-> p = q.
Proof.
  revert q; induction p as [| a p IH]; intros [| b q]; simpl; try (split; [discriminate | discriminate]).
  - split; reflexivity.
  - rewrite andb_true_iff, String.eqb_eq, IH. split.
    + intros [-> ->]. reflexivity.
    + intros H. injection H as -> ->. split; reflexivity.
Qed.

Lemma path_eqb_refl (p : path) : path_eqb p p = true.
Proof. apply path_eqb_eq. reflexivity. Qed.

Lemma path_eqb_neq (p q : path) : path_eqb p q = false <-> p <> q.
Proof.
  rewrite <- path_eqb_eq. destruct (path_eqb p q); split; congruence.
Qed.

Lemma path_eqb_spec (p q : path) : reflect (p = q) (path_eqb p q).
Proof. apply iff_reflect. symmetry. apply path_eqb_eq. Qed.

Lemma lookup_put (t : tree) (p q : path) (n : node) :
  lookup (put t p n) q = if path_eqb p q then Some n else lookup t q.
Proof.
  induction t as [| [r m] t IH]; simpl; [reflexivity |].
  destruct (path_eqb_spec r p) as [-> | Hrp]; simpl.
  - destruct (path_eqb p q); reflexivity.
  - rewrite IH. destruct (path_eqb_spec r q) as [-> | Hrq]; [| reflexivity].
    destruct (path_eqb_spec p q) as [-> | _]; [contradiction | reflexivity].
Qed.

Lemma lookup_snoc (t : tree) (p q : path) (n : node) :
  lookup (t ++ [(p, n)]) q
  = match lookup t q with
    | Some x => Some x
    | None => if path_eqb p q then Some n else None
    end.
Proof.
  induction t as [| [r m] t IH]; simpl; [reflexivity |].
  destruct (path_eqb r q); [reflexivity | exact IH].
Qed.

Lemma lookup_snoc_fresh (t : tree) (p q : path) (n : node) :
  lookup t p = None ->
  lookup (t ++ [(p, n)]) q = if path_eqb p q then Some n else lookup t q.
Proof.
  intros Hp. rewrite lookup_snoc.
  destruct (path_eqb_spec p q) as [<- | _]; [rewrite Hp; reflexivity |].
  destruct (lookup t q); reflexivity.
Qed.

Lemma write_lookup (root : string) (t t' : tree) (p q : path) (f : file) :
  write root t p f = Ok t' ->
  lookup t' q = if path_eqb p q then Some (File f) else lookup t q.
Proof.
  unfold write. destruct (lookup t p) as [[| g] |] eqn:Hp; try discriminate.
  - intros H. injection H as <-. apply lookup_put.
  - destruct p as [| c up].
    + intros H. injection H as <-. apply lookup_snoc_fresh. exact Hp.
    + destruct (lookup t up) as [[| g] |]; try discriminate.
      intros H. injection H as <-. apply lookup_snoc_fresh. exact Hp.
Qed.

Lemma os_mkdir_lookup (root : string) (t t' : tree) (p q : path) :
  os_mkdir root t p = Ok t' ->
  lookup t' q = if path_eqb p q then Some Dir else lookup t q.
Proof.
  unfold os_mkdir. destruct (lookup t p) eqn:Hp; try discriminate.
  destruct p as [| c up].
  - intros H. injection H as <-. apply lookup_snoc_fresh. exact Hp.
  - destruct (lookup t up) as [[| g] |]; try discriminate.
    intros H. injection H as <-. apply lookup_snoc_fresh. exact Hp.
Qed.

Lemma is_dir_lookup (t : tree) (p : path) : is_dir t p = true <-> lookup t p = Some Dir.
Proof.
  unfold is_dir. destruct (lookup t p) as [[| f] |]; split; congruence.
Qed.

Lemma mkdir_lookup (root : string) (t t' : tree) (p q : path) :
  mkdir root t p = Ok t' ->
  lookup t' q = if path_eqb p q then Some Dir else lookup t q.
Proof.
  unfold mkdir. destruct (os_mkdir root t p) as [t1 | e] eqn:Hos.
  - intros H. injection H as <-. apply (os_mkdir_lookup root). exact Hos.
  - destruct (kind e); try discriminate;
      destruct (is_dir t p) eqn:Hd; try discriminate;
      intros H; injection H as <-; apply is_dir_lookup in Hd;
      (destruct (path_eqb_spec p q) as [<- | _]; [exact Hd | reflexivity]).
Qed.

Lemma split_slash_suffix (x suf : string) :
  split_slash suf = [suf] ->
  exists init piece,
    split_slash x = (init ++ [piece])%list
    /\ split_slash (x ++ suf) = (init ++ [(piece ++ suf)%string])%list.
Proof.
  intros Hsuf. induction x as [| c x (init & piece & Hx & Hxs)].
  - exists [], "". split; [reflexivity | exact Hsuf].
  - simpl. destruct (Ascii.eqb c "/").
    + exists ("" :: init), piece. rewrite Hx, Hxs. split; reflexivity.
    + rewrite Hx, Hxs. destruct init as [| y r]; simpl.
      * exists [], (String c piece). split; reflexivity.
      * exists (String c y :: r), piece. split; reflexivity.
Qed.

Lemma append_length (a b : string) : String.length (a ++ b) = String.length a + String.length b.
Proof.
  induction a as [| c a IH]; simpl; [reflexivity | rewrite IH; reflexivity].
Qed.

(** The last component of [d / (x + suf)] ends with [suf], for a suffix
    such as [.json] or [.md]. *)
Lemma joinpath_suffix (d : path) (x suf : string) :
  split_slash suf = [suf] ->
  2 <= String.length suf ->
  exists piece up, joinpath d (x ++ suf) = (piece ++ suf) :: up.
Proof.
  intros Hsuf Hlen. destruct (split_slash_suffix x suf Hsuf) as (init & piece & _ & Hs).
  exists piece. unfold joinpath, parts. rewrite Hs, filter_app. simpl.
  assert (Hkeep : negb (String.eqb (piece ++ suf) "") && negb (String.eqb (piece ++ suf) ".") = true).
  { apply andb_true_iff. split; apply negb_true_iff, String.eqb_neq; intros E;
      apply (f_equal String.length) in E; rewrite append_length in E; simpl in E; lia. }
  rewrite Hkeep, rev_app_distr. simpl. eexists. reflexivity.
Qed.

Lemma last_char_app (a : string) (c : ascii) (b : string) :
  last_char (a ++ String c b) = last_char (String c b).
Proof.
  induction a as [| x a IH]; [reflexivity |].
  change (String x a ++ String c b) with (String x (a ++ String c b)).
  destruct a as [| y a]; [reflexivity |]. exact IH.
Qed.

Lemma json_name_is_not_md (a b : string) : a ++ ".json" <> b ++ ".md".
Proof.
  intros E. apply (f_equal last_char) in E. rewrite !last_char_app in E. discriminate.
Qed.

Lemma endpoint_and_doc_files_differ (family_dir : path) (endpoint : string) :
  joinpath family_dir (EnhancedRamlSplitter.endpoint_file_name endpoint)
  <> joinpath (joinpath family_dir "docs") (EnhancedRamlSplitter.doc_file_name endpoint).
Proof.
  unfold EnhancedRamlSplitter.endpoint_file_name, EnhancedRamlSplitter.doc_file_name.
  destruct (joinpath_suffix family_dir (Py.strip "/" endpoint) ".json")
    as (p1 & u1 & ->); [reflexivity | simpl; lia |].
  destruct (joinpath_suffix (joinpath family_dir "docs") (Py.strip "/" endpoint) ".md")
    as (p2 & u2 & ->); [reflexivity | simpl; lia |].
  intros E. injection E as E _. exact (json_name_is_not_md _ _ E).
Qed.

(** ** The Markdown of an endpoint *)

Lemma markdown_lines_enhanced (h : host) (endpoint : string) (data : dict)
    (examples : ApiExample) (validation : dict) (w : world) :
  ApiDocGenerator.markdown_lines h
    (EnhancedRamlSplitter.enhanced_data endpoint data examples validation) endpoint w
  = Ok ([ "# " ++ endpoint ++ " API Documentation" ++ nl;
          "Generated on: " ++ strftime (clock h (ticks w)) ++ nl;
          "## Endpoints" ++ nl ], snd (now h w)).
Proof. reflexivity. Qed.

Lemma generate_markdown_enhanced (h : host) (endpoint : string) (data : dict)
    (examples : ApiExample) (validation : dict) (w : world) :
  ApiDocGenerator.generate_markdown h
    (EnhancedRamlSplitter.enhanced_data endpoint data examples validation) endpoint w
  = Ok (md_text endpoint (strftime (clock h (ticks w))), snd (now h w)).
Proof.
  unfold ApiDocGenerator.generate_markdown. rewrite markdown_lines_enhanced. reflexivity.
Qed.

(** C3. For the descriptor the splitter hands over (keys [endpoint], [data],
    [examples], [validation]) the Markdown is the title line, the time line
    and the [## Endpoints] line and nothing after it: no method subsection,
    no table row, no examples block, no validation block. The descriptor has
    no [description] key of its own either, so the optional section is
    absent too. The document written for a processed endpoint is that
    text. *)
Theorem markdown_of_enhanced_data (h : host) (output_dir : string) (endpoint : string)
    (data : dict) (examples : ApiExample) (validation : dict) (w : world) :
  let enhanced := EnhancedRamlSplitter.enhanced_data endpoint data examples validation in
  let lines := [ "# " ++ endpoint ++ " API Documentation" ++ nl;
                 "Generated on: " ++ strftime (clock h (ticks w)) ++ nl;
                 "## Endpoints" ++ nl ] in
  ApiDocGenerator.markdown_lines h enhanced endpoint w = Ok (lines, snd (now h w))
  /\ ApiDocGenerator.generate_markdown h enhanced endpoint w
     = Ok (String.concat "" lines, snd (now h w))
  /\ forall (family_dir : path) (processed : dict) (w' : world),
       EnhancedRamlSplitter.process_endpoint h output_dir endpoint data family_dir w
       = Ok (processed, w') ->
       lookup (files w')
         (joinpath (joinpath family_dir "docs") (EnhancedRamlSplitter.doc_file_name endpoint))
       = Some (File (text_file (String.concat "" lines))).
Proof.
  intros enhanced lines. subst enhanced lines.
  split; [apply markdown_lines_enhanced |].
  split; [apply generate_markdown_enhanced |].
  intros family_dir processed w' H.
  unfold EnhancedRamlSplitter.process_endpoint in H.
  apply bind_Ok_inv in H as (ex & _ & H).
  apply bind_Ok_inv in H as (va & _ & H).
  apply bind_Ok_inv in H as (w1 & Hw1 & H).
  cbv zeta in H. rewrite generate_markdown_enhanced in H. simpl in H.
  apply bind_Ok_inv in H as (w2 & Hw2 & H). injection H as _ <-.
  unfold on_files in Hw1, Hw2.
  apply bind_Ok_inv in Hw1 as (t1 & Ht1 & Hw1). injection Hw1 as <-.
  apply bind_Ok_inv in Hw2 as (t2 & Ht2 & Hw2). injection Hw2 as <-.
  simpl in *. rewrite (write_lookup _ _ _ _ _ _ Ht2), path_eqb_refl. reflexivity.
Qed.

(** ** The descriptor of an endpoint *)

Lemma process_endpoint_inv (h : host) (output_dir endpoint : string) (data : dict)
    (family_dir : path) (w w' : world) (processed : dict) :
  EnhancedRamlSplitter.process_endpoint h output_dir endpoint data family_dir w
  = Ok (processed, w') ->
  exists examples validation t1 t2,
    ExampleGenerator.generate_example_for_endpoint h endpoint
      (Py.get_default data "method" (JStr "GET"))
      (Py.get_default data "parameters" (JObj [])) = Ok examples
    /\ EnhancedRamlSplitter.get_validation_rules data = Ok validation
    /\ processed = EnhancedRamlSplitter.enhanced_data endpoint data examples validation
    /\ write output_dir (files w)
         (joinpath family_dir (EnhancedRamlSplitter.endpoint_file_name endpoint))
         (json_file h (JObj processed)) = Ok t1
    /\ write output_dir t1
         (joinpath (joinpath family_dir "docs") (EnhancedRamlSplitter.doc_file_name endpoint))
         (text_file (String.concat ""
            [ "# " ++ endpoint ++ " API Documentation" ++ nl;
              "Generated on: " ++ strftime (clock h (ticks w)) ++ nl;
              "## Endpoints" ++ nl ])) = Ok t2
    /\ w' = {| files := t2; ticks := S (ticks w) |}.
Proof.
  intros H. unfold EnhancedRamlSplitter.process_endpoint in H.
  apply bind_Ok_inv in H as (ex & Hex & H).
  apply bind_Ok_inv in H as (va & Hva & H).
  apply bind_Ok_inv in H as (w1 & Hw1 & H).
  cbv zeta in H.
  rewrite generate_markdown_enhanced in H. simpl in H.
  apply bind_Ok_inv in H as (w2 & Hw2 & H). injection H as <- <-.
  unfold on_files in Hw1, Hw2.
  apply bind_Ok_inv in Hw1 as (t1 & Ht1 & Hw1). injection Hw1 as <-.
  apply bind_Ok_inv in Hw2 as (t2 & Ht2 & Hw2). injection Hw2 as <-.
  simpl in *. exists ex, va, t1, t2. repeat split; assumption.
Qed.

(** When [process_endpoint] returns, the file of the endpoint holds the
    mapping returned. *)
Lemma process_endpoint_writes_the_descriptor (h : host) (output_dir endpoint : string)
    (data : dict) (family_dir : path) (w w' : world) (processed : dict) :
  EnhancedRamlSplitter.process_endpoint h output_dir endpoint data family_dir w
  = Ok (processed, w') ->
  exists f,
    lookup (files w') (joinpath family_dir (EnhancedRamlSplitter.endpoint_file_name endpoint))
    = Some (File f)
    /\ json_load h f = Ok (JObj processed)
    /\ Py.get processed "endpoint" = Some (JStr endpoint)
    /\ Py.get processed "data" = Some (JObj data)
    /\ Py.has_key processed "examples" = true
    /\ Py.has_key processed "validation" = true.
Proof.
  intros H. apply process_endpoint_inv in H
    as (ex & va & t1 & t2 & _ & _ & -> & Ht1 & Ht2 & ->).
  exists (json_file h (JObj (EnhancedRamlSplitter.enhanced_data endpoint data ex va))).
  split; [| repeat split; reflexivity]. simpl.
  rewrite (write_lookup _ _ _ _ _ _ Ht2).
  destruct (path_eqb_spec
              (joinpath (joinpath family_dir "docs") (EnhancedRamlSplitter.doc_file_name endpoint))
              (joinpath family_dir (EnhancedRamlSplitter.endpoint_file_name endpoint)))
    as [E | _].
  - symmetry in E. destruct (endpoint_and_doc_files_differ _ _ E).
  - rewrite (write_lookup _ _ _ _ _ _ Ht1), path_eqb_refl. reflexivity.
Qed.

(** ** The validator only adds findings *)

Lemma merge_fresh (self : RamlValidator) : merge self (fresh self) = self.
Proof.
  destruct self as [d e w]. unfold merge, fresh. simpl. rewrite !app_nil_r. reflexivity.
Qed.

Lemma merge_assoc (a b c : RamlValidator) : merge (merge a b) c = merge a (merge b c).
Proof.
  unfold merge. simpl. rewrite !app_assoc. reflexivity.
Qed.

Lemma fresh_merge (a b : RamlValidator) : fresh (merge a b) = fresh a.
Proof. reflexivity. Qed.

Lemma merge_into_fresh (self extra : RamlValidator) :
  api_dir extra = api_dir self -> merge (fresh self) extra = extra.
Proof.
  destruct extra as [d e w]. unfold merge, fresh. simpl. intros ->. reflexivity.
Qed.

Lemma framed_ret {A : Type} (a : A) : framed (ret a).
Proof. intros self. unfold ret. simpl. rewrite merge_fresh. reflexivity. Qed.

Lemma framed_lift {A : Type} (r : result A) : framed (lift r).
Proof. intros self. unfold lift. simpl. rewrite merge_fresh. reflexivity. Qed.

Lemma framed_add_error (msg : string) : framed (add_error msg).
Proof.
  intros [d e w]. unfold add_error, merge, fresh, Py.append. simpl.
  rewrite app_nil_r. reflexivity.
Qed.

Lemma framed_add_warning (msg : string) : framed (add_warning msg).
Proof.
  intros [d e w]. unfold add_warning, merge, fresh, Py.append. simpl.
  rewrite app_nil_r. reflexivity.
Qed.

Lemma framed_api_dir {A : Type} (c : check A) (self : RamlValidator) :
  framed c -> api_dir (fst (c self)) = api_dir self.
Proof. intros Hc. rewrite (Hc self). reflexivity. Qed.

Lemma framed_and_then {A B : Type} (c : check A) (k : A -> check B) :
  framed c -> (forall a, framed (k a)) -> framed (and_then c k).
Proof.
  intros Hc Hk self. unfold and_then. rewrite (Hc self).
  destruct (c (fresh self)) as [s1 [a | e]] eqn:E1; simpl.
  - rewrite (Hk a (merge self s1)), (Hk a s1).
    assert (Hd : api_dir s1 = api_dir self).
    { change s1 with (fst (s1, @Ok A a)). rewrite <- E1. apply (framed_api_dir c (fresh self) Hc). }
    assert (Hf : fresh (merge self s1) = fresh s1).
    { unfold fresh. simpl. rewrite Hd. reflexivity. }
    rewrite Hf. destruct (k a (fresh s1)) as [s2 r2]. simpl.
    rewrite merge_assoc. reflexivity.
  - reflexivity.
Qed.

Lemma framed_each {A : Type} (xs : list A) (body : A -> check unit) :
  (forall x, framed (body x)) -> framed (each xs body).
Proof.
  intros Hb. induction xs as [| x xs IH]; simpl.
  - apply framed_ret.
  - apply framed_and_then; [apply Hb | intros _; exact IH].
Qed.

Lemma framed_if {A : Type} (b : bool) (c1 c2 : check A) :
  framed c1 -> framed c2 -> framed (if b then c1 else c2).
Proof. destruct b; auto. Qed.

Lemma try_except_merge (body : check unit) (handler : exn -> string) (self : RamlValidator) :
  framed body ->
  try_except body handler self = merge self (try_except body handler (fresh self)).
Proof.
  intros Hb. unfold try_except. rewrite (Hb self).
  destruct (body (fresh self)) as [s1 [u | e]]; simpl; [reflexivity |].
  unfold add_error, merge, Py.append. simpl. rewrite app_assoc. reflexivity.
Qed.

Lemma framed_pass_compose (f g : RamlValidator -> RamlValidator) :
  framed_pass f -> framed_pass g -> framed_pass (fun self => g (f self)).
Proof.
  intros Hf Hg self. rewrite (Hg (f self)), (Hf self), (Hg (f (fresh self))).
  rewrite merge_assoc. f_equal.
  replace (fresh (merge self (f (fresh self)))) with (fresh (f (fresh self))); [reflexivity |].
  rewrite (Hf (fresh self)). reflexivity.
Qed.

Lemma framed_pass_id : framed_pass (fun self => self).
Proof. intros self. symmetry. apply merge_fresh. Qed.

Lemma framed_loop {A : Type} (xs : list A) (body : A -> RamlValidator -> RamlValidator) :
  (forall x, framed_pass (body x)) -> framed_pass (loop xs body).
Proof.
  intros Hb. induction xs as [| x xs IH]; simpl.
  - apply framed_pass_id.
  - apply (framed_pass_compose (body x) (loop xs body)); [apply Hb | exact IH].
Qed.

(** The findings of a loop are those of its rounds, one after the other. *)
Lemma loop_errors {A : Type} (xs : list A) (body : A -> RamlValidator -> RamlValidator)
    (self : RamlValidator) :
  (forall x, framed_pass (body x)) ->
  errors (loop xs body self)
  = (errors self ++ flat_map (fun x => errors (body x (fresh self))) xs)%list.
Proof.
  intros Hb. revert self. induction xs as [| x xs IH]; intros self; simpl.
  - rewrite app_nil_r. reflexivity.
  - rewrite IH, (Hb x self). simpl. rewrite app_assoc. reflexivity.
Qed.

Lemma loop_warnings {A : Type} (xs : list A) (body : A -> RamlValidator -> RamlValidator)
    (self : RamlValidator) :
  (forall x, framed_pass (body x)) ->
  warnings (loop xs body self)
  = (warnings self ++ flat_map (fun x => warnings (body x (fresh self))) xs)%list.
Proof.
  intros Hb. revert self. induction xs as [| x xs IH]; intros self; simpl.
  - rewrite app_nil_r. reflexivity.
  - rewrite IH, (Hb x self). simpl. rewrite app_assoc. reflexivity.
Qed.

Ltac framed_tac :=
  repeat first
    [ apply framed_ret | apply framed_lift | apply framed_add_error
    | apply framed_add_warning | apply framed_if
    | apply framed_each; intros ?
    | apply framed_and_then; [| intros ?]
    | match goal with |- framed (if ?b then _ else _) => destruct b end
    | match goal with |- framed (match ?x with _ => _ end) => destruct x end ].

Section ValidatorFacts.

Variable h : host.
Variable t : tree.

Lemma framed_require (fields : list string) (data : json) (msg : string -> string) :
  framed (Validator.require fields data msg).
Proof. unfold Validator.require. framed_tac. Qed.

Lemma check_json_file_as_try (p : path) (self : RamlValidator) :
  Validator.check_json_file h t p self
  = try_except
      (do f <- lift (read (api_dir self) t p);
       do data <- lift (json_load h f);
       if String.eqb (name p) "_index.json" then
         Validator._validate_index_file data (Validator.pstr self p)
       else if Py.endswith (name p) ".json" then
         Validator._validate_endpoint_file data (Validator.pstr self p)
       else ret tt)
      (fun e => match kind e with
                | JSONDecodeError =>
                    "Invalid JSON in " ++ Validator.pstr self p ++ ": " ++ message e
                | _ => "Error processing " ++ Validator.pstr self p ++ ": " ++ message e
                end) self.
Proof.
  unfold Validator.check_json_file, try_except.
  match goal with |- match ?c with _ => _ end = _ => destruct c as [s1 [u | e]] end;
    [reflexivity | destruct (kind e); reflexivity].
Qed.

Lemma framed_check_json_file (p : path) : framed_pass (Validator.check_json_file h t p).
Proof.
  intros self. rewrite !check_json_file_as_try. rewrite try_except_merge; [reflexivity |].
  unfold Validator._validate_index_file, Validator._validate_endpoint_file.
  framed_tac; try apply framed_require.
Qed.

Lemma framed_check_markdown_file (p : path) : framed_pass (Validator.check_markdown_file t p).
Proof.
  intros self. unfold Validator.check_markdown_file.
  rewrite try_except_merge; [reflexivity | framed_tac].
Qed.

Lemma framed_check_example_file (p : path) : framed_pass (Validator.check_example_file h t p).
Proof.
  intros self. unfold Validator.check_example_file.
  rewrite try_except_merge; [reflexivity |]. framed_tac; try apply framed_require.
Qed.

Lemma framed_validate_json_files : framed_pass (Validator.validate_json_files h t).
Proof. apply framed_loop. apply framed_check_json_file. Qed.

Lemma framed_validate_markdown_files : framed_pass (Validator.validate_markdown_files t).
Proof. apply framed_loop. apply framed_check_markdown_file. Qed.

Lemma framed_validate_examples : framed_pass (Validator.validate_examples h t).
Proof. apply framed_loop. apply framed_check_example_file. Qed.

Lemma framed_validate_references : framed_pass (Validator.validate_references h t).
Proof.
  intros self. unfold Validator.validate_references.
  rewrite try_except_merge; [reflexivity | framed_tac].
Qed.

Lemma framed_validate_index_files : framed_pass (Validator.validate_index_files h t).
Proof.
  intros self. unfold Validator.validate_index_files.
  destruct (exists_ t (joinpath [] "index.json")).
  - rewrite try_except_merge; [reflexivity | framed_tac].
  - rewrite (framed_add_error _ self). reflexivity.
Qed.

Lemma framed_validate_directory_structure :
  framed_pass (Validator.validate_directory_structure t).
Proof.
  unfold Validator.validate_directory_structure.
  apply (framed_pass_compose
           (loop ["docs"; "examples"] _) (loop (family_dirs t []) _)).
  - apply framed_loop. intros d self.
    destruct (exists_ t (joinpath [] d)).
    + symmetry. apply merge_fresh.
    + rewrite (framed_add_error _ self). reflexivity.
  - apply framed_loop. intros d.
    apply (framed_pass_compose
             (fun self => if exists_ t (joinpath d "docs") then self
                          else fst (add_error ("Missing docs directory in " ++ name d) self))
             (fun self => if exists_ t (joinpath d "_index.json") then self
                          else fst (add_error ("Missing _index.json in " ++ name d) self))).
    + intros self. destruct (exists_ t (joinpath d "docs")).
      * symmetry. apply merge_fresh.
      * rewrite (framed_add_error _ self). reflexivity.
    + intros self. destruct (exists_ t (joinpath d "_index.json")).
      * symmetry. apply merge_fresh.
      * rewrite (framed_add_error _ self). reflexivity.
Qed.

End ValidatorFacts.

Lemma pass_errors (f : RamlValidator -> RamlValidator) (self : RamlValidator) :
  framed_pass f -> errors (f self) = (errors self ++ errors (f (fresh self)))%list.
Proof. intros Hf. rewrite (Hf self). reflexivity. Qed.

Lemma pass_warnings (f : RamlValidator -> RamlValidator) (self : RamlValidator) :
  framed_pass f -> warnings (f self) = (warnings self ++ warnings (f (fresh self)))%list.
Proof. intros Hf. rewrite (Hf self). reflexivity. Qed.

Lemma pass_fresh (f : RamlValidator -> RamlValidator) (self : RamlValidator) :
  framed_pass f -> fresh (f self) = fresh self.
Proof. intros Hf. rewrite (Hf self). reflexivity. Qed.

Lemma run_all_errors (h : host) (t : tree) (self : RamlValidator) :
  errors (Validator.run_all h t self)
  = (errors self
     ++ errors (Validator.validate_directory_structure t (fresh self))
     ++ errors (Validator.validate_index_files h t (fresh self))
     ++ errors (Validator.validate_json_files h t (fresh self))
     ++ errors (Validator.validate_markdown_files t (fresh self))
     ++ errors (Validator.validate_examples h t (fresh self))
     ++ errors (Validator.validate_references h t (fresh self)))%list.
Proof.
  unfold Validator.run_all.
  rewrite (pass_errors _ _ (framed_validate_references h t)).
  rewrite (pass_errors _ _ (framed_validate_examples h t)).
  rewrite (pass_errors _ _ (framed_validate_markdown_files t)).
  rewrite (pass_errors _ _ (framed_validate_json_files h t)).
  rewrite (pass_errors _ _ (framed_validate_index_files h t)).
  rewrite (pass_errors _ _ (framed_validate_directory_structure t)).
  rewrite !(pass_fresh _ _ (framed_validate_examples h t)).
  rewrite !(pass_fresh _ _ (framed_validate_markdown_files t)).
  rewrite !(pass_fresh _ _ (framed_validate_json_files h t)).
  rewrite !(pass_fresh _ _ (framed_validate_index_files h t)).
  rewrite !(pass_fresh _ _ (framed_validate_directory_structure t)).
  rewrite <- !app_assoc. reflexivity.
Qed.

(** C9. Each of the three passes over files adds, file after file, what the
    check of that file alone finds, whatever happened with the files before
    it; a file that cannot be parsed or read gives one entry, which names
    its path; and [validate_all] ends with everything its six passes
    found. *)
Theorem failures_stay_with_their_file (h : host) (t : tree) (self : RamlValidator) :
  let dir := api_dir self in
  let start := new_validator dir in
  errors (Validator.validate_json_files h t self)
  = (errors self
     ++ flat_map (fun p => errors (Validator.check_json_file h t p start)) (rglob t ".json"))%list
  /\ errors (Validator.validate_markdown_files t self)
     = (errors self
        ++ flat_map (fun p => errors (Validator.check_markdown_file t p start)) (rglob t ".md"))%list
  /\ warnings (Validator.validate_markdown_files t self)
     = (warnings self
        ++ flat_map (fun p => warnings (Validator.check_markdown_file t p start)) (rglob t ".md"))%list
  /\ errors (Validator.validate_examples h t self)
     = (errors self
        ++ flat_map (fun p => errors (Validator.check_example_file h t p start))
             (glob_in t (joinpath [] "examples") ".json"))%list
  /\ (forall p f, lookup t p = Some (File f) -> parsed f = None ->
        errors (Validator.check_json_file h t p start)
        = ["Invalid JSON in " ++ path_str dir p ++ ": " ++ decode_error h (text f)]
        /\ errors (Validator.check_example_file h t p start)
           = ["Error validating example " ++ path_str dir p ++ ": "
              ++ decode_error h (text f)])
  /\ (forall p, lookup t p = Some Dir ->
        errors (Validator.check_json_file h t p start)
        = ["Error processing " ++ path_str dir p ++ ": [Errno 21] Is a directory: '"
           ++ path_str dir p ++ "'"]
        /\ errors (Validator.check_markdown_file t p start)
           = ["Error reading markdown file " ++ path_str dir p
              ++ ": [Errno 21] Is a directory: '" ++ path_str dir p ++ "'"])
  /\ errors (fst (Validator.validate_all h t self))
     = (errors self
        ++ errors (Validator.validate_directory_structure t start)
        ++ errors (Validator.validate_index_files h t start)
        ++ errors (Validator.validate_json_files h t start)
        ++ errors (Validator.validate_markdown_files t start)
        ++ errors (Validator.validate_examples h t start)
        ++ errors (Validator.validate_references h t start))%list.
Proof.
  intros dir start. subst dir start. change (new_validator (api_dir self)) with (fresh self).
  split; [apply loop_errors, framed_check_json_file |].
  split; [apply loop_errors, framed_check_markdown_file |].
  split; [apply loop_warnings, framed_check_markdown_file |].
  split; [apply loop_errors, framed_check_example_file |].
  split.
  { intros p f Hp Hf. split.
    - unfold Validator.check_json_file, read, json_load, lift, and_then. simpl.
      rewrite Hp, Hf. reflexivity.
    - unfold Validator.check_example_file, try_except, read, json_load, lift, and_then. simpl.
      rewrite Hp, Hf. reflexivity. }
  split.
  { intros p Hp. split.
    - unfold Validator.check_json_file, read, lift, and_then. simpl. rewrite Hp. reflexivity.
    - unfold Validator.check_markdown_file, Validator.read_text, try_except, read, lift,
        and_then. simpl. rewrite Hp. reflexivity. }
  apply run_all_errors.
Qed.

(** ** Running the validator *)

Lemma lookup_In (t : tree) (p : path) (n : node) :
  lookup t p = Some n -> In p (map fst t).
Proof.
  induction t as [| [q m] t IH]; simpl; [discriminate |].
  destruct (path_eqb_spec q p) as [-> | _]; [left; reflexivity | right; auto].
Qed.

Lemma lookup_In_entry (t : tree) (p : path) (n : node) :
  lookup t p = Some n -> In (p, n) t.
Proof.
  induction t as [| [q m] t IH]; simpl; [discriminate |].
  destruct (path_eqb_spec q p) as [-> | _].
  - intros H. injection H as ->. left. reflexivity.
  - intros H. right. auto.
Qed.

Lemma rglob_In (t : tree) (p : path) (n : node) (suffix : string) :
  lookup t p = Some n ->
  Py.endswith (name p) suffix = true ->
  p <> [] ->
  In p (rglob t suffix).
Proof.
  intros Hp Hs Hne. unfold rglob. apply filter_In. split; [exact (lookup_In _ _ _ Hp) |].
  destruct p as [| c up]; [contradiction | exact Hs].
Qed.

Lemma framed_grows {A : Type} (c : check A) (self : RamlValidator) (x : string) :
  framed c -> In x (errors self) -> In x (errors (fst (c self))).
Proof.
  intros Hc Hx. rewrite (Hc self). simpl. apply in_or_app. left. exact Hx.
Qed.

Lemma and_then_grows {A B : Type} (c : check A) (k : A -> check B) (self : RamlValidator)
    (x : string) :
  (forall a, framed (k a)) ->
  In x (errors (fst (c self))) -> In x (errors (fst (and_then c k self))).
Proof.
  intros Hk Hx. unfold and_then. destruct (c self) as [s1 [a | e]]; simpl in *.
  - apply framed_grows; [apply Hk | exact Hx].
  - exact Hx.
Qed.

Lemma try_except_grows (body : check unit) (handler : exn -> string) (self : RamlValidator)
    (x : string) :
  In x (errors (fst (body self))) -> In x (errors (try_except body handler self)).
Proof.
  unfold try_except. destruct (body self) as [s1 [u | e]]; simpl; [auto |].
  intros Hx. unfold Py.append. apply in_or_app. left. exact Hx.
Qed.

(** A mapping with no [endpoint] key in a JSON file that is not named
    [_index.json] is reported. *)
Lemma missing_endpoint_key_reported (h : host) (t : tree) (p : path) (self : RamlValidator)
    (f : file) (d : dict) :
  lookup t p = Some (File f) ->
  parsed f = Some (JObj d) ->
  Py.has_key d "endpoint" = false ->
  String.eqb (name p) "_index.json" = false ->
  Py.endswith (name p) ".json" = true ->
  In ("Missing required field 'endpoint' in " ++ path_str (api_dir self) p)
     (errors (Validator.check_json_file h t p self)).
Proof.
  intros Hp Hf Hd Hn Hs. rewrite check_json_file_as_try. apply try_except_grows.
  unfold read, json_load. rewrite Hp, Hn, Hs.
  unfold lift at 1. unfold and_then at 1. simpl. rewrite Hf.
  unfold lift at 1. unfold and_then at 1. simpl.
  unfold Validator._validate_endpoint_file.
  apply and_then_grows; [intros ?; framed_tac |].
  unfold Validator.require. simpl.
  apply and_then_grows; [intros ?; framed_tac |].
  unfold lift at 1. unfold and_then at 1. simpl. rewrite Hd.
  unfold add_error, Py.append. simpl. apply in_or_app. right. left. reflexivity.
Qed.

(** Every JSON file that is no [_index.json] is checked as the descriptor
    of an endpoint, wherever it lies: a tree with such a file whose mapping
    has no [endpoint] key is never accepted. *)
Lemma json_file_is_checked_as_endpoint (h : host) (t : tree) (self : RamlValidator)
    (p : path) (f : file) (d : dict) :
  lookup t p = Some (File f) ->
  parsed f = Some (JObj d) ->
  Py.has_key d "endpoint" = false ->
  String.eqb (name p) "_index.json" = false ->
  Py.endswith (name p) ".json" = true ->
  In ("Missing required field 'endpoint' in " ++ path_str (api_dir self) p)
     (errors (fst (Validator.validate_all h t self)))
  /\ snd (Validator.validate_all h t self) = false.
Proof.
  intros Hp Hf Hd Hn Hs.
  assert (Hin : In ("Missing required field 'endpoint' in " ++ path_str (api_dir self) p)
                   (errors (Validator.run_all h t self))).
  { rewrite run_all_errors. apply in_or_app. right.
    apply in_or_app. right. apply in_or_app. right. apply in_or_app. left.
    unfold Validator.validate_json_files.
    rewrite (loop_errors _ _ _ (framed_check_json_file h t)).
    apply in_or_app. right.
    apply in_flat_map. exists p. split.
    - apply (rglob_In t _ (File f)); [exact Hp | exact Hs |].
      intros ->. vm_compute in Hs. discriminate.
    - apply (missing_endpoint_key_reported h t p (fresh (fresh self)) f d); auto. }
  split; [exact Hin |].
  unfold Validator.validate_all. simpl.
  destruct (errors (Validator.run_all h t self)); [destruct Hin | reflexivity].
Qed.

(** The examples pass on [examples/foo.json]: nothing for the complete
    mapping, one entry when [response] is missing. *)
Lemma examples_pass_on_example_file (h : host) (t : tree) (dir : string) (f : file) :
  lookup t ["foo.json"; "examples"] = Some (File f) ->
  In ["foo.json"; "examples"] (glob_in t (joinpath [] "examples") ".json")
  /\ (parsed f = Some (JObj [("request", JObj []); ("response", JObj [])]) ->
      errors (Validator.check_example_file h t ["foo.json"; "examples"] (new_validator dir))
      = [])
  /\ (parsed f = Some (JObj [("request", JObj [])]) ->
      errors (Validator.check_example_file h t ["foo.json"; "examples"] (new_validator dir))
      = ["Missing required field 'response' in example "
         ++ path_str dir ["foo.json"; "examples"]]).
Proof.
  intros Hp. split; [| split].
  - unfold glob_in, children. apply filter_In. split; [| reflexivity].
    apply in_map_iff. exists (["foo.json"; "examples"], File f). split; [reflexivity |].
    apply filter_In. split; [| reflexivity].
    apply lookup_In_entry. exact Hp.
  - intros Hf. unfold Validator.check_example_file, try_except, read, json_load, lift,
      and_then. simpl. rewrite Hp, Hf. reflexivity.
  - intros Hf. unfold Validator.check_example_file, try_except, read, json_load, lift,
      and_then. simpl. rewrite Hp, Hf. reflexivity.
Qed.

Lemma generate_index_inv (h : host) (output_dir : string) (w w' : world) :
  EnhancedRamlSplitter.generate_index h output_dir w = Ok w' ->
  exists families,
    Py.for_each (family_dirs (files w) [])
      (EnhancedRamlSplitter.index_step h output_dir (files w)) [] = Ok families
    /\ write output_dir (files w) ["index.json"]
         (json_file h (EnhancedRamlSplitter.root_index (clock h (ticks w)) families))
       = Ok (files w')
    /\ ticks w' = S (ticks w).
Proof.
  unfold EnhancedRamlSplitter.generate_index. simpl. intros H.
  apply bind_Ok_inv in H as (families & Hf & H).
  unfold on_files in H. simpl in H.
  apply bind_Ok_inv in H as (t' & Ht & H). injection H as <-.
  exists families. repeat split; assumption.
Qed.

Lemma process_raml_inv (h : host) (output_dir : string) (doc : json) (w w' : world) :
  EnhancedRamlSplitter.process_raml h output_dir doc w = Ok w' ->
  exists w1 w2,
    EnhancedRamlSplitter.create_directory_structure output_dir w = Ok w1
    /\ EnhancedRamlSplitter.split_raml h output_dir doc w1 = Ok w2
    /\ EnhancedRamlSplitter.generate_index h output_dir w2 = Ok w'.
Proof.
  unfold EnhancedRamlSplitter.process_raml. intros H.
  apply bind_Ok_inv in H as (w1 & H1 & H).
  apply bind_Ok_inv in H as (w2 & H2 & H).
  exists w1, w2. repeat split; assumption.
Qed.

(** X15. Whatever the document, the tree a successful run of the splitter
    leaves is rejected by the validator: the main index it writes last has
    the keys [generated_at] and [families], and is checked as the
    descriptor of an endpoint. *)
Lemma validator_rejects_splitter_output (h : host) (output_dir : string) (doc : json)
    (w w' : world) (self : RamlValidator) :
  EnhancedRamlSplitter.process_raml h output_dir doc w = Ok w' ->
  In ("Missing required field 'endpoint' in " ++ path_str (api_dir self) ["index.json"])
     (errors (fst (Validator.validate_all h (files w') self)))
  /\ snd (Validator.validate_all h (files w') self) = false.
Proof.
  intros H. apply process_raml_inv in H as (w1 & w2 & _ & _ & H).
  apply generate_index_inv in H as (families & _ & Hw & _).
  eapply (json_file_is_checked_as_endpoint h (files w') self ["index.json"]).
  - rewrite (write_lookup _ _ _ _ ["index.json"] _ Hw). reflexivity.
  - reflexivity.
  - reflexivity.
  - reflexivity.
  - reflexivity.
Qed.

(** C1. The round trip on a document with one family and one endpoint that
    has a description: the splitter succeeds from an empty output
    directory, and the validator run on what it wrote returns [False] with
    eight errors and one warning. *)
Theorem round_trip_reports_errors :
  exists w,
    EnhancedRamlSplitter.process_raml demo_host "api" demo_document empty_world = Ok w
    /\ snd (Validator.validate_all demo_host (files w) (new_validator "api")) = false
    /\ Permutation
         (errors (fst (Validator.validate_all demo_host (files w) (new_validator "api"))))
         [ "Missing docs directory in docs";
           "Missing _index.json in docs";
           "Missing docs directory in examples";
           "Missing _index.json in examples";
           "Error processing api/interface/ethernet.json: 'RamlValidator' object has no attribute '_validate_examples'";
           "Missing required field 'endpoint' in api/index.json";
           "Missing required field 'data' in api/index.json";
           "Error validating cross-references: unsupported operand type(s) for /: 'PosixPath' and 'dict'" ]
    /\ warnings (fst (Validator.validate_all demo_host (files w) (new_validator "api")))
       = [ "Missing section '## Description' in api/interface/docs/ethernet.md" ].
Proof.
  eexists. split; [vm_compute; reflexivity |].
  split; [vm_compute; reflexivity |].
  split; [vm_compute; apply Permutation_refl | vm_compute; reflexivity].
Qed.

(** C4. A tree whose [examples/foo.json] holds the mapping with [request]
    and [response]: the pass over [examples] finds nothing, and with
    [response] taken out it finds one error, which names the file and
    [response]; the pass over all JSON files reports the file twice in
    both cases, for the keys [endpoint] and [data], so [validate_all] lists
    two errors for the complete file. *)
Theorem example_file_is_checked_as_endpoint :
  let complete := tree_with_example (JObj [("request", JObj []); ("response", JObj [])]) in
  let partial := tree_with_example (JObj [("request", JObj [])]) in
  let start := new_validator "api" in
  errors (Validator.validate_examples demo_host complete start) = []
  /\ errors (Validator.validate_examples demo_host partial start)
     = [ "Missing required field 'response' in example api/examples/foo.json" ]
  /\ mentioning "api/examples/foo.json"
       (errors (fst (Validator.validate_all demo_host complete start)))
     = [ "Missing required field 'endpoint' in api/examples/foo.json";
         "Missing required field 'data' in api/examples/foo.json" ]
  /\ mentioning "api/examples/foo.json"
       (errors (fst (Validator.validate_all demo_host partial start)))
     = [ "Missing required field 'endpoint' in api/examples/foo.json";
         "Missing required field 'data' in api/examples/foo.json";
         "Missing required field 'response' in example api/examples/foo.json" ]
  /\ mentioning "response"
       (mentioning "api/examples/foo.json"
          (errors (fst (Validator.validate_all demo_host partial start))))
     = [ "Missing required field 'response' in example api/examples/foo.json" ].
Proof.
  repeat split; vm_compute; reflexivity.
Qed.

(** ** Running the splitter a second time *)

Lemma below_refl (t : tree) : below t t.
Proof. intros q n H. exists n. split; [exact H | reflexivity]. Qed.

Lemma below_trans (t1 t2 t3 : tree) : below t1 t2 -> below t2 t3 -> below t1 t3.
Proof.
  intros H12 H23 q n H. destruct (H12 q n H) as (n2 & H2 & K2).
  destruct (H23 q n2 H2) as (n3 & H3 & K3). exists n3. split; [exact H3 | congruence].
Qed.

Lemma shape_lookup (b c : tree) (q : path) :
  shape b = shape c ->
  option_map is_dir_node (lookup b q) = option_map is_dir_node (lookup c q).
Proof.
  revert c. induction b as [| [p n] b IH]; intros [| [p' n'] c] H; simpl in *;
    try discriminate; [reflexivity |].
  injection H as <- Hn Hrest. destruct (path_eqb p q).
  - simpl. rewrite Hn. reflexivity.
  - apply IH. exact Hrest.
Qed.

Lemma shape_lookup_dir (b c : tree) (q : path) :
  shape b = shape c -> lookup c q = Some Dir -> lookup b q = Some Dir.
Proof.
  intros H Hc. pose proof (shape_lookup b c q H) as K. rewrite Hc in K. simpl in K.
  destruct (lookup b q) as [[| f] |]; simpl in K; congruence.
Qed.

Lemma shape_lookup_file (b c : tree) (q : path) (f : file) :
  shape b = shape c -> lookup c q = Some (File f) -> exists g, lookup b q = Some (File g).
Proof.
  intros H Hc. pose proof (shape_lookup b c q H) as K. rewrite Hc in K. simpl in K.
  destruct (lookup b q) as [[| g] |]; simpl in K; try congruence. exists g. reflexivity.
Qed.

Lemma shape_put (t : tree) (p : path) (n n' : node) :
  lookup t p = Some n -> is_dir_node n' = is_dir_node n -> shape (put t p n') = shape t.
Proof.
  intros Hp Hk. induction t as [| [q m] t IH]; simpl in *; [discriminate |].
  destruct (path_eqb q p); simpl.
  - injection Hp as ->. rewrite Hk. reflexivity.
  - rewrite (IH Hp). reflexivity.
Qed.

Lemma adds_directories_refl (t : tree) : adds_directories t t.
Proof. intros q. left. reflexivity. Qed.

Lemma adds_directories_trans (t1 t2 t3 : tree) :
  adds_directories t1 t2 -> adds_directories t2 t3 -> adds_directories t1 t3.
Proof.
  intros H12 H23 q. destruct (H12 q) as [E12 | [N1 D2]], (H23 q) as [E23 | [N2 D3]].
  - left. congruence.
  - right. split; congruence.
  - right. split; congruence.
  - congruence.
Qed.

Lemma adds_directories_below (t t' : tree) : adds_directories t t' -> below t t'.
Proof.
  intros H q n Hq. destruct (H q) as [E | [N _]]; [| congruence].
  exists n. split; [congruence | reflexivity].
Qed.

Lemma os_mkdir_adds (root : string) (t t' : tree) (p : path) :
  os_mkdir root t p = Ok t' -> adds_directories t t' /\ lookup t' p = Some Dir.
Proof.
  intros H. assert (Hp : lookup t p = None).
  { unfold os_mkdir in H. destruct (lookup t p); [discriminate | reflexivity]. }
  pose proof (os_mkdir_lookup root t t' p) as L. split.
  - intros q. rewrite (L q H). destruct (path_eqb_spec p q) as [<- | _].
    + right. split; [exact Hp | reflexivity].
    + left. reflexivity.
  - rewrite (L p H), path_eqb_refl. reflexivity.
Qed.

Lemma mkdir_adds (root : string) (t t' : tree) (p : path) :
  mkdir root t p = Ok t' -> adds_directories t t' /\ lookup t' p = Some Dir.
Proof.
  unfold mkdir. destruct (os_mkdir root t p) as [t1 | e] eqn:Hos.
  - intros H. injection H as <-. apply (os_mkdir_adds root). exact Hos.
  - destruct (kind e); try discriminate;
      destruct (is_dir t p) eqn:Hd; try discriminate;
      intros H; injection H as <-;
      (split; [apply adds_directories_refl | apply is_dir_lookup; exact Hd]).
Qed.

Lemma mkdir_parents_adds (root : string) (t t' : tree) (p : path) :
  mkdir_parents root t p = Ok t' -> adds_directories t t' /\ lookup t' p = Some Dir.
Proof.
  revert t t'. induction p as [| c up IH]; intros t t'; simpl;
    destruct (os_mkdir _ t _) as [t1 | e] eqn:Hos.
  - intros H. injection H as <-. apply (os_mkdir_adds root). exact Hos.
  - destruct (kind e); try discriminate;
      destruct (is_dir t []) eqn:Hd; try discriminate;
      intros H; injection H as <-;
      (split; [apply adds_directories_refl | apply is_dir_lookup; exact Hd]).
  - intros H. injection H as <-. apply (os_mkdir_adds root). exact Hos.
  - destruct (kind e);
      try (destruct (is_dir t (c :: up)) eqn:Hd; try discriminate;
           intros H; injection H as <-;
           (split; [apply adds_directories_refl | apply is_dir_lookup; exact Hd])).
    intros H. apply bind_Ok_inv in H as (t1 & H1 & H2).
    destruct (IH _ _ H1) as [A1 _]. destruct (mkdir_adds _ _ _ _ H2) as [A2 D2].
    split; [exact (adds_directories_trans _ _ _ A1 A2) | exact D2].
Qed.

Lemma write_below (root : string) (t t' : tree) (p : path) (f : file) :
  write root t p f = Ok t' -> below t t'.
Proof.
  intros H q n Hq. rewrite (write_lookup root t t' p q f H).
  destruct (path_eqb_spec p q) as [<- | _].
  - unfold write in H. rewrite Hq in H. destruct n as [| g]; [discriminate |].
    exists (File f). split; reflexivity.
  - exists n. split; [exact Hq | reflexivity].
Qed.

Lemma same_up_to_time_refl (h : host) (p : path) (x : option node) : same_up_to_time h p x x.
Proof. left. reflexivity. Qed.

Lemma replays_start (h : host) (a final : tree) : replays h final a final.
Proof. split; [reflexivity | intros q; right; reflexivity]. Qed.

(** Directories made by the first run are there for the second. *)
Lemma replays_directories (h : host) (final a a' b : tree) :
  adds_directories a a' -> below a' final -> replays h final a b -> replays h final a' b.
Proof.
  intros Ha Hb [Hs Hr]. split; [exact Hs |]. intros q.
  destruct (Ha q) as [E | [_ D]].
  - rewrite E. apply Hr.
  - left. left. rewrite D. destruct (Hb q Dir D) as (n' & Hn & Hk).
    destruct n'; [| discriminate]. symmetry. apply (shape_lookup_dir b final q Hs Hn).
Qed.

Lemma mkdir_again (root : string) (final b : tree) (p : path) :
  shape b = shape final -> lookup final p = Some Dir ->
  mkdir root b p = Ok b /\ mkdir_parents root b p = Ok b.
Proof.
  intros Hs Hp. pose proof (shape_lookup_dir b final p Hs Hp) as Hb.
  assert (Hos : os_mkdir root b p
                = Raise (os_error FileExistsError "[Errno 17] File exists" root p)).
  { unfold os_mkdir. rewrite Hb. reflexivity. }
  assert (Hd : is_dir b p = true) by (apply is_dir_lookup; exact Hb).
  split.
  - unfold mkdir. rewrite Hos. simpl. rewrite Hd. reflexivity.
  - destruct p; simpl; rewrite Hos; simpl; rewrite Hd; reflexivity.
Qed.

Lemma replays_mkdir (h : host) (root : string) (final a a' b : tree) (p : path) :
  mkdir root a p = Ok a' -> below a' final -> replays h final a b ->
  mkdir root b p = Ok b /\ replays h final a' b.
Proof.
  intros H Hb Hr. destruct (mkdir_adds _ _ _ _ H) as [Ha Hd].
  destruct (Hb p Dir Hd) as (n' & Hn & Hk). destruct n'; [| discriminate].
  split.
  - apply (mkdir_again root final b p); [apply Hr | exact Hn].
  - apply (replays_directories h final a a' b); assumption.
Qed.

Lemma replays_mkdir_parents (h : host) (root : string) (final a a' b : tree) (p : path) :
  mkdir_parents root a p = Ok a' -> below a' final -> replays h final a b ->
  mkdir_parents root b p = Ok b /\ replays h final a' b.
Proof.
  intros H Hb Hr. destruct (mkdir_parents_adds _ _ _ _ H) as [Ha Hd].
  destruct (Hb p Dir Hd) as (n' & Hn & Hk). destruct n'; [| discriminate].
  split.
  - apply (mkdir_again root final b p); [apply Hr | exact Hn].
  - apply (replays_directories h final a a' b); assumption.
Qed.

(** A file written by the first run is written over by the second. *)
Lemma replays_write (h : host) (root : string) (final a a' b : tree) (p : path)
    (f1 f2 : file) :
  write root a p f1 = Ok a' -> below a' final -> replays h final a b ->
  same_up_to_time h p (Some (File f1)) (Some (File f2)) ->
  exists b', write root b p f2 = Ok b' /\ replays h final a' b'.
Proof.
  intros H Hb [Hs Hr] Hf.
  assert (Ha' : lookup a' p = Some (File f1)).
  { rewrite (write_lookup _ _ _ _ p _ H), path_eqb_refl. reflexivity. }
  destruct (Hb p _ Ha') as (n' & Hn & Hk). destruct n' as [| g]; [discriminate |].
  destruct (shape_lookup_file b final p g Hs Hn) as (g' & Hg).
  exists (put b p (File f2)). split.
  - unfold write. rewrite Hg. reflexivity.
  - split.
    + rewrite (shape_put b p (File g') (File f2) Hg eq_refl). exact Hs.
    + intros q. rewrite lookup_put, (write_lookup _ _ _ _ q _ H).
      destruct (path_eqb_spec p q) as [<- | _]; [left; exact Hf | apply Hr].
Qed.

Lemma for_each_mono {A S : Type} (tr : S -> tree) (xs : list A) (body : A -> S -> result S) :
  (forall x, mono tr (body x)) -> mono tr (Py.for_each xs body).
Proof.
  intros Hm. induction xs as [| x xs IH]; intros a a' H; simpl in H.
  - injection H as <-. apply below_refl.
  - apply bind_Ok_inv in H as (a1 & H1 & H2).
    exact (below_trans _ _ _ (Hm x a a1 H1) (IH a1 a' H2)).
Qed.

Lemma for_each_replay {A S : Type} (h : host) (tr : S -> tree) (same : S -> S -> Prop)
    (xs : list A) (body : A -> S -> result S) :
  (forall x, mono tr (body x)) ->
  (forall x, replay h tr same (body x)) ->
  replay h tr same (Py.for_each xs body).
Proof.
  intros Hm Hr. induction xs as [| x xs IH]; intros final a a' b H Hb Hs Hrep; simpl in H.
  - injection H as <-. exists b. simpl. auto.
  - apply bind_Ok_inv in H as (a1 & H1 & H2).
    pose proof (below_trans _ _ _ (for_each_mono tr xs body Hm a1 a' H2) Hb) as Hb1.
    destruct (Hr x final a a1 b H1 Hb1 Hs Hrep) as (b1 & K1 & Hs1 & Hrep1).
    destruct (IH final a1 a' b1 H2 Hb Hs1 Hrep1) as (b' & K2 & Hs2 & Hrep2).
    exists b'. simpl. rewrite K1. simpl. auto.
Qed.

Section SecondRun.

Variable h : host.
Variable output_dir : string.

Lemma process_endpoint_eq (endpoint : string) (data : dict) (family_dir : path) (w : world) :
  EnhancedRamlSplitter.process_endpoint h output_dir endpoint data family_dir w
  = (let* examples :=
       ExampleGenerator.generate_example_for_endpoint h endpoint
         (Py.get_default data "method" (JStr "GET"))
         (Py.get_default data "parameters" (JObj [])) in
     let* validation := EnhancedRamlSplitter.get_validation_rules data in
     let enhanced := EnhancedRamlSplitter.enhanced_data endpoint data examples validation in
     let* t1 := write output_dir (files w)
                  (joinpath family_dir (EnhancedRamlSplitter.endpoint_file_name endpoint))
                  (json_file h (JObj enhanced)) in
     let* t2 := write output_dir t1
                  (joinpath (joinpath family_dir "docs")
                     (EnhancedRamlSplitter.doc_file_name endpoint))
                  (text_file (md_text endpoint (strftime (clock h (ticks w))))) in
     Ok (enhanced, {| files := t2; ticks := S (ticks w) |})).
Proof.
  unfold EnhancedRamlSplitter.process_endpoint.
  destruct (ExampleGenerator.generate_example_for_endpoint _ _ _ _) as [ex | e];
    [| reflexivity]. cbn [bind].
  destruct (EnhancedRamlSplitter.get_validation_rules data) as [va | e]; [| reflexivity].
  cbn [bind]. cbv zeta. unfold on_files at 1.
  destruct (write output_dir (files w) _ _) as [t1 | e]; [| reflexivity]. cbn [bind].
  rewrite generate_markdown_enhanced. cbn [bind now snd files ticks]. unfold on_files.
  cbn [files ticks].
  destruct (write output_dir t1 _ _) as [t2 | e]; reflexivity.
Qed.

Lemma endswith_app (a s : string) : Py.endswith (a ++ s) s = true.
Proof.
  induction a as [| c a IH].
  - destruct s as [| c s]; [reflexivity |].
    change ("" ++ String c s) with (String c s).
    rewrite endswith_cons, String.eqb_refl. reflexivity.
  - change (String c a ++ s) with (String c (a ++ s)).
    rewrite endswith_cons, IH. apply orb_true_r.
Qed.

Lemma doc_file_is_markdown (family_dir : path) (endpoint : string) :
  Py.endswith
    (name (joinpath (joinpath family_dir "docs") (EnhancedRamlSplitter.doc_file_name endpoint)))
    ".md" = true.
Proof.
  unfold EnhancedRamlSplitter.doc_file_name.
  destruct (joinpath_suffix (joinpath family_dir "docs") (Py.strip "/" endpoint) ".md")
    as (piece & up & ->); [reflexivity | simpl; lia |].
  simpl. apply endswith_app.
Qed.

Lemma process_endpoint_mono (endpoint : string) (data : dict) (family_dir : path)
    (w w' : world) (processed : dict) :
  EnhancedRamlSplitter.process_endpoint h output_dir endpoint data family_dir w
  = Ok (processed, w') ->
  below (files w) (files w').
Proof.
  rewrite process_endpoint_eq. intros H.
  apply bind_Ok_inv in H as (ex & _ & H). apply bind_Ok_inv in H as (va & _ & H).
  cbv zeta in H.
  apply bind_Ok_inv in H as (t1 & H1 & H). apply bind_Ok_inv in H as (t2 & H2 & H).
  injection H as _ <-. simpl.
  exact (below_trans _ _ _ (write_below _ _ _ _ _ H1) (write_below _ _ _ _ _ H2)).
Qed.

Lemma process_endpoint_replay (endpoint : string) (data : dict) (family_dir : path)
    (final : tree) (a a' b : world) (processed : dict) :
  EnhancedRamlSplitter.process_endpoint h output_dir endpoint data family_dir a
  = Ok (processed, a') ->
  below (files a') final ->
  replays h final (files a) (files b) ->
  exists b',
    EnhancedRamlSplitter.process_endpoint h output_dir endpoint data family_dir b
    = Ok (processed, b')
    /\ replays h final (files a') (files b').
Proof.
  rewrite !process_endpoint_eq. intros H Hb Hrep.
  apply bind_Ok_inv in H as (ex & Hex & H). apply bind_Ok_inv in H as (va & Hva & H).
  cbv zeta in H.
  apply bind_Ok_inv in H as (t1 & H1 & H). apply bind_Ok_inv in H as (t2 & H2 & H).
  injection H as <- <-. simpl in Hb.
  rewrite Hex, Hva. simpl.
  pose proof (below_trans _ _ _ (write_below _ _ _ _ _ H2) Hb) as Hb1.
  destruct (replays_write h output_dir final _ _ _ _ _
              (json_file h (JObj (EnhancedRamlSplitter.enhanced_data endpoint data ex va)))
              H1 Hb1 Hrep (same_up_to_time_refl _ _ _)) as (b1 & K1 & Hrep1).
  rewrite K1. simpl.
  destruct (replays_write h output_dir final _ _ _ _ _
              (text_file (md_text endpoint (strftime (clock h (ticks b)))))
              H2 Hb Hrep1) as (b2 & K2 & Hrep2).
  { right. left. split; [apply doc_file_is_markdown |].
    exists endpoint, (strftime (clock h (ticks a))), (strftime (clock h (ticks b))).
    split; reflexivity. }
  rewrite K2. simpl. eexists. split; [reflexivity | exact Hrep2].
Qed.

Lemma on_files_inv (f : tree -> result tree) (w w' : world) :
  on_files f w = Ok w' -> f (files w) = Ok (files w') /\ ticks w' = ticks w.
Proof.
  unfold on_files. intros H. apply bind_Ok_inv in H as (t & Ht & H).
  injection H as <-. simpl. auto.
Qed.

Lemma family_step_mono (family_dir : path) (entry : string * json) :
  mono family_tree (EnhancedRamlSplitter.family_step h output_dir family_dir entry).
Proof.
  intros [l a] [l' a'] H. destruct entry as [endpoint data]. unfold family_tree. simpl in *.
  destruct data; try (injection H as _ <-; apply below_refl).
  apply bind_Ok_inv in H as ([processed w1] & H1 & H). injection H as _ <-.
  exact (process_endpoint_mono _ _ _ _ _ _ H1).
Qed.

Lemma family_step_replay (family_dir : path) (entry : string * json) :
  replay h family_tree same_list
    (EnhancedRamlSplitter.family_step h output_dir family_dir entry).
Proof.
  intros final [l a] [l' a'] [m b] H Hb Hs Hrep. destruct entry as [endpoint data].
  unfold family_tree, same_list in *. simpl in *. subst m.
  destruct data; try (injection H as <- <-; eexists; split; [reflexivity | auto]).
  apply bind_Ok_inv in H as ([processed w1] & H1 & H). injection H as <- <-.
  destruct (process_endpoint_replay _ _ _ _ _ _ _ _ H1 Hb Hrep) as (b' & K & Hrep').
  rewrite K. simpl. eexists. split; [reflexivity | auto].
Qed.

Lemma process_family_inv (family : string) (endpoints : json) (family_dir : path)
    (w w' : world) :
  EnhancedRamlSplitter.process_family h output_dir family endpoints family_dir w = Ok w' ->
  exists es processed w1,
    Py.items endpoints = Ok es
    /\ Py.for_each es (EnhancedRamlSplitter.family_step h output_dir family_dir) ([], w)
       = Ok (processed, w1)
    /\ write output_dir (files w1) (joinpath family_dir "_index.json")
         (json_file h (EnhancedRamlSplitter.family_index family processed))
       = Ok (files w')
    /\ ticks w' = ticks w1.
Proof.
  unfold EnhancedRamlSplitter.process_family. intros H.
  apply bind_Ok_inv in H as (es & Hes & H).
  apply bind_Ok_inv in H as ([processed w1] & Hl & H).
  apply on_files_inv in H as [Hw Ht]. exists es, processed, w1. auto.
Qed.

Lemma process_family_mono (family : string) (endpoints : json) (family_dir : path) :
  mono files (EnhancedRamlSplitter.process_family h output_dir family endpoints family_dir).
Proof.
  intros a a' H. apply process_family_inv in H as (es & processed & w1 & _ & Hl & Hw & _).
  pose proof (for_each_mono family_tree es _ (family_step_mono family_dir) _ _ Hl) as M.
  exact (below_trans _ _ _ M (write_below _ _ _ _ _ Hw)).
Qed.

Lemma process_family_replay (family : string) (endpoints : json) (family_dir : path) :
  replay h files any_world
    (EnhancedRamlSplitter.process_family h output_dir family endpoints family_dir).
Proof.
  intros final a a' b H Hb _ Hrep.
  apply process_family_inv in H as (es & processed & w1 & Hes & Hl & Hw & _).
  pose proof (below_trans _ _ _ (write_below _ _ _ _ _ Hw) Hb) as Hb1.
  destruct (for_each_replay h family_tree same_list es _
              (family_step_mono family_dir) (family_step_replay family_dir)
              final ([], a) (processed, w1) ([], b) Hl Hb1 eq_refl Hrep)
    as ([processed' b1] & K & Hs & Hrep1).
  unfold same_list, family_tree in *. simpl in *. subst processed'.
  destruct (replays_write h output_dir final _ _ _ _ _
              (json_file h (EnhancedRamlSplitter.family_index family processed))
              Hw Hb Hrep1 (same_up_to_time_refl _ _ _)) as (b2 & K2 & Hrep2).
  exists {| files := b2; ticks := ticks b1 |}. split; [| split; [exact I | exact Hrep2]].
  unfold EnhancedRamlSplitter.process_family. rewrite Hes. cbn [bind]. rewrite K. cbn [bind].
  unfold on_files. simpl. rewrite K2. reflexivity.
Qed.

Lemma create_family_directory_inv (family : string) (w w' : world) (family_dir : path) :
  EnhancedRamlSplitter.create_family_directory output_dir family w = Ok (family_dir, w') ->
  exists t1,
    family_dir = joinpath [] family
    /\ mkdir_parents output_dir (files w) family_dir = Ok t1
    /\ mkdir output_dir t1 (joinpath family_dir "docs") = Ok (files w')
    /\ ticks w' = ticks w.
Proof.
  unfold EnhancedRamlSplitter.create_family_directory. intros H.
  apply bind_Ok_inv in H as (w1 & H1 & H). apply bind_Ok_inv in H as (w2 & H2 & H).
  injection H as <- <-.
  apply on_files_inv in H1 as [H1 T1]. apply on_files_inv in H2 as [H2 T2].
  exists (files w1). repeat split; auto. congruence.
Qed.

Lemma split_step_mono (entry : string * json) :
  mono files (EnhancedRamlSplitter.split_step h output_dir entry).
Proof.
  intros a a' H. destruct entry as [family endpoints]. simpl in H.
  destruct (Py.startswith family "/"); [| injection H as <-; apply below_refl].
  apply bind_Ok_inv in H as ([family_dir w1] & H1 & H2).
  apply create_family_directory_inv in H1 as (t1 & _ & M1 & M2 & _).
  apply process_family_mono in H2.
  destruct (mkdir_parents_adds _ _ _ _ M1) as [A1 _]. destruct (mkdir_adds _ _ _ _ M2) as [A2 _].
  exact (below_trans _ _ _
           (adds_directories_below _ _ (adds_directories_trans _ _ _ A1 A2)) H2).
Qed.

Lemma split_step_replay (entry : string * json) :
  replay h files any_world (EnhancedRamlSplitter.split_step h output_dir entry).
Proof.
  intros final a a' b H Hb _ Hrep. destruct entry as [family endpoints]. simpl in *.
  destruct (Py.startswith family "/");
    [| injection H as <-; exists b; split; [reflexivity | split; [exact I | exact Hrep]]].
  apply bind_Ok_inv in H as ([family_dir w1] & H1 & H2).
  apply create_family_directory_inv in H1 as (t1 & -> & M1 & M2 & _).
  pose proof (below_trans _ _ _ (process_family_mono _ _ _ _ _ H2) Hb) as Hb1.
  destruct (mkdir_adds _ _ _ _ M2) as [A2 _].
  pose proof (below_trans _ _ _ (adds_directories_below _ _ A2) Hb1) as Hbt1.
  destruct (replays_mkdir_parents h output_dir final _ _ _ _ M1 Hbt1 Hrep) as [K1 Hrep1].
  destruct (replays_mkdir h output_dir final _ _ _ _ M2 Hb1 Hrep1) as [K2 Hrep2].
  destruct (process_family_replay family endpoints (joinpath [] (Py.strip "/" family))
              final w1 a' {| files := files b; ticks := ticks b |} H2 Hb I Hrep2)
    as (b' & K3 & _ & Hrep3).
  exists b'. split; [| split; [exact I | exact Hrep3]].
  unfold EnhancedRamlSplitter.create_family_directory, on_files. simpl.
  rewrite K1. simpl. rewrite K2. simpl. exact K3.
Qed.

Lemma split_raml_mono (doc : json) :
  mono files (EnhancedRamlSplitter.split_raml h output_dir doc).
Proof.
  intros a a' H. unfold EnhancedRamlSplitter.split_raml in H.
  apply bind_Ok_inv in H as (fs & _ & H).
  exact (for_each_mono files fs _ split_step_mono _ _ H).
Qed.

Lemma split_raml_replay (doc : json) :
  replay h files any_world (EnhancedRamlSplitter.split_raml h output_dir doc).
Proof.
  intros final a a' b H Hb _ Hrep. unfold EnhancedRamlSplitter.split_raml in *.
  apply bind_Ok_inv in H as (fs & Hfs & H). rewrite Hfs. cbn [bind].
  exact (for_each_replay h files any_world fs _ split_step_mono split_step_replay
           final a a' b H Hb I Hrep).
Qed.

Lemma make_directory_mono (dir_path : path) :
  mono files (on_files (fun t => mkdir_parents output_dir t dir_path)).
Proof.
  intros a a' H. apply on_files_inv in H as [H _].
  destruct (mkdir_parents_adds _ _ _ _ H) as [A _]. exact (adds_directories_below _ _ A).
Qed.

Lemma make_directory_replay (dir_path : path) :
  replay h files any_world (on_files (fun t => mkdir_parents output_dir t dir_path)).
Proof.
  intros final a a' b H Hb _ Hrep. apply on_files_inv in H as [H _].
  destruct (replays_mkdir_parents h output_dir final _ _ _ _ H Hb Hrep) as [K Hrep'].
  exists {| files := files b; ticks := ticks b |}. unfold on_files. rewrite K.
  split; [reflexivity | split; [exact I | exact Hrep']].
Qed.

Lemma create_directory_structure_mono :
  mono files (EnhancedRamlSplitter.create_directory_structure output_dir).
Proof. apply for_each_mono. apply make_directory_mono. Qed.

Lemma create_directory_structure_replay :
  replay h files any_world (EnhancedRamlSplitter.create_directory_structure output_dir).
Proof.
  apply for_each_replay; [apply make_directory_mono | apply make_directory_replay].
Qed.

End SecondRun.

(** ** The descriptor a run leaves *)

Lemma for_each_reaches {A S : Type} (P : S -> Prop) (Q : A -> Prop) (xs : list A)
    (body : A -> S -> result S) :
  (forall x a a', body x a = Ok a' -> Q x \/ P a -> P a') ->
  forall a a', Py.for_each xs body a = Ok a' -> (exists x, In x xs /\ Q x) \/ P a -> P a'.
Proof.
  intros Hstep. induction xs as [| x0 xs IH]; intros a a' H Hc; simpl in H.
  - injection H as <-. destruct Hc as [(x & [] & _) | Hp]. exact Hp.
  - apply bind_Ok_inv in H as (a1 & H1 & H2). apply (IH a1 a' H2).
    destruct Hc as [(x & [E | Hin] & Hq) | Hp].
    + right. rewrite <- E in Hq. exact (Hstep x0 a a1 H1 (or_introl Hq)).
    + left. exists x. auto.
    + right. exact (Hstep x0 a a1 H1 (or_intror Hp)).
Qed.

Lemma descriptor_has_the_keys (h : host) (t : tree) (p : path) :
  descriptor_at h t p ->
  exists processed,
    lookup t p = Some (File (json_file h (JObj processed)))
    /\ json_load h (json_file h (JObj processed)) = Ok (JObj processed)
    /\ Py.has_key processed "endpoint" = true
    /\ Py.has_key processed "data" = true
    /\ Py.has_key processed "examples" = true
    /\ Py.has_key processed "validation" = true.
Proof.
  intros (endpoint & data & ex & va & H).
  exists (EnhancedRamlSplitter.enhanced_data endpoint data ex va).
  repeat split; [exact H | reflexivity ..].
Qed.

Section Emitted.

Variable h : host.
Variable output_dir : string.
Variable p : path.

Hypothesis p_is_json : exists piece up, p = (piece ++ ".json") :: up.
Hypothesis p_is_no_family_index : name p <> "_index.json".
Hypothesis p_is_not_the_main_index : p <> ["index.json"].

Lemma write_elsewhere (t t' : tree) (q : path) (f : file) :
  write output_dir t q f = Ok t' -> q <> p -> descriptor_at h t p -> descriptor_at h t' p.
Proof.
  intros H Hq (endpoint & data & ex & va & D). exists endpoint, data, ex, va.
  rewrite (write_lookup _ _ _ _ p _ H).
  destruct (path_eqb_spec q p) as [E | _]; [destruct (Hq E) | exact D].
Qed.

Lemma adds_directories_descriptor (t t' : tree) :
  adds_directories t t' -> descriptor_at h t p -> descriptor_at h t' p.
Proof.
  intros A (endpoint & data & ex & va & D). exists endpoint, data, ex, va.
  destruct (A p) as [E | [N _]]; congruence.
Qed.

Lemma process_endpoint_descriptor (endpoint : string) (data : dict) (family_dir : path)
    (w w' : world) (processed : dict) :
  EnhancedRamlSplitter.process_endpoint h output_dir endpoint data family_dir w
  = Ok (processed, w') ->
  joinpath family_dir (EnhancedRamlSplitter.endpoint_file_name endpoint) = p
  \/ descriptor_at h (files w) p ->
  descriptor_at h (files w') p.
Proof.
  intros H Hc. apply process_endpoint_inv in H
    as (ex & va & t1 & t2 & _ & _ & -> & Ht1 & Ht2 & ->). simpl.
  assert (D1 : descriptor_at h t1 p).
  { destruct (path_eqb_spec
                (joinpath family_dir (EnhancedRamlSplitter.endpoint_file_name endpoint)) p)
      as [E | N].
    - exists endpoint, data, ex, va.
      rewrite (write_lookup _ _ _ _ p _ Ht1), E, path_eqb_refl. reflexivity.
    - destruct Hc as [E | D]; [destruct (N E) |].
      exact (write_elsewhere _ _ _ _ Ht1 N D). }
  apply (write_elsewhere _ _ _ _ Ht2); [| exact D1].
  unfold EnhancedRamlSplitter.doc_file_name.
  destruct (joinpath_suffix (joinpath family_dir "docs") (Py.strip "/" endpoint) ".md")
    as (piece' & up' & ->); [reflexivity | simpl; lia |].
  destruct p_is_json as (piece & up & ->).
  intros E. injection E as E _. symmetry in E. exact (json_name_is_not_md _ _ E).
Qed.

Lemma family_step_descriptor (family_dir : path) (entry : string * json)
    (a a' : list json * world) :
  EnhancedRamlSplitter.family_step h output_dir family_dir entry a = Ok a' ->
  (exists data, snd entry = JObj data
                /\ joinpath family_dir (EnhancedRamlSplitter.endpoint_file_name (fst entry)) = p)
  \/ descriptor_at h (family_tree a) p ->
  descriptor_at h (family_tree a') p.
Proof.
  destruct a as [l a], a' as [l' a'], entry as [endpoint data]. unfold family_tree.
  simpl. intros H Hc.
  destruct data as [| b | z | s | js | d];
    try (injection H as _ <-; destruct Hc as [(d' & E & _) | D]; [discriminate E | exact D]).
  apply bind_Ok_inv in H as ([processed w1] & H1 & H). injection H as _ <-.
  apply (process_endpoint_descriptor _ _ _ _ _ _ H1).
  destruct Hc as [(d' & _ & E) | D]; [left; exact E | right; exact D].
Qed.

Lemma process_family_descriptor (family : string) (endpoints : json) (family_dir : path)
    (w w' : world) :
  EnhancedRamlSplitter.process_family h output_dir family endpoints family_dir w = Ok w' ->
  (exists es endpoint data,
     endpoints = JObj es /\ In (endpoint, JObj data) es
     /\ joinpath family_dir (EnhancedRamlSplitter.endpoint_file_name endpoint) = p)
  \/ descriptor_at h (files w) p ->
  descriptor_at h (files w') p.
Proof.
  intros H Hc. apply process_family_inv in H as (es & processed & w1 & Hes & Hl & Hw & _).
  apply (write_elsewhere _ _ _ _ Hw).
  { intros E. apply p_is_no_family_index. rewrite <- E. reflexivity. }
  refine (for_each_reaches (fun s => descriptor_at h (family_tree s) p)
            (fun entry => exists data,
               snd entry = JObj data
               /\ joinpath family_dir (EnhancedRamlSplitter.endpoint_file_name (fst entry)) = p)
            es _ (family_step_descriptor family_dir) _ _ Hl _).
  destruct Hc as [(es' & endpoint & data & -> & Hin & E) | D]; [left | right; exact D].
  injection Hes as <-. exists (endpoint, JObj data). split; [exact Hin |].
  exists data. split; [reflexivity | exact E].
Qed.

Lemma split_step_descriptor (entry : string * json) (w w' : world) :
  EnhancedRamlSplitter.split_step h output_dir entry w = Ok w' ->
  (Py.startswith (fst entry) "/" = true
   /\ exists es endpoint data,
        snd entry = JObj es /\ In (endpoint, JObj data) es
        /\ joinpath (joinpath [] (Py.strip "/" (fst entry)))
             (EnhancedRamlSplitter.endpoint_file_name endpoint) = p)
  \/ descriptor_at h (files w) p ->
  descriptor_at h (files w') p.
Proof.
  destruct entry as [family endpoints]. simpl. intros H Hc.
  destruct (Py.startswith family "/").
  - apply bind_Ok_inv in H as ([family_dir w1] & H1 & H2).
    apply create_family_directory_inv in H1 as (t1 & -> & M1 & M2 & _).
    destruct (mkdir_parents_adds _ _ _ _ M1) as [A1 _].
    destruct (mkdir_adds _ _ _ _ M2) as [A2 _].
    apply (process_family_descriptor _ _ _ _ _ H2).
    destruct Hc as [(_ & Hin) | D]; [left; exact Hin | right].
    exact (adds_directories_descriptor _ _ (adds_directories_trans _ _ _ A1 A2) D).
  - injection H as <-. destruct Hc as [(E & _) | D]; [discriminate E | exact D].
Qed.

Lemma process_raml_descriptor (fs es data : dict) (family endpoint : string) (w w' : world) :
  EnhancedRamlSplitter.process_raml h output_dir (JObj fs) w = Ok w' ->
  In (family, JObj es) fs ->
  Py.startswith family "/" = true ->
  In (endpoint, JObj data) es ->
  joinpath (joinpath [] (Py.strip "/" family))
    (EnhancedRamlSplitter.endpoint_file_name endpoint) = p ->
  descriptor_at h (files w') p.
Proof.
  intros H Hf Hs He Hp. apply process_raml_inv in H as (w1 & w2 & _ & H2 & H3).
  apply generate_index_inv in H3 as (families & _ & Hw & _).
  apply (write_elsewhere _ _ _ _ Hw); [intros E; exact (p_is_not_the_main_index (eq_sym E)) |].
  unfold EnhancedRamlSplitter.split_raml in H2. cbn [Py.items bind] in H2.
  refine (for_each_reaches (fun s => descriptor_at h (files s) p)
            (fun entry =>
               Py.startswith (fst entry) "/" = true
               /\ exists es endpoint data,
                    snd entry = JObj es /\ In (endpoint, JObj data) es
                    /\ joinpath (joinpath [] (Py.strip "/" (fst entry)))
                         (EnhancedRamlSplitter.endpoint_file_name endpoint) = p)
            fs _ split_step_descriptor _ _ H2 _).
  left. exists (family, JObj es). split; [exact Hf |]. split; [exact Hs |].
  exists es, endpoint, data. auto.
Qed.

End Emitted.

(** C7. For every endpoint that a run of the splitter has processed, when
    the run succeeds and neither the family key nor the endpoint key has
    a component [..]: the file [<family>/<endpoint>.json] the run leaves
    holds a JSON document, a mapping with the keys [endpoint], [data],
    [examples] and [validation], unless the file is named [_index.json]
    or is the main [index.json], the two names under which the run
    writes its indexes afterwards. *)
Theorem emitted_endpoint_file_has_the_four_keys (h : host) (output_dir : string)
    (fs es data : dict) (family endpoint : string) (w w' : world) (p : path) :
  EnhancedRamlSplitter.process_raml h output_dir (JObj fs) w = Ok w' ->
  In (family, JObj es) fs ->
  Py.startswith family "/" = true ->
  In (endpoint, JObj data) es ->
  has_dotdot family = false ->
  has_dotdot endpoint = false ->
  p = joinpath (joinpath [] (Py.strip "/" family))
        (EnhancedRamlSplitter.endpoint_file_name endpoint) ->
  name p <> "_index.json" ->
  p <> ["index.json"] ->
  exists processed,
    lookup (files w') p = Some (File (json_file h (JObj processed)))
    /\ json_load h (json_file h (JObj processed)) = Ok (JObj processed)
    /\ Py.has_key processed "endpoint" = true
    /\ Py.has_key processed "data" = true
    /\ Py.has_key processed "examples" = true
    /\ Py.has_key processed "validation" = true.
Proof.
  intros H Hf Hs He _ _ Hp Hidx Hroot. apply descriptor_has_the_keys.
  refine (process_raml_descriptor h output_dir p _ Hidx Hroot fs es data family endpoint
            w w' H Hf Hs He (eq_sym Hp)).
  rewrite Hp. unfold EnhancedRamlSplitter.endpoint_file_name.
  apply joinpath_suffix; [reflexivity | simpl; lia].
Qed.

Lemma emitted_endpoint_file_has_the_four_keys_witness :
  exists w',
    EnhancedRamlSplitter.process_raml demo_host "api" demo_document empty_world = Ok w'
    /\ exists processed,
         lookup (files w') ["ethernet.json"; "interface"]
         = Some (File (json_file demo_host (JObj processed)))
         /\ json_load demo_host (json_file demo_host (JObj processed)) = Ok (JObj processed)
         /\ Py.has_key processed "endpoint" = true
         /\ Py.has_key processed "data" = true
         /\ Py.has_key processed "examples" = true
         /\ Py.has_key processed "validation" = true.
Proof.
  eexists. split; [vm_compute; reflexivity |].
  refine (emitted_endpoint_file_has_the_four_keys demo_host "api"
            [ ("title", JStr "RouterOS");
              ("/interface",
               JObj [ ("/ethernet",
                       JObj [ ("method", JStr "GET");
                              ("description", JStr "Ethernet ports");
                              ("parameters",
                               JObj [ ("ip-address",
                                       JObj [ ("type", JStr "ip");
                                              ("required", JBool true);
                                              ("description", JStr "Address") ]) ]) ]) ]) ]
            [ ("/ethernet",
               JObj [ ("method", JStr "GET");
                      ("description", JStr "Ethernet ports");
                      ("parameters",
                       JObj [ ("ip-address",
                               JObj [ ("type", JStr "ip");
                                      ("required", JBool true);
                                      ("description", JStr "Address") ]) ]) ]) ]
            [ ("method", JStr "GET");
              ("description", JStr "Ethernet ports");
              ("parameters",
               JObj [ ("ip-address",
                       JObj [ ("type", JStr "ip");
                              ("required", JBool true);
                              ("description", JStr "Address") ]) ]) ]
            "/interface" "/ethernet" empty_world _ ["ethernet.json"; "interface"]
            _ _ _ _ _ _ _ _ _).
  - vm_compute. reflexivity.
  - right. left. reflexivity.
  - reflexivity.
  - left. reflexivity.
  - reflexivity.
  - reflexivity.
  - reflexivity.
  - discriminate.
  - discriminate.
Defined.

(** ** The file of a key with a slash inside *)



Lemma children_shape (b c : tree) (d : path) : shape b = shape c -> children b d = children c d.
Proof.
  unfold children. revert c. induction b as [| [p n] b IH]; intros [| [p' n'] c] H;
    simpl in *; try discriminate; [reflexivity |].
  injection H as <- _ Hrest. specialize (IH c Hrest).
  destruct p as [| x up]; simpl; [exact IH |].
  destruct (path_eqb up d); simpl; [rewrite IH; reflexivity | exact IH].
Qed.

Lemma is_dir_shape (b c : tree) (q : path) : shape b = shape c -> is_dir b q = is_dir c q.
Proof.
  intros H. pose proof (shape_lookup b c q H) as K. unfold is_dir.
  destruct (lookup b q) as [[| f] |], (lookup c q) as [[| g] |]; simpl in K; congruence.
Qed.

Lemma family_dirs_shape (b c : tree) (d : path) :
  shape b = shape c -> family_dirs b d = family_dirs c d.
Proof.
  intros H. unfold family_dirs. rewrite (children_shape b c d H).
  apply filter_ext. intros q. rewrite (is_dir_shape b c q H). reflexivity.
Qed.

Lemma In_lookup (t : tree) (q : path) : In q (map fst t) -> exists n, lookup t q = Some n.
Proof.
  induction t as [| [p n] t IH]; simpl; [intros [] |].
  intros [<- | H].
  - rewrite path_eqb_refl. eauto.
  - destruct (path_eqb p q); eauto.
Qed.

Lemma children_In (t : tree) (d q : path) : In q (children t d) -> In q (map fst t).
Proof.
  unfold children. intros H. apply in_map_iff in H as (e & <- & He).
  apply filter_In in He as [He _]. apply in_map. exact He.
Qed.

Lemma children_parent (t : tree) (d q : path) :
  In q (children t d) -> exists x, q = x :: d.
Proof.
  unfold children. intros H. apply in_map_iff in H as ([p n] & <- & He).
  apply filter_In in He as [_ He]. simpl in *. destruct p as [| x up]; [discriminate |].
  apply path_eqb_eq in He as ->. eauto.
Qed.

Lemma family_dirs_write (root : string) (t t' : tree) (p d : path) (f : file) :
  write root t p f = Ok t' -> family_dirs t' d = family_dirs t d.
Proof.
  intros H.
  assert (Hcase : (exists g, lookup t p = Some (File g) /\ t' = put t p (File f))
                  \/ (lookup t p = None /\ t' = (t ++ [(p, File f)])%list)).
  { unfold write in H. destruct (lookup t p) as [[| g] |] eqn:Hp; try discriminate.
    - left. exists g. injection H as <-. auto.
    - right. destruct p as [| x up].
      + injection H as <-. auto.
      + destruct (lookup t up) as [[| g] |]; try discriminate. injection H as <-. auto. }
  destruct Hcase as [(g & Hp & ->) | (Hp & ->)].
  - apply family_dirs_shape. apply (shape_put t p (File g)); [exact Hp | reflexivity].
  - unfold family_dirs, children. rewrite filter_app, map_app, filter_app.
    assert (Hnew : lookup (t ++ [(p, File f)]) p = Some (File f)).
    { rewrite (lookup_snoc_fresh _ _ _ _ Hp), path_eqb_refl. reflexivity. }
    match goal with
    | |- (_ ++ ?tail)%list = _ => assert (Htail : tail = [])
    end.
    { simpl. destruct p as [| x up]; [reflexivity |].
      destruct (path_eqb up d); [| reflexivity]. simpl.
      unfold is_dir. rewrite Hnew. reflexivity. }
    rewrite Htail, app_nil_r. apply filter_ext_in. intros q Hq.
    assert (Hin : In q (map fst t)) by (apply (children_In t d); exact Hq).
    destruct (In_lookup t q Hin) as (n & Hn).
    unfold is_dir. rewrite lookup_snoc, Hn. reflexivity.
Qed.

Lemma for_each_ext_in {A S : Type} (xs : list A) (body body' : A -> S -> result S) (s : S) :
  (forall x, In x xs -> forall s', body x s' = body' x s') ->
  Py.for_each xs body s = Py.for_each xs body' s.
Proof.
  revert s. induction xs as [| x xs IH]; intros s H; simpl; [reflexivity |].
  rewrite (H x (or_introl eq_refl)). destruct (body' x s) as [s1 | e]; [| reflexivity].
  simpl. apply IH. intros y Hy. apply H. right. exact Hy.
Qed.

Lemma index_step_ext (h : host) (output_dir : string) (t t' : tree) (family_dir : path)
    (families : list json) :
  lookup t' (joinpath family_dir "_index.json") = lookup t (joinpath family_dir "_index.json") ->
  EnhancedRamlSplitter.index_step h output_dir t' family_dir families
  = EnhancedRamlSplitter.index_step h output_dir t family_dir families.
Proof.
  intros H. unfold EnhancedRamlSplitter.index_step, exists_, read. rewrite H. reflexivity.
Qed.

Lemma shape_paths (b c : tree) : shape b = shape c -> map fst b = map fst c.
Proof.
  intros H. apply (f_equal (map fst)) in H. unfold shape in H.
  rewrite !map_map in H. exact H.
Qed.

Lemma same_up_to_time_elsewhere (h : host) (p : path) (x y : option node) :
  same_up_to_time h p x y ->
  Py.endswith (name p) ".md" = false -> p <> ["index.json"] -> x = y.
Proof.
  intros [E | [[Hmd _] | [Hp _]]] Hn Hi; [exact E | congruence | contradiction].
Qed.

(** C2, as amended. When a run of the splitter has succeeded, a second run
    on the same document and output directory succeeds too and leaves the
    same entries in the same order; at every path the content is the same,
    except that a Markdown document may differ in the text of its
    [Generated on:] line and [index.json] in the value of [generated_at]. *)
Theorem second_run_changes_only_timestamps (h : host) (output_dir : string) (doc : json)
    (w0 w1 : world) :
  EnhancedRamlSplitter.process_raml h output_dir doc w0 = Ok w1 ->
  exists w2,
    EnhancedRamlSplitter.process_raml h output_dir doc w1 = Ok w2
    /\ map fst (files w2) = map fst (files w1)
    /\ (forall p, same_up_to_time h p (lookup (files w1) p) (lookup (files w2) p))
    /\ (forall p, Py.endswith (name p) ".md" = false -> p <> ["index.json"] ->
                  lookup (files w2) p = lookup (files w1) p).
Proof.
  intros H. apply process_raml_inv in H as (wa & wb & Hc & Hs & Hg).
  apply generate_index_inv in Hg as (families & Hfam & Hw & _).
  set (final := files w1) in *.
  pose proof (write_below _ _ _ _ _ Hw) as Hbb.
  pose proof (below_trans _ _ _ (split_raml_mono h output_dir doc _ _ Hs) Hbb) as Hba.
  destruct (create_directory_structure_replay h output_dir final w0 wa w1 Hc Hba I
              (replays_start h (files w0) final)) as (ba & Kc & _ & Hrepa).
  destruct (split_raml_replay h output_dir doc final wa wb ba Hs Hbb I Hrepa)
    as (bb & Ks & _ & Hrepb).
  assert (Hdirs : family_dirs (files bb) [] = family_dirs (files wb) []).
  { rewrite (family_dirs_shape (files bb) final [] (proj1 Hrepb)).
    apply (family_dirs_write output_dir _ _ _ _ _ Hw). }
  assert (Hfam2 : Py.for_each (family_dirs (files bb) [])
                    (EnhancedRamlSplitter.index_step h output_dir (files bb)) []
                  = Ok families).
  { rewrite Hdirs, <- Hfam. apply for_each_ext_in. intros d Hd fams.
    apply index_step_ext.
    assert (Hq : exists x, joinpath d "_index.json" = ["_index.json"; x]).
    { unfold family_dirs in Hd. apply filter_In in Hd as [Hd _].
      destruct (children_parent _ _ _ Hd) as (x & ->). exists x. reflexivity. }
    destruct Hq as (x & ->).
    destruct (proj2 Hrepb ["_index.json"; x]) as [Hsame | Hfinal].
    - symmetry. apply (same_up_to_time_elsewhere h _ _ _ Hsame); [reflexivity | discriminate].
    - rewrite Hfinal.
      rewrite (write_lookup _ _ _ _ ["_index.json"; x] _ Hw). reflexivity. }
  destruct (replays_write h output_dir final _ _ (files bb) ["index.json"] _
              (json_file h (EnhancedRamlSplitter.root_index (clock h (ticks bb)) families))
              Hw (below_refl final) Hrepb) as (b' & Kw & Hrep').
  { right. right. split; [reflexivity |]. eexists _, _, _. split; reflexivity. }
  exists {| files := b'; ticks := S (ticks bb) |}.
  assert (Hall : forall p, same_up_to_time h p (lookup final p) (lookup b' p)).
  { intros p. destruct (proj2 Hrep' p) as [Hsame | Heq]; [exact Hsame |].
    left. symmetry. exact Heq. }
  split; [| split; [| split]].
  - unfold EnhancedRamlSplitter.process_raml. rewrite Kc. cbn [bind]. rewrite Ks. cbn [bind].
    unfold EnhancedRamlSplitter.generate_index. cbn [now fst snd files ticks].
    rewrite Hfam2. cbn [bind]. unfold on_files. cbn [files ticks].
    change (joinpath [] "index.json") with ["index.json"]. rewrite Kw. reflexivity.
  - simpl. apply shape_paths. exact (proj1 Hrep').
  - exact Hall.
  - intros p Hmd Hi. symmetry. simpl.
    exact (same_up_to_time_elsewhere h p _ _ (Hall p) Hmd Hi).
Qed.

Lemma second_run_changes_only_timestamps_witness :
  exists w1,
    EnhancedRamlSplitter.process_raml demo_host "api" demo_document empty_world = Ok w1
    /\ exists w2,
         EnhancedRamlSplitter.process_raml demo_host "api" demo_document w1 = Ok w2
         /\ map fst (files w2) = map fst (files w1)
         /\ (forall p, same_up_to_time demo_host p (lookup (files w1) p) (lookup (files w2) p))
         /\ (forall p, Py.endswith (name p) ".md" = false -> p <> ["index.json"] ->
                       lookup (files w2) p = lookup (files w1) p).
Proof.
  eexists. split; [vm_compute; reflexivity |].
  apply (second_run_changes_only_timestamps demo_host "api" demo_document empty_world).
  vm_compute. reflexivity.
Defined.

(** C2, as stated, fails: after two runs on the same document the Markdown
    document of the endpoint, a file other than [index.json], has two
    different texts. *)
Lemma second_run_rewrites_markdown :
  exists w1 w2,
    EnhancedRamlSplitter.process_raml demo_host "api" demo_document empty_world = Ok w1
    /\ EnhancedRamlSplitter.process_raml demo_host "api" demo_document w1 = Ok w2
    /\ lookup (files w1) ["ethernet.md"; "docs"; "interface"]
       = Some (File (text_file (md_text "/ethernet" "2024-05-01 12:00:00")))
    /\ lookup (files w2) ["ethernet.md"; "docs"; "interface"]
       = Some (File (text_file (md_text "/ethernet" "2024-05-01 12:00:02")))
    /\ text_file (md_text "/ethernet" "2024-05-01 12:00:00")
       <> text_file (md_text "/ethernet" "2024-05-01 12:00:02").
Proof.
  eexists _, _. split; [vm_compute; reflexivity |].
  split; [vm_compute; reflexivity |].
  split; [vm_compute; reflexivity |].
  split; [vm_compute; reflexivity |].
  vm_compute. intros E. discriminate E.
Qed.

(** ** Worked examples *)


(** C7, as stated, fails: the endpoint [/_index] of family [/interface] is
    processed, its descriptor is written to [interface/_index.json], and
    the index of the family, written to the same file afterwards, replaces
    it: the file the run leaves is a mapping with the keys [family],
    [endpoints] and [examples], without [endpoint], [data] and
    [validation]. *)
Lemma index_named_endpoint_is_overwritten :
  index_named_document = JObj [ ("/interface", JObj [ ("/_index", JObj []) ]) ]
  /\ exists w d,
       EnhancedRamlSplitter.process_raml demo_host "api" index_named_document empty_world
       = Ok w
       /\ lookup (files w)
            (joinpath (joinpath [] (Py.strip "/" "/interface"))
               (EnhancedRamlSplitter.endpoint_file_name "/_index"))
          = Some (File (json_file demo_host (JObj d)))
       /\ map fst d = ["family"; "endpoints"; "examples"]
       /\ Py.has_key d "endpoint" = false
       /\ Py.has_key d "data" = false
       /\ Py.has_key d "validation" = false.
Proof.
  split; [reflexivity |].
  eexists _, _. split; [vm_compute; reflexivity |].
  split; [vm_compute; reflexivity |].
  repeat split.
Qed.

(** An unreadable JSON file gives its entry and the file after it is still
    checked. *)
Example corrupt_file_does_not_stop_the_pass :
  errors (Validator.validate_json_files demo_host tree_with_corrupt_file (new_validator "api"))
  = [ "Invalid JSON in api/a.json: Expecting value: line 1 column 1 (char 0)";
      "Missing required field 'data' in api/b.json" ].
Proof. vm_compute. reflexivity. Qed.

(** * Further properties *)

(** ** The validator on incomplete trees *)

Lemma verdict_false (h : host) (t : tree) (self : RamlValidator) (x : string) :
  In x (errors (Validator.run_all h t self)) -> snd (Validator.validate_all h t self) = false.
Proof.
  intros Hin. unfold Validator.validate_all. simpl.
  destruct (errors (Validator.run_all h t self)); [destruct Hin | reflexivity].
Qed.

Lemma required_directory_step (t : tree) (dir_name : string) :
  framed_pass (fun self =>
    if exists_ t (joinpath [] dir_name) then self
    else fst (add_error ("Missing required directory: " ++ dir_name) self)).
Proof.
  intros self. destruct (exists_ t (joinpath [] dir_name)).
  - symmetry. apply merge_fresh.
  - rewrite (framed_add_error _ self). reflexivity.
Qed.

Lemma family_directory_step (t : tree) (d : path) :
  framed_pass (fun self =>
    let self :=
      if exists_ t (joinpath d "docs") then self
      else fst (add_error ("Missing docs directory in " ++ name d) self) in
    if exists_ t (joinpath d "_index.json") then self
    else fst (add_error ("Missing _index.json in " ++ name d) self)).
Proof.
  apply (framed_pass_compose
           (fun self => if exists_ t (joinpath d "docs") then self
                        else fst (add_error ("Missing docs directory in " ++ name d) self))
           (fun self => if exists_ t (joinpath d "_index.json") then self
                        else fst (add_error ("Missing _index.json in " ++ name d) self))).
  - intros self. destruct (exists_ t (joinpath d "docs")).
    + symmetry. apply merge_fresh.
    + rewrite (framed_add_error _ self). reflexivity.
  - intros self. destruct (exists_ t (joinpath d "_index.json")).
    + symmetry. apply merge_fresh.
    + rewrite (framed_add_error _ self). reflexivity.
Qed.

(** X1. A tree in which [docs] or [examples] is missing under the root is
    rejected: [validate_all] returns [False] and its errors name the missing
    directory. *)
Theorem missing_required_directory_is_reported (h : host) (t : tree) (self : RamlValidator)
    (dir_name : string) :
  In dir_name ["docs"; "examples"] ->
  exists_ t (joinpath [] dir_name) = false ->
  In ("Missing required directory: " ++ dir_name)
     (errors (fst (Validator.validate_all h t self)))
  /\ snd (Validator.validate_all h t self) = false.
Proof.
  intros Hd He.
  assert (Hin : In ("Missing required directory: " ++ dir_name)
                   (errors (Validator.run_all h t self))).
  { rewrite run_all_errors. apply in_or_app. right. apply in_or_app. left.
    unfold Validator.validate_directory_structure.
    rewrite (loop_errors _ _ _ (family_directory_step t)). apply in_or_app. left.
    rewrite (loop_errors _ _ _ (required_directory_step t)). apply in_or_app. right.
    apply in_flat_map. exists dir_name. split; [exact Hd |].
    rewrite He. simpl. left. reflexivity. }
  split; [exact Hin | exact (verdict_false h t self _ Hin)].
Qed.

Lemma missing_required_directory_is_reported_witness :
  In "Missing required directory: docs"
     (errors (fst (Validator.validate_all demo_host tree_without_docs (new_validator "api"))))
  /\ snd (Validator.validate_all demo_host tree_without_docs (new_validator "api")) = false.
Proof.
  apply (missing_required_directory_is_reported demo_host tree_without_docs
           (new_validator "api") "docs").
  - left. reflexivity.
  - reflexivity.
Defined.

(** X2. A tree without [index.json] under the root is rejected with two
    entries: the index pass reports the missing file, and the cross-reference
    pass, which opens the file without looking for it first, reports the
    failure of the open. *)
Theorem missing_main_index_is_reported_twice (h : host) (t : tree) (self : RamlValidator) :
  exists_ t ["index.json"] = false ->
  In "Missing main index.json" (errors (fst (Validator.validate_all h t self)))
  /\ In ("Error validating cross-references: [Errno 2] No such file or directory: '"
         ++ path_str (api_dir self) ["index.json"] ++ "'")
        (errors (fst (Validator.validate_all h t self)))
  /\ snd (Validator.validate_all h t self) = false.
Proof.
  intros He.
  assert (Hl : lookup t ["index.json"] = None).
  { unfold exists_ in He. destruct (lookup t ["index.json"]); [discriminate | reflexivity]. }
  assert (H1 : In "Missing main index.json" (errors (Validator.run_all h t self))).
  { rewrite run_all_errors. apply in_or_app. right. apply in_or_app. right.
    apply in_or_app. left. unfold Validator.validate_index_files.
    change (joinpath [] "index.json") with ["index.json"]. rewrite He.
    simpl. left. reflexivity. }
  split; [exact H1 |]. split; [| exact (verdict_false h t self _ H1)].
  unfold Validator.validate_all. simpl. rewrite run_all_errors.
  do 6 (apply in_or_app; right).
  unfold Validator.validate_references, try_except, and_then, lift, read.
  change (joinpath [] "index.json") with ["index.json"]. rewrite Hl.
  simpl. left. reflexivity.
Qed.

Lemma missing_main_index_is_reported_twice_witness :
  In "Missing main index.json"
     (errors (fst (Validator.validate_all demo_host tree_without_index (new_validator "api"))))
  /\ In ("Error validating cross-references: [Errno 2] No such file or directory: '"
         ++ path_str "api" ["index.json"] ++ "'")
        (errors (fst (Validator.validate_all demo_host tree_without_index
                        (new_validator "api"))))
  /\ snd (Validator.validate_all demo_host tree_without_index (new_validator "api")) = false.
Proof.
  apply (missing_main_index_is_reported_twice demo_host tree_without_index
           (new_validator "api")).
  reflexivity.
Defined.

(** ** The check of one JSON file *)

Lemma require_mapping (fields : list string) (d : dict) (msg : string -> string)
    (self : RamlValidator) :
  exists self', Validator.require fields (JObj d) msg self = (self', Ok tt).
Proof.
  unfold Validator.require. revert self. induction fields as [| field rest IH]; intros self.
  - exists self. reflexivity.
  - simpl. unfold and_then at 1. unfold and_then at 1. unfold lift at 1. simpl.
    destruct (Py.has_key d field).
    + simpl. apply IH.
    + simpl. apply IH.
Qed.

(** X3. Every JSON file that is not named [_index.json] and holds a mapping
    with the key [examples] is reported as an error: the method the check
    calls for that key, [_validate_examples], does not exist, and the
    [AttributeError] of the call becomes the finding of the file. *)
Theorem examples_key_is_always_an_error (h : host) (t : tree) (self : RamlValidator)
    (p : path) (f : file) (d : dict) :
  lookup t p = Some (File f) ->
  parsed f = Some (JObj d) ->
  Py.has_key d "examples" = true ->
  String.eqb (name p) "_index.json" = false ->
  Py.endswith (name p) ".json" = true ->
  In ("Error processing " ++ path_str (api_dir self) p
      ++ ": 'RamlValidator' object has no attribute '_validate_examples'")
     (errors (fst (Validator.validate_all h t self)))
  /\ snd (Validator.validate_all h t self) = false.
Proof.
  intros Hp Hf Hd Hn Hs.
  assert (Hin : In ("Error processing " ++ path_str (api_dir self) p
                    ++ ": 'RamlValidator' object has no attribute '_validate_examples'")
                   (errors (Validator.run_all h t self))).
  { rewrite run_all_errors. do 3 (apply in_or_app; right). apply in_or_app. left.
    unfold Validator.validate_json_files.
    rewrite (loop_errors _ _ _ (framed_check_json_file h t)). apply in_or_app. right.
    apply in_flat_map. exists p. split.
    - apply (rglob_In t _ (File f)); [exact Hp | exact Hs |].
      intros ->. vm_compute in Hs. discriminate.
    - unfold Validator.check_json_file, read, json_load. rewrite Hp, Hn, Hs.
      unfold lift at 1. unfold and_then at 1. simpl. rewrite Hf.
      unfold lift at 1. unfold and_then at 1. simpl.
      unfold Validator._validate_endpoint_file. unfold and_then at 1.
      destruct (require_mapping ["endpoint"; "data"] d
                  (fun field => "Missing required field '" ++ field ++ "' in "
                                ++ Validator.pstr (fresh (fresh self)) p)
                  (fresh (fresh self))) as (s1 & ->).
      unfold lift at 1. unfold and_then at 1. simpl. rewrite Hd. simpl.
      unfold Py.append. apply in_or_app. right. left. reflexivity. }
  split; [exact Hin | exact (verdict_false h t self _ Hin)].
Qed.

Lemma examples_key_is_always_an_error_witness :
  In ("Error processing " ++ path_str "api" ["foo.json"; "examples"]
      ++ ": 'RamlValidator' object has no attribute '_validate_examples'")
     (errors (fst (Validator.validate_all demo_host
                     (tree_with_example (JObj [("examples", JObj [])]))
                     (new_validator "api"))))
  /\ snd (Validator.validate_all demo_host
            (tree_with_example (JObj [("examples", JObj [])])) (new_validator "api")) = false.
Proof.
  apply (examples_key_is_always_an_error demo_host
           (tree_with_example (JObj [("examples", JObj [])])) (new_validator "api")
           ["foo.json"; "examples"]
           (json_file demo_host (JObj [("examples", JObj [])])) [("examples", JObj [])]);
    reflexivity.
Defined.

(** X4. The index a family gets from [process_family] passes the check of
    JSON files: it has the keys [family] and [endpoints], and the check adds
    neither an error nor a warning for it. *)
Theorem family_index_passes_the_json_check (h : host) (output_dir dir family : string)
    (endpoints : json) (family_dir : path) (w w' : world) :
  EnhancedRamlSplitter.process_family h output_dir family endpoints family_dir w = Ok w' ->
  Validator.check_json_file h (files w') (joinpath family_dir "_index.json")
    (new_validator dir)
  = new_validator dir.
Proof.
  intros H. apply process_family_inv in H as (es & processed & w1 & _ & _ & Hw & _).
  assert (Hl : lookup (files w') (joinpath family_dir "_index.json")
               = Some (File (json_file h
                               (EnhancedRamlSplitter.family_index family processed)))).
  { rewrite (write_lookup _ _ _ _ _ _ Hw), path_eqb_refl. reflexivity. }
  unfold Validator.check_json_file, read, json_load. rewrite Hl.
  change (name (joinpath family_dir "_index.json")) with "_index.json".
  reflexivity.
Qed.

Lemma family_index_passes_the_json_check_witness :
  exists w',
    EnhancedRamlSplitter.process_family demo_host "api" "/interface"
      (JObj [("/ethernet", JObj [("method", JStr "GET")])]) ["interface"]
      {| files := [([], Dir); (["interface"], Dir); (["docs"; "interface"], Dir)]; ticks := 0 |}
    = Ok w'
    /\ Validator.check_json_file demo_host (files w') (joinpath ["interface"] "_index.json")
         (new_validator "api")
       = new_validator "api".
Proof.
  eexists. split; [vm_compute; reflexivity |].
  apply (family_index_passes_the_json_check demo_host "api" "api" "/interface"
           (JObj [("/ethernet", JObj [("method", JStr "GET")])]) ["interface"]
           {| files := [([], Dir); (["interface"], Dir); (["docs"; "interface"], Dir)];
              ticks := 0 |}).
  vm_compute. reflexivity.
Defined.

(** ** What the splitter passes over *)

Lemma for_each_filter {A S : Type} (keep : A -> bool) (xs : list A)
    (body : A -> S -> result S) (s : S) :
  (forall x s', keep x = false -> body x s' = Ok s') ->
  Py.for_each xs body s = Py.for_each (filter keep xs) body s.
Proof.
  intros Hskip. revert s. induction xs as [| x xs IH]; intros s; simpl; [reflexivity |].
  destruct (keep x) eqn:Hk; simpl.
  - destruct (body x s) as [s1 | e]; simpl; [apply IH | reflexivity].
  - rewrite (Hskip x s Hk). simpl. apply IH.
Qed.

(** X5. [split_raml] does nothing for a top-level key that does not start
    with a slash: the run on a document is the run on its entries whose key
    starts with one, whatever the values of the others are. *)
Theorem split_raml_ignores_other_keys (h : host) (output_dir : string) (entries : dict)
    (w : world) :
  EnhancedRamlSplitter.split_raml h output_dir (JObj entries) w
  = EnhancedRamlSplitter.split_raml h output_dir
      (JObj (filter (fun entry => Py.startswith (fst entry) "/") entries)) w.
Proof.
  unfold EnhancedRamlSplitter.split_raml. simpl.
  apply for_each_filter. intros [family endpoints] w' Hk. simpl in *.
  rewrite Hk. reflexivity.
Qed.

(** X6. [process_family] does nothing for an endpoint whose value is not a
    mapping: no file, no entry in the index of the family. *)
Theorem process_family_skips_other_values (h : host) (output_dir family : string)
    (entries : dict) (family_dir : path) (w : world) :
  EnhancedRamlSplitter.process_family h output_dir family (JObj entries) family_dir w
  = EnhancedRamlSplitter.process_family h output_dir family
      (JObj (filter (fun entry => is_mapping (snd entry)) entries)) family_dir w.
Proof.
  unfold EnhancedRamlSplitter.process_family. simpl.
  rewrite (for_each_filter (fun entry => is_mapping (snd entry)) entries); [reflexivity |].
  intros [endpoint data] [l w'] Hk. simpl in *. destruct data; try reflexivity. discriminate.
Qed.

(** The descriptors the loop of [process_family] collects. *)
Lemma family_loop_collects (h : host) (output_dir : string) (family_dir : path)
    (entries : dict) (acc : list json) (w : world) (processed : list json) (w' : world) :
  Py.for_each entries (EnhancedRamlSplitter.family_step h output_dir family_dir) (acc, w)
  = Ok (processed, w') ->
  exists descriptors : list dict,
    processed = (acc ++ map JObj descriptors)%list
    /\ map (fun d => Py.get d "endpoint") descriptors
       = map (fun entry => Some (JStr (fst entry)))
           (filter (fun entry => is_mapping (snd entry)) entries)
    /\ map (fun d => Py.get d "data") descriptors
       = map (fun entry => Some (snd entry))
           (filter (fun entry => is_mapping (snd entry)) entries).
Proof.
  revert acc w. induction entries as [| [endpoint data] rest IH]; intros acc w H; simpl in H.
  - injection H as <- <-. exists []. simpl. rewrite app_nil_r. auto.
  - apply bind_Ok_inv in H as ([acc1 w1] & H1 & H2).
    destruct (IH _ _ H2) as (ds & -> & He & Hd).
    destruct data; simpl in H1;
      try (injection H1 as <- <-; exists ds; simpl; auto).
    apply bind_Ok_inv in H1 as ([d w2] & Hp & H1). injection H1 as <- <-.
    apply process_endpoint_inv in Hp as (ex & va & t1 & t2 & _ & _ & -> & _).
    exists (EnhancedRamlSplitter.enhanced_data endpoint fields ex va :: ds).
    unfold Py.append. simpl. rewrite <- app_assoc. simpl. rewrite He, Hd. auto.
Qed.

(** X7. After [process_family] the file [_index.json] of the family holds
    the mapping [family], [endpoints], [examples]; [endpoints] has one
    descriptor for each endpoint whose value is a mapping, in the order of
    the document, with the key of the endpoint and its value as [endpoint]
    and [data]; [examples] is the empty list. *)
Theorem family_index_lists_the_endpoints (h : host) (output_dir family : string)
    (entries : dict) (family_dir : path) (w w' : world) :
  EnhancedRamlSplitter.process_family h output_dir family (JObj entries) family_dir w
  = Ok w' ->
  exists descriptors : list dict,
    lookup (files w') (joinpath family_dir "_index.json")
    = Some (File (json_file h
                    (JObj [ ("family", JStr family);
                            ("endpoints", JArr (map JObj descriptors));
                            ("examples", JArr []) ])))
    /\ map (fun d => Py.get d "endpoint") descriptors
       = map (fun entry => Some (JStr (fst entry)))
           (filter (fun entry => is_mapping (snd entry)) entries)
    /\ map (fun d => Py.get d "data") descriptors
       = map (fun entry => Some (snd entry))
           (filter (fun entry => is_mapping (snd entry)) entries).
Proof.
  intros H. apply process_family_inv in H as (es & processed & w1 & Hes & Hl & Hw & _).
  simpl in Hes. injection Hes as <-.
  destruct (family_loop_collects _ _ _ _ _ _ _ _ Hl) as (ds & -> & He & Hd).
  exists ds. split; [| split; assumption].
  rewrite (write_lookup _ _ _ _ _ _ Hw), path_eqb_refl. reflexivity.
Qed.

Lemma family_index_lists_the_endpoints_witness :
  exists w',
    EnhancedRamlSplitter.process_family demo_host "api" "/interface"
      (JObj [("/ethernet", JObj [("method", JStr "GET")]); ("note", JStr "text");
             ("/bridge", JObj [])]) ["interface"]
      {| files := [([], Dir); (["interface"], Dir); (["docs"; "interface"], Dir)]; ticks := 0 |}
    = Ok w'
    /\ exists descriptors : list dict,
         lookup (files w') (joinpath ["interface"] "_index.json")
         = Some (File (json_file demo_host
                         (JObj [ ("family", JStr "/interface");
                                 ("endpoints", JArr (map JObj descriptors));
                                 ("examples", JArr []) ])))
         /\ map (fun d => Py.get d "endpoint") descriptors
            = map (fun entry => Some (JStr (fst entry)))
                (filter (fun entry => is_mapping (snd entry))
                   [("/ethernet", JObj [("method", JStr "GET")]); ("note", JStr "text");
                    ("/bridge", JObj [])])
         /\ map (fun d => Py.get d "data") descriptors
            = map (fun entry => Some (snd entry))
                (filter (fun entry => is_mapping (snd entry))
                   [("/ethernet", JObj [("method", JStr "GET")]); ("note", JStr "text");
                    ("/bridge", JObj [])]).
Proof.
  eexists. split; [vm_compute; reflexivity |].
  apply (family_index_lists_the_endpoints demo_host "api" "/interface"
           [("/ethernet", JObj [("method", JStr "GET")]); ("note", JStr "text");
            ("/bridge", JObj [])] ["interface"]
           {| files := [([], Dir); (["interface"], Dir); (["docs"; "interface"], Dir)];
              ticks := 0 |}).
  vm_compute. reflexivity.
Defined.

(** ** Mappings *)

Lemma get_set {V : Type} (d : list (string * V)) (k k' : string) (v : V) :
  Py.get (Py.set d k v) k' = if String.eqb k k' then Some v else Py.get d k'.
Proof.
  induction d as [| [k0 v0] d IH]; simpl; [reflexivity |].
  destruct (String.eqb_spec k0 k) as [-> | Hne]; simpl.
  - destruct (String.eqb k k'); reflexivity.
  - rewrite IH. destruct (String.eqb_spec k0 k') as [-> | _]; [| reflexivity].
    destruct (String.eqb_spec k k') as [-> | _]; [contradiction | reflexivity].
Qed.

Lemma In_set {V : Type} (d : list (string * V)) (k0 k : string) (v0 v : V) :
  In (k, v) (Py.set d k0 v0) -> (k = k0 /\ v = v0) \/ In (k, v) d.
Proof.
  induction d as [| [k1 v1] d IH]; simpl.
  - intros [H | []]. injection H as <- <-. left. auto.
  - destruct (String.eqb_spec k1 k0) as [-> | Hne]; simpl.
    + intros [H | H]; [injection H as <- <-; left; auto | right; right; exact H].
    + intros [H | H]; [right; left; exact H |].
      destruct (IH H) as [E | E]; [left; exact E | right; right; exact E].
Qed.

Lemma get_In {V : Type} (d : list (string * V)) (k : string) (v : V) :
  Py.get d k = Some v -> In (k, v) d.
Proof.
  induction d as [| [k0 v0] d IH]; simpl; [discriminate |].
  destruct (String.eqb_spec k0 k) as [-> | _].
  - intros H. injection H as ->. left. reflexivity.
  - intros H. right. auto.
Qed.

Lemma set_fresh {V : Type} (d : list (string * V)) (k : string) (v : V) :
  ~ In k (map fst d) -> Py.set d k v = (d ++ [(k, v)])%list.
Proof.
  induction d as [| [k0 v0] d IH]; simpl; intros Hn; [reflexivity |].
  destruct (String.eqb_spec k0 k) as [-> | _].
  - exfalso. apply Hn. left. reflexivity.
  - rewrite IH; [reflexivity |]. intros H. apply Hn. right. exact H.
Qed.

(** ** Validation rules *)

Lemma validation_step_mapping (param : string) (d rules : dict) :
  EnhancedRamlSplitter.validation_step (param, JObj d) rules
  = match Py.get_default d "type" (JStr "string") with
    | JStr t =>
        match Py.get ApiDocGenerator.validation_rules t with
        | Some rule => Ok (Py.set rules param (ValidationRule_dict rule))
        | None => Ok rules
        end
    | JArr _ | JObj _ => Py.unhashable (Py.get_default d "type" (JStr "string"))
    | _ => Ok rules
    end.
Proof. reflexivity. Qed.

Lemma validation_loop (ps : dict) (acc rules : dict) :
  Py.for_each ps EnhancedRamlSplitter.validation_step acc = Ok rules ->
  (forall name v, In (name, v) rules ->
     In (name, v) acc
     \/ exists d t rule,
          In (name, JObj d) ps
          /\ Py.get_default d "type" (JStr "string") = JStr t
          /\ Py.get ApiDocGenerator.validation_rules t = Some rule
          /\ v = ValidationRule_dict rule)
  /\ (forall name, Py.has_key acc name = true -> Py.has_key rules name = true)
  /\ (forall name d t rule,
        In (name, JObj d) ps ->
        Py.get_default d "type" (JStr "string") = JStr t ->
        Py.get ApiDocGenerator.validation_rules t = Some rule ->
        Py.has_key rules name = true).
Proof.
  revert acc. induction ps as [| [param details] rest IH]; intros acc H;
    cbn [Py.for_each] in H.
  - injection H as <-. split; [auto |]. split; [auto |]. intros ? ? ? ? [].
  - apply bind_Ok_inv in H as (acc1 & H1 & H2).
    destruct (IH _ H2) as (Hs & Hk & Hc).
    assert (Hstep : exists d, details = JObj d
              /\ ((acc1 = acc
                   /\ forall t rule, Py.get_default d "type" (JStr "string") = JStr t ->
                                     Py.get ApiDocGenerator.validation_rules t = Some rule ->
                                     False)
                  \/ exists t rule,
                       Py.get_default d "type" (JStr "string") = JStr t
                       /\ Py.get ApiDocGenerator.validation_rules t = Some rule
                       /\ acc1 = Py.set acc param (ValidationRule_dict rule))).
    { destruct details; try discriminate H1. exists fields. split; [reflexivity |].
      rewrite validation_step_mapping in H1.
      destruct (Py.get_default fields "type" (JStr "string")) as [| b | n | t | l | o];
        try discriminate H1;
        try (injection H1 as <-; left; split; [reflexivity | intros; discriminate]).
      destruct (Py.get ApiDocGenerator.validation_rules t) as [rule |] eqn:Hr.
      - injection H1 as <-. right. exists t, rule. auto.
      - injection H1 as <-. left. split; [reflexivity |].
        intros t' rule' E. injection E as <-. congruence. }
    destruct Hstep as (d & -> & Hcase). split; [| split].
    + intros nm v Hin. destruct (Hs nm v Hin) as [Hacc | (d' & t & rule & Hi & Ht & Hr & Hv)].
      * destruct Hcase as [[-> _] | (t & rule & Ht & Hr & ->)]; [left; exact Hacc |].
        destruct (In_set _ _ _ _ _ Hacc) as [[-> ->] | Hold]; [| left; exact Hold].
        right. exists d, t, rule. repeat split; auto. left. reflexivity.
      * right. exists d', t, rule. repeat split; auto. right. exact Hi.
    + intros nm Hh. apply Hk.
      destruct Hcase as [[-> _] | (t & rule & _ & _ & ->)]; [exact Hh |].
      unfold Py.has_key in *. rewrite get_set. destruct (String.eqb param nm); [reflexivity | exact Hh].
    + intros nm d' t rule [E | Hi] Ht Hr.
      * injection E as <- <-. apply Hk.
        destruct Hcase as [[_ Hno] | (t' & rule' & _ & _ & ->)]; [destruct (Hno t rule Ht Hr) |].
        unfold Py.has_key. rewrite get_set, String.eqb_refl. reflexivity.
      * exact (Hc nm d' t rule Hi Ht Hr).
Qed.

(** X8. The validation map of an endpoint: every entry is the rule of the
    table for the declared type (default [string]) of a parameter of that
    name, and every parameter whose declared type is in the table ([ip],
    [mac], [interface]) has an entry; the others are left out. *)
Theorem validation_rules_follow_the_types (data ps rules : dict) :
  Py.get_default data "parameters" (JObj []) = JObj ps ->
  EnhancedRamlSplitter.get_validation_rules data = Ok rules ->
  (forall name v, In (name, v) rules ->
     exists d t rule,
       In (name, JObj d) ps
       /\ Py.get_default d "type" (JStr "string") = JStr t
       /\ Py.get ApiDocGenerator.validation_rules t = Some rule
       /\ v = ValidationRule_dict rule)
  /\ (forall name d t rule,
        In (name, JObj d) ps ->
        Py.get_default d "type" (JStr "string") = JStr t ->
        Py.get ApiDocGenerator.validation_rules t = Some rule ->
        Py.has_key rules name = true).
Proof.
  intros Hp H. unfold EnhancedRamlSplitter.get_validation_rules in H. rewrite Hp in H.
  simpl in H. destruct (validation_loop ps [] rules H) as (Hs & _ & Hc).
  split; [| exact Hc].
  intros nm v Hin. destruct (Hs nm v Hin) as [[] | Hex]. exact Hex.
Qed.

Lemma validation_rules_follow_the_types_witness :
  exists rules,
    EnhancedRamlSplitter.get_validation_rules
      [("parameters", JObj [("address", JObj [("type", JStr "ip")]);
                            ("comment", JObj [("type", JStr "string")])])]
    = Ok rules
    /\ (forall name v, In (name, v) rules ->
          exists d t rule,
            In (name, JObj d) [("address", JObj [("type", JStr "ip")]);
                               ("comment", JObj [("type", JStr "string")])]
            /\ Py.get_default d "type" (JStr "string") = JStr t
            /\ Py.get ApiDocGenerator.validation_rules t = Some rule
            /\ v = ValidationRule_dict rule)
    /\ (forall name d t rule,
          In (name, JObj d) [("address", JObj [("type", JStr "ip")]);
                             ("comment", JObj [("type", JStr "string")])] ->
          Py.get_default d "type" (JStr "string") = JStr t ->
          Py.get ApiDocGenerator.validation_rules t = Some rule ->
          Py.has_key rules name = true).
Proof.
  eexists. split; [vm_compute; reflexivity |].
  apply (validation_rules_follow_the_types
           [("parameters", JObj [("address", JObj [("type", JStr "ip")]);
                                 ("comment", JObj [("type", JStr "string")])])]).
  - reflexivity.
  - vm_compute. reflexivity.
Defined.

(** ** The request body of an example *)

Lemma get_example_value_range (param_type : json) (param_name : string) (v : json) :
  ExampleGenerator.get_example_value param_type param_name = Ok v ->
  In v (map snd ExampleGenerator.example_values) \/ v = JStr "example_value".
Proof.
  unfold ExampleGenerator.get_example_value.
  destruct (ExampleGenerator.first_key_in _ _) as [key |].
  - unfold Py.subscript.
    destruct (Py.get ExampleGenerator.example_values key) as [x |] eqn:Hg; [| discriminate].
    intros H. injection H as <-. left.
    apply in_map_iff. exists (key, x). split; [reflexivity | exact (get_In _ _ _ Hg)].
  - destruct param_type as [| b | n | t | l | o]; try discriminate;
      try (intros H; injection H as <-; right; reflexivity).
    unfold Py.get_default.
    destruct (Py.get ExampleGenerator.example_values t) as [x |] eqn:Hg;
      intros H; injection H as <-.
    + left. apply in_map_iff. exists (t, x). split; [reflexivity | exact (get_In _ _ _ Hg)].
    + right. reflexivity.
Qed.

Lemma request_body_step_inv (param_name : string) (param_info : json) (acc body : dict) :
  ExampleGenerator.request_body_step (param_name, param_info) acc = Ok body ->
  exists v,
    body = Py.set acc param_name v
    /\ (In v (map snd ExampleGenerator.example_values) \/ v = JStr "example_value").
Proof.
  unfold ExampleGenerator.request_body_step. intros H.
  apply bind_Ok_inv in H as (ty & _ & H). apply bind_Ok_inv in H as (v & Hv & H).
  injection H as <-. exists v. split; [reflexivity | exact (get_example_value_range _ _ _ Hv)].
Qed.

Lemma request_body_loop (ps acc body : dict) :
  Py.for_each ps ExampleGenerator.request_body_step acc = Ok body ->
  NoDup (map fst acc ++ map fst ps) ->
  map fst body = (map fst acc ++ map fst ps)%list
  /\ forall k v, In (k, v) body ->
       In (k, v) acc
       \/ In v (map snd ExampleGenerator.example_values) \/ v = JStr "example_value".
Proof.
  revert acc. induction ps as [| [param_name param_info] rest IH]; intros acc H Hnd;
    cbn [Py.for_each] in H.
  - injection H as <-. simpl. rewrite app_nil_r. auto.
  - apply bind_Ok_inv in H as (acc1 & H1 & H2).
    apply request_body_step_inv in H1 as (v & -> & Hv).
    assert (Hfresh : ~ In param_name (map fst acc)).
    { intros Hin. simpl in Hnd. apply NoDup_remove_2 in Hnd. apply Hnd.
      apply in_or_app. left. exact Hin. }
    rewrite (set_fresh acc param_name v Hfresh) in H2.
    destruct (IH _ H2) as (Hk & Hvals).
    { rewrite map_app. simpl. rewrite <- app_assoc. exact Hnd. }
    split.
    + rewrite Hk, map_app. simpl. rewrite <- app_assoc. reflexivity.
    + intros k x Hin. destruct (Hvals k x Hin) as [Ha | Hr]; [| right; exact Hr].
      apply in_app_or in Ha as [Ha | [E | []]]; [left; exact Ha |].
      injection E as <- <-. right. exact Hv.
Qed.

(** X9. The request body of a synthesized example has one entry for each
    parameter, under the parameter's name and in the order of the mapping,
    and every value is a value of the table of examples or the literal
    ["example_value"]. *)
Theorem request_body_has_the_parameters (h : host) (endpoint_path : string) (method : json)
    (ps : dict) (ex : ApiExample) :
  NoDup (map fst ps) ->
  ExampleGenerator.generate_example_for_endpoint h endpoint_path method (JObj ps) = Ok ex ->
  exists body,
    request ex = JObj [("method", method); ("path", JStr endpoint_path); ("body", JObj body)]
    /\ map fst body = map fst ps
    /\ forall k v, In (k, v) body ->
         In v (map snd ExampleGenerator.example_values) \/ v = JStr "example_value".
Proof.
  intros Hnd H. unfold ExampleGenerator.generate_example_for_endpoint in H.
  cbn [Py.items bind] in H.
  apply bind_Ok_inv in H as (body & Hb & H). apply bind_Ok_inv in H as (m & _ & H).
  injection H as <-. exists body. split; [reflexivity |].
  destruct (request_body_loop ps [] body Hb Hnd) as (Hk & Hv).
  split; [exact Hk |]. intros k v Hin. destruct (Hv k v Hin) as [[] | Hr]. exact Hr.
Qed.

Lemma request_body_has_the_parameters_witness :
  exists ex,
    ExampleGenerator.generate_example_for_endpoint demo_host "/ethernet" (JStr "POST")
      (JObj [("mac-address", JObj [("type", JStr "mac")]); ("mtu", JObj [("type", JStr "number")])])
    = Ok ex
    /\ exists body,
         request ex = JObj [("method", JStr "POST"); ("path", JStr "/ethernet");
                            ("body", JObj body)]
         /\ map fst body = map fst [("mac-address", JObj [("type", JStr "mac")]);
                                    ("mtu", JObj [("type", JStr "number")])]
         /\ forall k v, In (k, v) body ->
              In v (map snd ExampleGenerator.example_values) \/ v = JStr "example_value".
Proof.
  eexists. split; [vm_compute; reflexivity |].
  apply (request_body_has_the_parameters demo_host "/ethernet" (JStr "POST")
           [("mac-address", JObj [("type", JStr "mac")]); ("mtu", JObj [("type", JStr "number")])]).
  - repeat constructor; simpl; intuition discriminate.
  - vm_compute. reflexivity.
Defined.

(** X10. An endpoint whose [parameters] value is not a mapping (an empty
    [parameters:] in the YAML gives [None]) cannot be processed:
    [process_endpoint] raises the [AttributeError] of [.items()] before it
    writes anything. *)
Theorem parameters_must_be_a_mapping (h : host) (output_dir endpoint : string) (data : dict)
    (family_dir : path) (w : world) (v : json) :
  Py.get data "parameters" = Some v ->
  is_mapping v = false ->
  EnhancedRamlSplitter.process_endpoint h output_dir endpoint data family_dir w
  = Raise (Exn AttributeError
             ("'" ++ Py.type_name v ++ "' object has no attribute 'items'")).
Proof.
  intros Hg Hm. unfold EnhancedRamlSplitter.process_endpoint,
    ExampleGenerator.generate_example_for_endpoint.
  unfold Py.get_default. rewrite Hg.
  destruct v; try discriminate Hm; reflexivity.
Qed.

Lemma parameters_must_be_a_mapping_witness :
  EnhancedRamlSplitter.process_endpoint demo_host "api" "/ethernet"
    [("method", JStr "GET"); ("parameters", JNull)] ["interface"] empty_world
  = Raise (Exn AttributeError
             ("'" ++ Py.type_name JNull ++ "' object has no attribute 'items'")).
Proof.
  apply (parameters_must_be_a_mapping demo_host "api" "/ethernet"
           [("method", JStr "GET"); ("parameters", JNull)] ["interface"] empty_world JNull);
    reflexivity.
Defined.

(** ** The Markdown of any descriptor *)

Lemma append_empty_r (s : string) : s ++ "" = s.
Proof. induction s as [| c s IH]; simpl; [reflexivity | rewrite IH; reflexivity]. Qed.

Lemma append_assoc3 (a b c : string) : (a ++ b) ++ c = a ++ b ++ c.
Proof. induction a as [| x a IH]; simpl; [reflexivity | rewrite IH; reflexivity]. Qed.

Lemma concat_cons (x : string) (l : list string) :
  String.concat "" (x :: l) = x ++ String.concat "" l.
Proof. destruct l; simpl; [rewrite append_empty_r |]; reflexivity. Qed.

Lemma concat_app (a b : list string) :
  String.concat "" (a ++ b) = String.concat "" a ++ String.concat "" b.
Proof.
  induction a as [| x a IH]; [reflexivity |].
  change ((x :: a) ++ b)%list with (x :: (a ++ b)%list).
  rewrite !concat_cons, IH, append_assoc3. reflexivity.
Qed.

Lemma for_each_appends {A B : Type} (xs : list A) (body : A -> list B -> result (list B))
    (md md' : list B) :
  (forall x l l', body x l = Ok l' -> exists r, l' = (l ++ r)%list) ->
  Py.for_each xs body md = Ok md' -> exists r, md' = (md ++ r)%list.
Proof.
  intros Hb. revert md. induction xs as [| x xs IH]; intros md H; cbn [Py.for_each] in H.
  - injection H as <-. exists []. rewrite app_nil_r. reflexivity.
  - apply bind_Ok_inv in H as (md1 & H1 & H2).
    destruct (Hb _ _ _ H1) as (r1 & ->). destruct (IH _ H2) as (r2 & ->).
    exists (r1 ++ r2)%list. rewrite app_assoc. reflexivity.
Qed.

Lemma parameter_row_appends (h : host) (entry : string * json) (md md' : list string) :
  ApiDocGenerator.parameter_row h entry md = Ok md' -> exists r, md' = (md ++ r)%list.
Proof.
  destruct entry as [param details]. unfold ApiDocGenerator.parameter_row. intros H.
  apply bind_Ok_inv in H as (req & _ & H). apply bind_Ok_inv in H as (desc & _ & H).
  apply bind_Ok_inv in H as (ty & _ & H). injection H as <-. unfold Py.append. eauto.
Qed.

(** A method section starts with the heading of the method and adds lines
    to what was there. *)
Lemma method_section_appends (h : host) (method : string) (details : json)
    (md md' : list string) :
  ApiDocGenerator.method_section h (method, details) md = Ok md' ->
  exists r, md' = (md ++ method_head method ++ r)%list.
Proof.
  unfold ApiDocGenerator.method_section. intros H. cbv zeta in H.
  fold (method_head method) in H.
  apply bind_Ok_inv in H as (hp & _ & H). apply bind_Ok_inv in H as (md1 & H1 & H).
  apply bind_Ok_inv in H as (he & _ & H). apply bind_Ok_inv in H as (md2 & H2 & H).
  apply bind_Ok_inv in H as (hv & _ & H).
  assert (E1 : exists r, md1 = (Py.extend md (method_head method) ++ r)%list).
  { destruct hp.
    - apply bind_Ok_inv in H1 as (ps & _ & H1). apply bind_Ok_inv in H1 as (rows & _ & H1).
      exact (for_each_appends rows _ _ _ (parameter_row_appends h) H1).
    - injection H1 as <-. exists []. rewrite app_nil_r. reflexivity. }
  destruct E1 as (r1 & ->).
  assert (E2 : exists r, md2 = (Py.extend md (method_head method) ++ r)%list).
  { destruct he.
    - apply bind_Ok_inv in H2 as (ex & _ & H2). injection H2 as <-.
      unfold Py.extend. rewrite <- app_assoc. eauto.
    - injection H2 as <-. eauto. }
  destruct E2 as (r2 & ->).
  assert (E3 : exists r, md' = (Py.extend md (method_head method) ++ r)%list).
  { destruct hv.
    - apply bind_Ok_inv in H as (va & _ & H). injection H as <-.
      unfold Py.extend. rewrite <- app_assoc. eauto.
    - injection H as <-. eauto. }
  destruct E3 as (r3 & ->). unfold Py.extend. rewrite <- app_assoc. eauto.
Qed.

Lemma method_section_appends_any (h : host) (entry : string * json) (md md' : list string) :
  ApiDocGenerator.method_section h entry md = Ok md' -> exists r, md' = (md ++ r)%list.
Proof.
  destruct entry as [method details]. intros H.
  destruct (method_section_appends h _ _ _ _ H) as (r & ->). eauto.
Qed.

Lemma markdown_lines_inv (h : host) (data : dict) (path : string) (w w' : world)
    (md : list string) :
  ApiDocGenerator.markdown_lines h data path w = Ok (md, w') ->
  w' = snd (now h w)
  /\ exists sections rest,
       Py.items (Py.get_default data "endpoints" (JObj [])) = Ok sections
       /\ Py.for_each sections (ApiDocGenerator.method_section h)
            (md_head h path w ++ md_description h data ++ md_endpoints)%list
          = Ok md
       /\ md = (md_head h path w ++ md_description h data
                ++ md_endpoints ++ rest)%list.
Proof.
  unfold ApiDocGenerator.markdown_lines. cbn [now fst snd]. intros H.
  fold (md_head h path w) in H.
  apply bind_Ok_inv in H as (md1 & H1 & H). cbv zeta in H.
  apply bind_Ok_inv in H as (sections & Hs & H). apply bind_Ok_inv in H as (md2 & H2 & H).
  injection H as <- <-. split; [reflexivity |].
  assert (E : md1 = (md_head h path w ++ md_description h data)%list).
  { unfold md_description, Py.has_key, Py.get_default, Py.subscript in *.
    destruct (Py.get data "description") as [d |].
    - cbn [bind] in H1. injection H1 as <-. reflexivity.
    - injection H1 as <-. rewrite app_nil_r. reflexivity. }
  subst md1. unfold Py.append in H2. fold md_endpoints in H2. rewrite <- app_assoc in H2.
  destruct (for_each_appends sections _ _ _ (method_section_appends_any h) H2) as (rest & E).
  exists sections, rest. split; [exact Hs |]. split; [exact H2 |].
  rewrite E, <- !app_assoc. reflexivity.
Qed.

Lemma contains_weaken (s k k' : string) :
  Py.contains s (k ++ k') = true -> Py.contains s k = true.
Proof.
  rewrite !contains_spec. intros (pre & post & ->).
  exists pre, (k' ++ post). rewrite append_assoc3. reflexivity.
Qed.

Lemma startswith_contains (s k : string) : Py.startswith s k = true -> Py.contains s k = true.
Proof.
  rewrite startswith_spec, contains_spec. intros (t & ->). exists "", t. reflexivity.
Qed.

Lemma md_head_text (h : host) (path : string) (w : world) :
  String.concat "" (md_head h path w)
  = "# " ++ path ++ " API Documentation" ++ nl
    ++ "Generated on: " ++ strftime (clock h (ticks w)) ++ nl.
Proof.
  unfold md_head. rewrite !concat_cons. cbn [String.concat].
  rewrite append_empty_r, !append_assoc3. reflexivity.
Qed.

Lemma generate_markdown_text (h : host) (data : dict) (path : string) (w w' : world)
    (text : string) :
  ApiDocGenerator.generate_markdown h data path w = Ok (text, w') ->
  exists rest,
    text = String.concat "" (md_head h path w)
           ++ String.concat "" (md_description h data)
           ++ ("## Endpoints" ++ nl) ++ rest.
Proof.
  unfold ApiDocGenerator.generate_markdown. intros H.
  apply bind_Ok_inv in H as ([md w1] & Hl & H). injection H as <- <-.
  apply markdown_lines_inv in Hl as (_ & sections & rest & _ & _ & ->).
  exists (String.concat "" rest). rewrite !concat_app. reflexivity.
Qed.

(** X11. Whatever the descriptor, a Markdown document that
    [generate_markdown] returns starts with the title line and the time
    line, has the [## Endpoints] line, and has the [## Description] line
    when the descriptor has the key [description]. A file with that text
    therefore gets no error from the validator, and no warning but the one
    for a missing [## Description]. *)
Theorem generated_markdown_has_its_sections (h : host) (data : dict) (title : string)
    (w w' : world) (content : string) :
  ApiDocGenerator.generate_markdown h data title w = Ok (content, w') ->
  Py.startswith content
    ("# " ++ title ++ " API Documentation" ++ nl
     ++ "Generated on: " ++ strftime (clock h (ticks w)) ++ nl) = true
  /\ Py.contains content ("## Endpoints" ++ nl) = true
  /\ (Py.has_key data "description" = true ->
      Py.contains content ("## Description" ++ nl) = true)
  /\ forall (t : tree) (p : path) (dir : string),
       lookup t p = Some (File (text_file content)) ->
       errors (Validator.check_markdown_file t p (new_validator dir)) = []
       /\ warnings (Validator.check_markdown_file t p (new_validator dir))
          = if Py.contains content "## Description" then []
            else ["Missing section '## Description' in " ++ path_str dir p].
Proof.
  intros H. destruct (generate_markdown_text h data title w w' content H) as (rest & E).
  assert (Hstart : Py.startswith content
            ("# " ++ title ++ " API Documentation" ++ nl
             ++ "Generated on: " ++ strftime (clock h (ticks w)) ++ nl) = true).
  { apply startswith_spec. rewrite E, md_head_text. eexists. rewrite !append_assoc3.
    reflexivity. }
  assert (Hend : Py.contains content ("## Endpoints" ++ nl) = true).
  { apply contains_spec. rewrite E.
    exists (String.concat "" (md_head h title w) ++ String.concat "" (md_description h data)),
      rest.
    rewrite !append_assoc3. reflexivity. }
  split; [exact Hstart |]. split; [exact Hend |]. split.
  - intros Hk. apply contains_spec. rewrite E. unfold md_description. rewrite Hk.
    rewrite concat_cons. eexists (String.concat "" (md_head h title w)), _.
    rewrite !append_assoc3. reflexivity.
  - intros t p dir Hp.
    assert (H1 : Py.contains content "# " = true).
    { apply startswith_contains.
      apply startswith_spec in Hstart as (t0 & ->). apply startswith_spec.
      eexists. change ("# " ++ ?x) with (String "#" (String " " x)). reflexivity. }
    assert (H3 : Py.contains content "## Endpoints" = true)
      by exact (contains_weaken _ _ _ Hend).
    unfold Validator.check_markdown_file, Validator.read_text, try_except, read, lift,
      and_then. cbn [bind api_dir new_validator]. rewrite Hp. cbn [bind text text_file each].
    unfold and_then. rewrite H1, H3.
    destruct (Py.contains content "## Description"); split; reflexivity.
Qed.

Lemma generated_markdown_has_its_sections_witness :
  exists content w',
    ApiDocGenerator.generate_markdown demo_host
      [("description", JStr "Ethernet ports");
       ("endpoints", JObj [("get", JObj [("parameters",
                                          JObj [("id", JObj [("type", JStr "string")])])])])]
      "/ethernet" empty_world = Ok (content, w')
    /\ Py.startswith content
         ("# " ++ "/ethernet" ++ " API Documentation" ++ nl
          ++ "Generated on: " ++ strftime (clock demo_host (ticks empty_world)) ++ nl) = true
    /\ Py.contains content ("## Endpoints" ++ nl) = true
    /\ (Py.has_key
          [("description", JStr "Ethernet ports");
           ("endpoints", JObj [("get", JObj [("parameters",
                                              JObj [("id", JObj [("type", JStr "string")])])])])]
          "description" = true ->
        Py.contains content ("## Description" ++ nl) = true)
    /\ forall (t : tree) (p : path) (dir : string),
         lookup t p = Some (File (text_file content)) ->
         errors (Validator.check_markdown_file t p (new_validator dir)) = []
         /\ warnings (Validator.check_markdown_file t p (new_validator dir))
            = if Py.contains content "## Description" then []
              else ["Missing section '## Description' in " ++ path_str dir p].
Proof.
  eexists _, _. split; [vm_compute; reflexivity |].
  eapply (generated_markdown_has_its_sections demo_host
           [("description", JStr "Ethernet ports");
            ("endpoints", JObj [("get", JObj [("parameters",
                                               JObj [("id", JObj [("type", JStr "string")])])])])]
           "/ethernet" empty_world).
  vm_compute. reflexivity.
Defined.

Lemma In_concat_contains (line : string) (md : list string) :
  In line md -> Py.contains (String.concat "" md) line = true.
Proof.
  intros Hin. apply in_split in Hin as (l1 & l2 & ->). apply contains_spec.
  exists (String.concat "" l1), (String.concat "" l2).
  rewrite concat_app, concat_cons. reflexivity.
Qed.

Lemma method_sections_loop (h : host) (sections : dict) (md0 md : list string) :
  Py.for_each sections (ApiDocGenerator.method_section h) md0 = Ok md ->
  forall method details, In (method, details) sections ->
    In ("### " ++ Py.upper method ++ nl) md.
Proof.
  revert md0. induction sections as [| [m1 d1] rest IH]; intros md0 H method details Hin;
    cbn [Py.for_each] in H; [destruct Hin |].
  apply bind_Ok_inv in H as (md1 & H1 & H2). destruct Hin as [E | Hin].
  - injection E as -> ->.
    destruct (method_section_appends h _ _ _ _ H1) as (r1 & ->).
    destruct (for_each_appends rest _ _ _ (method_section_appends_any h) H2) as (r2 & ->).
    apply in_or_app. left. apply in_or_app. right. left. reflexivity.
  - exact (IH _ H2 method details Hin).
Qed.

(** X12. For a descriptor with a mapping under [endpoints] whose keys are
    ASCII texts, the generated Markdown has, for every method of that
    mapping, the line [### ] followed by the method in upper case. *)
Theorem generated_markdown_has_method_headings (h : host) (data sections : dict)
    (title : string) (w w' : world) (content : string) :
  Py.get data "endpoints" = Some (JObj sections) ->
  forallb (fun section => Py.isascii (fst section)) sections = true ->
  ApiDocGenerator.generate_markdown h data title w = Ok (content, w') ->
  forall method details, In (method, details) sections ->
    Py.contains content ("### " ++ Py.upper method ++ nl) = true.
Proof.
  intros Hg _ H method details Hin. unfold ApiDocGenerator.generate_markdown in H.
  apply bind_Ok_inv in H as ([md w1] & Hl & H). injection H as <- <-.
  apply markdown_lines_inv in Hl as (_ & sections' & rest & Hs & Hloop & _).
  unfold Py.get_default in Hs. rewrite Hg in Hs. injection Hs as <-.
  apply In_concat_contains. exact (method_sections_loop h _ _ _ Hloop method details Hin).
Qed.

Lemma generated_markdown_has_method_headings_witness :
  exists content w',
    ApiDocGenerator.generate_markdown demo_host
      [("endpoints", JObj [("get", JObj []); ("post", JObj [("examples", JArr [])])])]
      "/ethernet" empty_world = Ok (content, w')
    /\ forall method details,
         In (method, details) [("get", JObj []); ("post", JObj [("examples", JArr [])])] ->
         Py.contains content ("### " ++ Py.upper method ++ nl) = true.
Proof.
  eexists _, _. split; [vm_compute; reflexivity |].
  eapply (generated_markdown_has_method_headings demo_host
           [("endpoints", JObj [("get", JObj []); ("post", JObj [("examples", JArr [])])])]
           [("get", JObj []); ("post", JObj [("examples", JArr [])])]
           "/ethernet" empty_world).
  - reflexivity.
  - reflexivity.
  - vm_compute. reflexivity.
Defined.

(** ** The directories of the output *)

Lemma mkdir_parents_existing (root : string) (t : tree) (p : path) :
  lookup t p = Some Dir -> mkdir_parents root t p = Ok t.
Proof.
  intros H. exact (proj2 (mkdir_again root t t p eq_refl H)).
Qed.

Lemma adds_directories_keeps (t t' : tree) (p : path) :
  adds_directories t t' -> lookup t p = Some Dir -> lookup t' p = Some Dir.
Proof.
  intros Ha H. destruct (Ha p) as [E | [N _]]; congruence.
Qed.

Lemma create_directory_structure_inv (output_dir : string) (w w' : world) :
  EnhancedRamlSplitter.create_directory_structure output_dir w = Ok w' ->
  exists t1 t2,
    mkdir_parents output_dir (files w) [] = Ok t1
    /\ mkdir_parents output_dir t1 ["docs"] = Ok t2
    /\ mkdir_parents output_dir t2 ["examples"] = Ok (files w')
    /\ ticks w' = ticks w.
Proof.
  unfold EnhancedRamlSplitter.create_directory_structure. cbn [Py.for_each]. intros H.
  apply bind_Ok_inv in H as (w1 & H1 & H). apply bind_Ok_inv in H as (w2 & H2 & H).
  apply bind_Ok_inv in H as (w3 & H3 & H). injection H as <-.
  apply on_files_inv in H1 as [H1 T1]. apply on_files_inv in H2 as [H2 T2].
  apply on_files_inv in H3 as [H3 T3].
  exists (files w1), (files w2). repeat split; auto. congruence.
Qed.

(** X13. After [create_directory_structure] the output directory and its
    [docs] and [examples] are directories, nothing that was in the tree has
    changed, and running it again changes nothing. *)
Theorem create_directory_structure_is_idempotent (output_dir : string) (w w' : world) :
  EnhancedRamlSplitter.create_directory_structure output_dir w = Ok w' ->
  lookup (files w') [] = Some Dir
  /\ lookup (files w') ["docs"] = Some Dir
  /\ lookup (files w') ["examples"] = Some Dir
  /\ (forall q n, lookup (files w) q = Some n -> lookup (files w') q = Some n)
  /\ EnhancedRamlSplitter.create_directory_structure output_dir w' = Ok w'.
Proof.
  intros H. apply create_directory_structure_inv in H as (t1 & t2 & H1 & H2 & H3 & HT).
  destruct (mkdir_parents_adds _ _ _ _ H1) as [A1 D1].
  destruct (mkdir_parents_adds _ _ _ _ H2) as [A2 D2].
  destruct (mkdir_parents_adds _ _ _ _ H3) as [A3 D3].
  assert (R : lookup (files w') [] = Some Dir).
  { apply (adds_directories_keeps _ _ _ A3), (adds_directories_keeps _ _ _ A2). exact D1. }
  assert (Dd : lookup (files w') ["docs"] = Some Dir).
  { apply (adds_directories_keeps _ _ _ A3). exact D2. }
  split; [exact R |]. split; [exact Dd |]. split; [exact D3 |]. split.
  - intros q n Hq.
    pose proof (adds_directories_trans _ _ _ (adds_directories_trans _ _ _ A1 A2) A3) as A.
    destruct (A q) as [E | [N _]]; congruence.
  - unfold EnhancedRamlSplitter.create_directory_structure, on_files. cbn [Py.for_each].
    change (joinpath [] "docs") with ["docs"]. change (joinpath [] "examples") with ["examples"].
    rewrite (mkdir_parents_existing _ _ _ R). cbn [bind files ticks].
    rewrite (mkdir_parents_existing _ _ _ Dd). cbn [bind files ticks].
    rewrite (mkdir_parents_existing _ _ _ D3). cbn [bind files ticks].
    destruct w'. reflexivity.
Qed.

Lemma create_directory_structure_is_idempotent_witness :
  exists w',
    EnhancedRamlSplitter.create_directory_structure "api" empty_world = Ok w'
    /\ lookup (files w') [] = Some Dir
    /\ lookup (files w') ["docs"] = Some Dir
    /\ lookup (files w') ["examples"] = Some Dir
    /\ (forall q n, lookup (files empty_world) q = Some n -> lookup (files w') q = Some n)
    /\ EnhancedRamlSplitter.create_directory_structure "api" w' = Ok w'.
Proof.
  eexists. split; [vm_compute; reflexivity |].
  apply (create_directory_structure_is_idempotent "api" empty_world).
  vm_compute. reflexivity.
Defined.

Lemma mkdir_parents_root (root : string) (t : tree) :
  is_file t [] = false -> exists t', mkdir_parents root t [] = Ok t'.
Proof.
  unfold is_file. intros H. simpl. unfold os_mkdir, is_dir.
  destruct (lookup t []) as [[| f] |]; try discriminate; simpl; eauto.
Qed.

Lemma mkdir_parents_child (root : string) (t : tree) (c : string) :
  lookup t [] = Some Dir -> is_file t [c] = false ->
  exists t', mkdir_parents root t [c] = Ok t'.
Proof.
  unfold is_file. intros Hr H. simpl. unfold os_mkdir, is_dir.
  destruct (lookup t [c]) as [[| f] |]; try discriminate; simpl; [eauto |].
  rewrite Hr. eauto.
Qed.

Lemma adds_directories_is_file (t t' : tree) (p : path) :
  adds_directories t t' -> is_file t' p = is_file t p.
Proof.
  intros Ha. unfold is_file. destruct (Ha p) as [-> | [-> ->]]; reflexivity.
Qed.

(** X14. [create_directory_structure] succeeds exactly when none of the
    output directory, its [docs] and its [examples] is there as a file. *)
Theorem create_directory_structure_succeeds_iff (output_dir : string) (w : world) :
  (exists w', EnhancedRamlSplitter.create_directory_structure output_dir w = Ok w')
  <-> is_file (files w) [] = false
      /\ is_file (files w) ["docs"] = false
      /\ is_file (files w) ["examples"] = false.
Proof.
  split.
  - intros (w' & H). apply create_directory_structure_inv in H as (t1 & t2 & H1 & H2 & H3 & _).
    destruct (mkdir_parents_adds _ _ _ _ H1) as [A1 D1].
    destruct (mkdir_parents_adds _ _ _ _ H2) as [A2 D2].
    destruct (mkdir_parents_adds _ _ _ _ H3) as [A3 D3].
    assert (F1 : is_file t1 [] = false) by (unfold is_file; rewrite D1; reflexivity).
    assert (F2 : is_file t2 ["docs"] = false) by (unfold is_file; rewrite D2; reflexivity).
    assert (F3 : is_file (files w') ["examples"] = false)
      by (unfold is_file; rewrite D3; reflexivity).
    rewrite (adds_directories_is_file _ _ _ A1) in F1.
    rewrite (adds_directories_is_file _ _ _ A2), (adds_directories_is_file _ _ _ A1) in F2.
    rewrite (adds_directories_is_file _ _ _ A3), (adds_directories_is_file _ _ _ A2),
      (adds_directories_is_file _ _ _ A1) in F3.
    auto.
  - intros (F1 & F2 & F3).
    destruct (mkdir_parents_root output_dir _ F1) as (t1 & H1).
    destruct (mkdir_parents_adds _ _ _ _ H1) as [A1 D1].
    destruct (mkdir_parents_child output_dir t1 "docs" D1) as (t2 & H2).
    { rewrite (adds_directories_is_file _ _ _ A1). exact F2. }
    destruct (mkdir_parents_adds _ _ _ _ H2) as [A2 D2].
    destruct (mkdir_parents_child output_dir t2 "examples") as (t3 & H3).
    { exact (adds_directories_keeps _ _ _ A2 D1). }
    { rewrite (adds_directories_is_file _ _ _ A2), (adds_directories_is_file _ _ _ A1).
      exact F3. }
    exists {| files := t3; ticks := ticks w |}.
    unfold EnhancedRamlSplitter.create_directory_structure, on_files. cbn [Py.for_each].
    change (joinpath [] "docs") with ["docs"]. change (joinpath [] "examples") with ["examples"].
    rewrite H1. cbn [bind files ticks]. rewrite H2. cbn [bind files ticks].
    rewrite H3. reflexivity.
Qed.

Lemma validator_rejects_splitter_output_witness :
  exists w',
    EnhancedRamlSplitter.process_raml demo_host "api" (JObj []) empty_world = Ok w'
    /\ In ("Missing required field 'endpoint' in " ++ path_str "api" ["index.json"])
          (errors (fst (Validator.validate_all demo_host (files w') (new_validator "api"))))
    /\ snd (Validator.validate_all demo_host (files w') (new_validator "api")) = false.
Proof.
  eexists. split; [vm_compute; reflexivity |].
  apply (validator_rejects_splitter_output demo_host "api" (JObj []) empty_world _
           (new_validator "api")).
  vm_compute. reflexivity.
Defined.

Example docs_as_a_file_stops_the_run :
  EnhancedRamlSplitter.create_directory_structure "api"
    {| files := tree_with_docs_file; ticks := 0 |}
  = Raise (Exn FileExistsError "[Errno 17] File exists: 'api/docs'").
Proof. vm_compute. reflexivity. Qed.

(** ** Cross references *)

Lemma references_loop (h : host) (t : tree) (names : list string) (self : RamlValidator) :
  forallb (fun s => negb (Py.startswith s "/") && negb (has_dotdot s)) names = true ->
  each (map JStr names)
    (fun family =>
       do found <- lift (Validator.family_exists h t family);
       if found : bool then ret tt
       else add_error ("Referenced family directory does not exist: " ++ format h family))
    self
  = ({| api_dir := api_dir self;
        errors := errors self
                  ++ map (fun s => "Referenced family directory does not exist: " ++ s)
                       (filter (fun s => negb (exists_ t (joinpath [] s))) names);
        warnings := warnings self |}, Ok tt).
Proof.
  revert self. induction names as [| s names IH]; intros self Hrel.
  - simpl. unfold ret. rewrite app_nil_r. destruct self. reflexivity.
  - cbn [forallb] in Hrel. apply andb_true_iff in Hrel as [Hs Hrel].
    apply andb_true_iff in Hs as [Hs Hd].
    apply negb_true_iff in Hs. apply negb_true_iff in Hd.
    cbn [map each]. unfold and_then at 1. unfold and_then at 1. unfold lift at 1.
    cbn [Validator.family_exists]. rewrite Hs, Hd. cbn [orb filter].
    destruct (exists_ t (joinpath [] s)); cbn [negb].
    + unfold ret at 1. apply IH. exact Hrel.
    + unfold add_error at 1. cbn [fst snd]. rewrite IH by exact Hrel.
      cbn [api_dir errors warnings format map]. unfold Py.append.
      rewrite <- app_assoc. reflexivity.
Qed.

(** X16. When the [families] of the main index is a list of names that
    stay below the directory (no slash in front, no component [..]), the
    cross-reference pass adds one error for each name that is no entry
    under the root, in the order of the list, and nothing else. *)
Theorem references_report_each_missing_family (h : host) (t : tree) (dir : string)
    (f : file) (d : dict) (names : list string) :
  lookup t [] = Some Dir ->
  lookup t ["index.json"] = Some (File f) ->
  parsed f = Some (JObj d) ->
  Py.get d "families" = Some (JArr (map JStr names)) ->
  forallb (fun s => negb (Py.startswith s "/") && negb (has_dotdot s)) names = true ->
  errors (Validator.validate_references h t (new_validator dir))
  = map (fun s => "Referenced family directory does not exist: " ++ s)
      (filter (fun s => negb (exists_ t (joinpath [] s))) names).
Proof.
  intros _ Hp Hf Hg Hrel.
  unfold Validator.validate_references, try_except, read, json_load.
  change (joinpath [] "index.json") with ["index.json"].
  unfold and_then at 1. unfold lift at 1. rewrite Hp.
  unfold and_then at 1. unfold lift at 1. cbn [parsed]. rewrite Hf.
  unfold and_then at 1. unfold lift at 1. cbn [Py.dget]. unfold Py.get_default. rewrite Hg.
  unfold and_then at 1. unfold lift at 1. cbn [Py.iterate].
  rewrite (references_loop h t names _ Hrel). reflexivity.
Qed.

Lemma references_report_each_missing_family_witness :
  errors (Validator.validate_references demo_host
            [ ([], Dir); (["interface"], Dir);
              (["index.json"],
               File (json_file demo_host
                       (JObj [("families", JArr (map JStr ["interface"; "ip"; "system"]))]))) ]
            (new_validator "api"))
  = map (fun s => "Referenced family directory does not exist: " ++ s)
      (filter (fun s => negb (exists_
                 [ ([], Dir); (["interface"], Dir);
                   (["index.json"],
                    File (json_file demo_host
                            (JObj [("families",
                                    JArr (map JStr ["interface"; "ip"; "system"]))]))) ]
                 (joinpath [] s)))
         ["interface"; "ip"; "system"]).
Proof.
  apply (references_report_each_missing_family demo_host _ "api"
           (json_file demo_host
              (JObj [("families", JArr (map JStr ["interface"; "ip"; "system"]))]))
           [("families", JArr (map JStr ["interface"; "ip"; "system"]))]
           ["interface"; "ip"; "system"]); reflexivity.
Defined.

(** X17. When the first entry of [families] is not a text, as in the index
    the splitter writes, where the entries are the family indexes
    themselves, the join of the directory with it raises: the pass adds
    the one error of that [TypeError] and looks at no further entry. *)
Theorem references_stop_at_a_mapping (h : host) (t : tree) (dir : string)
    (f : file) (d : dict) (v : json) (rest : list json) :
  lookup t ["index.json"] = Some (File f) ->
  parsed f = Some (JObj d) ->
  Py.get d "families" = Some (JArr (v :: rest)) ->
  is_string v = false ->
  errors (Validator.validate_references h t (new_validator dir))
  = [ "Error validating cross-references: unsupported operand type(s) for /: 'PosixPath' and '"
      ++ Py.type_name v ++ "'" ].
Proof.
  intros Hp Hf Hg Hv.
  unfold Validator.validate_references, try_except, read, json_load.
  change (joinpath [] "index.json") with ["index.json"].
  unfold and_then at 1. unfold lift at 1. rewrite Hp.
  unfold and_then at 1. unfold lift at 1. cbn [parsed]. rewrite Hf.
  unfold and_then at 1. unfold lift at 1. cbn [Py.dget]. unfold Py.get_default. rewrite Hg.
  unfold and_then at 1. unfold lift at 1. cbn [Py.iterate each].
  unfold and_then at 1. unfold and_then at 1. unfold lift at 1.
  destruct v; try discriminate Hv; reflexivity.
Qed.

Lemma references_stop_at_a_mapping_witness :
  exists w',
    EnhancedRamlSplitter.process_raml demo_host "api" demo_document empty_world = Ok w'
    /\ errors (Validator.validate_references demo_host (files w') (new_validator "api"))
       = [ "Error validating cross-references: unsupported operand type(s) for /: 'PosixPath' and 'dict'" ].
Proof.
  eexists. split; [vm_compute; reflexivity |].
  refine (references_stop_at_a_mapping demo_host _ "api" _ _ (JObj _) [] _ _ _ _).
  - vm_compute. reflexivity.
  - reflexivity.
  - vm_compute. reflexivity.
  - reflexivity.
Defined.

(** ** The whole run *)

(** X18. A document that is not a mapping (an empty file gives [None], a
    list of entries a list) stops every run: the three directories are
    made first, so that a failure to make them is the error of the run,
    and once they are made the run ends with the [AttributeError] of
    [.items()]. *)
Theorem document_must_be_a_mapping (h : host) (output_dir : string) (doc : json)
    (w : world) :
  is_mapping doc = false ->
  EnhancedRamlSplitter.process_raml h output_dir doc w
  = match EnhancedRamlSplitter.create_directory_structure output_dir w with
    | Ok _ => Raise (Exn AttributeError
                       ("'" ++ Py.type_name doc ++ "' object has no attribute 'items'"))
    | Raise e => Raise e
    end.
Proof.
  intros Hm. unfold EnhancedRamlSplitter.process_raml.
  destruct (EnhancedRamlSplitter.create_directory_structure output_dir w) as [w1 | e];
    cbn [bind]; [| reflexivity].
  unfold EnhancedRamlSplitter.split_raml.
  destruct doc; try discriminate Hm; reflexivity.
Qed.

Lemma document_must_be_a_mapping_witness :
  EnhancedRamlSplitter.process_raml demo_host "api" JNull empty_world
  = Raise (Exn AttributeError "'NoneType' object has no attribute 'items'")
  /\ EnhancedRamlSplitter.process_raml demo_host "api" (JArr [])
       {| files := tree_with_docs_file; ticks := 0 |}
     = Raise (Exn FileExistsError "[Errno 17] File exists: 'api/docs'").
Proof.
  split.
  - apply (eq_trans (document_must_be_a_mapping demo_host "api" JNull empty_world eq_refl)).
    vm_compute. reflexivity.
  - apply (eq_trans (document_must_be_a_mapping demo_host "api" (JArr [])
                       {| files := tree_with_docs_file; ticks := 0 |} eq_refl)).
    vm_compute. reflexivity.
Defined.

Lemma index_loop (h : host) (output_dir : string) (t : tree) (dirs : list path)
    (acc families : list json) :
  Py.for_each dirs (EnhancedRamlSplitter.index_step h output_dir t) acc = Ok families ->
  exists found,
    families = (acc ++ found)%list
    /\ Forall2 (fun d v => exists f, lookup t ("_index.json" :: d) = Some (File f)
                                     /\ parsed f = Some v)
         (filter (fun d => exists_ t ("_index.json" :: d)) dirs) found.
Proof.
  revert acc. induction dirs as [| d dirs IH]; intros acc H; cbn [Py.for_each] in H.
  - injection H as <-. exists []. rewrite app_nil_r. split; [reflexivity | constructor].
  - apply bind_Ok_inv in H as (acc1 & H1 & H2).
    destruct (IH _ H2) as (found & -> & HF).
    unfold EnhancedRamlSplitter.index_step in H1.
    change (joinpath d "_index.json") with ("_index.json" :: d) in H1.
    cbn [filter]. destruct (exists_ t ("_index.json" :: d)) eqn:He.
    + apply bind_Ok_inv in H1 as (f & Hr & H1). apply bind_Ok_inv in H1 as (v & Hv & H1).
      injection H1 as <-. exists (v :: found). unfold Py.append. rewrite <- app_assoc.
      split; [reflexivity |]. constructor; [| exact HF].
      exists f. unfold read in Hr. unfold json_load in Hv.
      destruct (lookup t ("_index.json" :: d)) as [[| g] |]; try discriminate.
      injection Hr as ->. destruct (parsed f); [| discriminate]. injection Hv as ->. auto.
    + injection H1 as <-. exists found. auto.
Qed.

(** X19. The main index that [generate_index] writes has the time of the
    run under [generated_at] and, under [families], what the [_index.json]
    of each directory below the root holds, for the directories that have
    one and whose name does not start with a dot, in listing order. *)
Theorem main_index_collects_the_family_indexes (h : host) (output_dir : string)
    (w w' : world) :
  EnhancedRamlSplitter.generate_index h output_dir w = Ok w' ->
  exists families,
    lookup (files w') ["index.json"]
    = Some (File (json_file h
                    (JObj [ ("generated_at", JStr (isoformat (clock h (ticks w))));
                            ("families", JArr families) ])))
    /\ Forall2 (fun d v => exists f, lookup (files w) ("_index.json" :: d) = Some (File f)
                                     /\ parsed f = Some v)
         (filter (fun d => exists_ (files w) ("_index.json" :: d))
            (family_dirs (files w) []))
         families.
Proof.
  intros H. apply generate_index_inv in H as (families & Hl & Hw & _).
  exists families. split.
  - rewrite (write_lookup _ _ _ _ _ _ Hw), path_eqb_refl. reflexivity.
  - destruct (index_loop _ _ _ _ _ _ Hl) as (found & E & HF). simpl in E. subst. exact HF.
Qed.

Lemma main_index_collects_the_family_indexes_witness :
  exists w',
    EnhancedRamlSplitter.generate_index demo_host "api"
      {| files := [ ([], Dir); (["docs"], Dir); ([".git"], Dir); (["ip"], Dir);
                    (["_index.json"; "ip"],
                     File (json_file demo_host (JObj [("family", JStr "/ip")])));
                    (["_index.json"; ".git"],
                     File (json_file demo_host (JObj [("family", JStr "hidden")]))) ];
         ticks := 4 |}
    = Ok w'
    /\ exists families,
         lookup (files w') ["index.json"]
         = Some (File (json_file demo_host
                         (JObj [ ("generated_at", JStr (isoformat (clock demo_host 4)));
                                 ("families", JArr families) ])))
         /\ Forall2 (fun d v =>
                      exists f,
                        lookup [ ([], Dir); (["docs"], Dir); ([".git"], Dir); (["ip"], Dir);
                                 (["_index.json"; "ip"],
                                  File (json_file demo_host (JObj [("family", JStr "/ip")])));
                                 (["_index.json"; ".git"],
                                  File (json_file demo_host
                                          (JObj [("family", JStr "hidden")]))) ]
                          ("_index.json" :: d) = Some (File f)
                        /\ parsed f = Some v)
              [ ["ip"] ] families.
Proof.
  eexists. split; [vm_compute; reflexivity |].
  refine (main_index_collects_the_family_indexes demo_host "api"
            {| files := [ ([], Dir); (["docs"], Dir); ([".git"], Dir); (["ip"], Dir);
                          (["_index.json"; "ip"],
                           File (json_file demo_host (JObj [("family", JStr "/ip")])));
                          (["_index.json"; ".git"],
                           File (json_file demo_host (JObj [("family", JStr "hidden")]))) ];
               ticks := 4 |} _ _).
  vm_compute. reflexivity.
Defined.

(** ** When an endpoint can be processed *)

Lemma validation_total (ps acc : dict) :
  parameter_mapping ps = true ->
  exists rules, Py.for_each ps EnhancedRamlSplitter.validation_step acc = Ok rules.
Proof.
  revert acc. induction ps as [| [param info] rest IH]; intros acc Hp; cbn [Py.for_each].
  - eauto.
  - unfold parameter_mapping in Hp. cbn [forallb snd] in Hp.
    apply andb_true_iff in Hp as [Hi Hrest].
    destruct info; try discriminate Hi. rewrite validation_step_mapping.
    cbn [typed_parameter] in Hi.
    destruct (Py.get_default fields "type" (JStr "string")) as [| b | n | t | l | o];
      try discriminate Hi; cbn [bind]; try (apply IH; exact Hrest).
    destruct (Py.get ApiDocGenerator.validation_rules t); cbn [bind]; apply IH; exact Hrest.
Qed.

Lemma write_total (root : string) (t : tree) (c : string) (up : path) (f : file) :
  lookup t up = Some Dir -> is_dir t (c :: up) = false ->
  exists t', write root t (c :: up) f = Ok t'.
Proof.
  intros Hup Hd. unfold write. unfold is_dir in Hd.
  destruct (lookup t (c :: up)) as [[| g] |]; try discriminate; [eauto |].
  rewrite Hup. eauto.
Qed.

(** X20. [process_endpoint] succeeds when the method of the endpoint is a
    text, its parameters are a mapping of mappings with types that can be
    hashed, the directories that are to hold the descriptor and the
    document are there, and neither file name is taken by a directory. *)
Theorem process_endpoint_succeeds (h : host) (output_dir endpoint m : string)
    (data ps : dict) (family_dir : path) (w : world) :
  let endpoint_file :=
    joinpath family_dir (EnhancedRamlSplitter.endpoint_file_name endpoint) in
  let doc_file :=
    joinpath (joinpath family_dir "docs") (EnhancedRamlSplitter.doc_file_name endpoint) in
  Py.get_default data "method" (JStr "GET") = JStr m ->
  Py.get_default data "parameters" (JObj []) = JObj ps ->
  parameter_mapping ps = true ->
  lookup (files w) (parent endpoint_file) = Some Dir ->
  is_dir (files w) endpoint_file = false ->
  lookup (files w) (parent doc_file) = Some Dir ->
  is_dir (files w) doc_file = false ->
  exists processed w',
    EnhancedRamlSplitter.process_endpoint h output_dir endpoint data family_dir w
    = Ok (processed, w').
Proof.
  intros endpoint_file doc_file. subst endpoint_file doc_file.
  intros Hm Hps Hp He1 He2 Hd1 Hd2.
  rewrite process_endpoint_eq, Hm, Hps.
  unfold ExampleGenerator.generate_example_for_endpoint. cbn [Py.items bind].
  destruct (request_body_total ps [] Hp) as (body & ->). cbn [bind Py.vlower].
  unfold EnhancedRamlSplitter.get_validation_rules. rewrite Hps. cbn [Py.items bind].
  destruct (validation_total ps [] Hp) as (rules & ->). cbn [bind]. cbv zeta.
  pose proof (endpoint_and_doc_files_differ family_dir endpoint) as Hne.
  unfold EnhancedRamlSplitter.endpoint_file_name, EnhancedRamlSplitter.doc_file_name in *.
  destruct (joinpath_suffix family_dir (Py.strip "/" endpoint) ".json")
    as (p1 & up1 & E1); [reflexivity | simpl; lia |].
  destruct (joinpath_suffix (joinpath family_dir "docs") (Py.strip "/" endpoint) ".md")
    as (p2 & up2 & E2); [reflexivity | simpl; lia |].
  rewrite E1, E2 in *. cbn [parent tl] in He1, Hd1.
  match goal with
  | |- context [write output_dir (files w) ((p1 ++ ".json") :: up1) ?f] =>
      destruct (write_total output_dir (files w) (p1 ++ ".json") up1 f He1 He2) as (t1 & Hw1)
  end.
  rewrite Hw1. cbn [bind].
  match goal with
  | |- context [write output_dir t1 ((p2 ++ ".md") :: up2) ?f] =>
      destruct (write_total output_dir t1 (p2 ++ ".md") up2 f) as (t2 & Hw2)
  end.
  - rewrite (write_lookup _ _ _ _ up2 _ Hw1).
    destruct (path_eqb_spec ((p1 ++ ".json") :: up1) up2) as [E | _]; [| exact Hd1].
    exfalso. unfold is_dir in He2. rewrite E, Hd1 in He2. discriminate.
  - unfold is_dir. rewrite (write_lookup _ _ _ _ ((p2 ++ ".md") :: up2) _ Hw1).
    destruct (path_eqb_spec ((p1 ++ ".json") :: up1) ((p2 ++ ".md") :: up2)) as [E | _];
      [reflexivity |].
    exact Hd2.
  - rewrite Hw2. cbn [bind]. eauto.
Qed.

Lemma process_endpoint_succeeds_witness :
  exists processed w',
    EnhancedRamlSplitter.process_endpoint demo_host "api" "/ethernet"
      [("method", JStr "PUT"); ("parameters", JObj [("name", JObj [])])] ["interface"]
      {| files := [([], Dir); (["interface"], Dir); (["docs"; "interface"], Dir)]; ticks := 0 |}
    = Ok (processed, w').
Proof.
  refine (process_endpoint_succeeds demo_host "api" "/ethernet" "PUT"
            [("method", JStr "PUT"); ("parameters", JObj [("name", JObj [])])]
            [("name", JObj [])] ["interface"]
            {| files := [([], Dir); (["interface"], Dir); (["docs"; "interface"], Dir)];
               ticks := 0 |} _ _ _ _ _ _ _); reflexivity.
Defined.

(** ** Required keys *)

Lemma require_mapping_errors (fields : list string) (d : dict) (msg : string -> string)
    (self : RamlValidator) :
  Validator.require fields (JObj d) msg self
  = ({| api_dir := api_dir self;
        errors := errors self
                  ++ map msg (filter (fun field => negb (Py.has_key d field)) fields);
        warnings := warnings self |}, Ok tt).
Proof.
  unfold Validator.require. revert self. induction fields as [| field rest IH]; intros self.
  - simpl. unfold ret. rewrite app_nil_r. destruct self. reflexivity.
  - cbn [each filter]. unfold and_then at 1. unfold and_then at 1. unfold lift at 1.
    cbn [Py.vin]. destruct (Py.has_key d field); cbn [negb].
    + unfold ret at 1. apply IH.
    + unfold add_error at 1. cbn [fst snd]. rewrite IH.
      cbn [api_dir errors warnings map]. unfold Py.append. rewrite <- app_assoc. reflexivity.
Qed.

(** X21. For a JSON file that holds a mapping, the check of JSON files adds
    one error for each required key the mapping lacks, in the order of the
    list of required keys: [family] and [endpoints] for a file named
    [_index.json]; [endpoint] and [data] for any other file, when the
    mapping has no key [examples]. *)
Theorem json_check_reports_each_missing_key (h : host) (t : tree) (dir : string)
    (p : path) (f : file) (d : dict) :
  lookup t p = Some (File f) ->
  parsed f = Some (JObj d) ->
  Py.endswith (name p) ".json" = true ->
  (String.eqb (name p) "_index.json" = true ->
   errors (Validator.check_json_file h t p (new_validator dir))
   = map (fun field => "Missing required field '" ++ field ++ "' in " ++ path_str dir p)
       (filter (fun field => negb (Py.has_key d field)) ["family"; "endpoints"]))
  /\ (String.eqb (name p) "_index.json" = false ->
      Py.has_key d "examples" = false ->
      errors (Validator.check_json_file h t p (new_validator dir))
      = map (fun field => "Missing required field '" ++ field ++ "' in " ++ path_str dir p)
          (filter (fun field => negb (Py.has_key d field)) ["endpoint"; "data"])).
Proof.
  intros Hp Hf Hs. split.
  - intros Hn. unfold Validator.check_json_file, read, json_load. rewrite Hp, Hn.
    unfold lift at 1. unfold and_then at 1. cbn [parsed]. rewrite Hf.
    unfold lift at 1. unfold and_then at 1.
    unfold Validator._validate_index_file. rewrite require_mapping_errors. reflexivity.
  - intros Hn He. unfold Validator.check_json_file, read, json_load. rewrite Hp, Hn, Hs.
    unfold lift at 1. unfold and_then at 1. cbn [parsed]. rewrite Hf.
    unfold lift at 1. unfold and_then at 1.
    unfold Validator._validate_endpoint_file. unfold and_then at 1.
    rewrite require_mapping_errors. unfold lift at 1. unfold and_then at 1.
    cbn [Py.vin]. rewrite He. reflexivity.
Qed.

Lemma json_check_reports_each_missing_key_witness :
  (String.eqb (name ["b.json"]) "_index.json" = true ->
   errors (Validator.check_json_file demo_host tree_with_corrupt_file ["b.json"]
             (new_validator "api"))
   = map (fun field => "Missing required field '" ++ field ++ "' in "
                       ++ path_str "api" ["b.json"])
       (filter (fun field => negb (Py.has_key [("endpoint", JStr "/b")] field))
          ["family"; "endpoints"]))
  /\ (String.eqb (name ["b.json"]) "_index.json" = false ->
      Py.has_key [("endpoint", JStr "/b")] "examples" = false ->
      errors (Validator.check_json_file demo_host tree_with_corrupt_file ["b.json"]
                (new_validator "api"))
      = map (fun field => "Missing required field '" ++ field ++ "' in "
                          ++ path_str "api" ["b.json"])
          (filter (fun field => negb (Py.has_key [("endpoint", JStr "/b")] field))
             ["endpoint"; "data"])).
Proof.
  apply (json_check_reports_each_missing_key demo_host tree_with_corrupt_file "api"
           ["b.json"] (json_file demo_host (JObj [("endpoint", JStr "/b")]))
           [("endpoint", JStr "/b")]); reflexivity.
Defined.

(** X22. For a JSON file directly in [examples] that holds a mapping, the
    pass over examples adds one error for each of [request] and [response]
    that the mapping lacks, and none when it has both. *)
Theorem example_check_reports_each_missing_key (h : host) (t : tree) (dir : string)
    (p : path) (f : file) (d : dict) :
  lookup t p = Some (File f) ->
  parsed f = Some (JObj d) ->
  errors (Validator.check_example_file h t p (new_validator dir))
  = map (fun field => "Missing required field '" ++ field ++ "' in example "
                      ++ path_str dir p)
      (filter (fun field => negb (Py.has_key d field)) ["request"; "response"]).
Proof.
  intros Hp Hf. unfold Validator.check_example_file, try_except, read, json_load.
  unfold lift at 1. unfold and_then at 1. rewrite Hp.
  unfold lift at 1. unfold and_then at 1. cbn [parsed]. rewrite Hf.
  rewrite require_mapping_errors. reflexivity.
Qed.

Lemma example_check_reports_each_missing_key_witness :
  errors (Validator.check_example_file demo_host
            (tree_with_example (JObj [("response", JObj [])]))
            ["foo.json"; "examples"] (new_validator "api"))
  = map (fun field => "Missing required field '" ++ field ++ "' in example "
                      ++ path_str "api" ["foo.json"; "examples"])
      (filter (fun field => negb (Py.has_key [("response", JObj [])] field))
         ["request"; "response"]).
Proof.
  apply (example_check_reports_each_missing_key demo_host
           (tree_with_example (JObj [("response", JObj [])])) "api"
           ["foo.json"; "examples"] (json_file demo_host (JObj [("response", JObj [])]))
           [("response", JObj [])]); reflexivity.
Defined.

(** ** What a run leaves of the output directory *)

Lemma kept_refl (t : tree) : kept t t.
Proof. intros q n H. left. exact H. Qed.

Lemma kept_trans (t1 t2 t3 : tree) : kept t1 t2 -> kept t2 t3 -> kept t1 t3.
Proof.
  intros H12 H23 q n H. destruct (H12 q n H) as [E | (f & f' & -> & E & Hn)].
  - exact (H23 q n E).
  - right. destruct (H23 q _ E) as [E' | (g & g' & Hg & E' & _)].
    + exists f, f'. auto.
    + exists f, g'. auto.
Qed.

Lemma adds_directories_kept (t t' : tree) : adds_directories t t' -> kept t t'.
Proof.
  intros A q n H. left. destruct (A q) as [E | [N _]]; congruence.
Qed.

Lemma write_kept (root : string) (t t' : tree) (p : path) (f : file) :
  Py.endswith (name p) ".json" || Py.endswith (name p) ".md" = true ->
  write root t p f = Ok t' -> kept t t'.
Proof.
  intros Hn H q n Hq. rewrite (write_lookup root t t' p q f H).
  destruct (path_eqb_spec p q) as [<- | _]; [| left; exact Hq].
  unfold write in H. rewrite Hq in H. destruct n as [| g]; [discriminate |].
  right. exists g, f. auto.
Qed.

Lemma for_each_kept {A S : Type} (tr : S -> tree) (xs : list A) (body : A -> S -> result S) :
  (forall x a a', body x a = Ok a' -> kept (tr a) (tr a')) ->
  forall a a', Py.for_each xs body a = Ok a' -> kept (tr a) (tr a').
Proof.
  intros Hk. induction xs as [| x xs IH]; intros a a' H; simpl in H.
  - injection H as <-. apply kept_refl.
  - apply bind_Ok_inv in H as (a1 & H1 & H2).
    exact (kept_trans _ _ _ (Hk x a a1 H1) (IH a1 a' H2)).
Qed.

Lemma endpoint_file_is_json (family_dir : path) (endpoint : string) :
  Py.endswith (name (joinpath family_dir (EnhancedRamlSplitter.endpoint_file_name endpoint)))
    ".json" = true.
Proof.
  unfold EnhancedRamlSplitter.endpoint_file_name.
  destruct (joinpath_suffix family_dir (Py.strip "/" endpoint) ".json")
    as (piece & up & ->); [reflexivity | simpl; lia |].
  simpl. apply endswith_app.
Qed.

Section Kept.

Variable h : host.
Variable output_dir : string.

Lemma process_endpoint_kept (endpoint : string) (data : dict) (family_dir : path)
    (w w' : world) (processed : dict) :
  EnhancedRamlSplitter.process_endpoint h output_dir endpoint data family_dir w
  = Ok (processed, w') ->
  kept (files w) (files w').
Proof.
  rewrite process_endpoint_eq. intros H.
  apply bind_Ok_inv in H as (ex & _ & H). apply bind_Ok_inv in H as (va & _ & H).
  cbv zeta in H.
  apply bind_Ok_inv in H as (t1 & H1 & H). apply bind_Ok_inv in H as (t2 & H2 & H).
  injection H as _ <-. simpl.
  apply (kept_trans _ t1).
  - apply (write_kept _ _ _ _ _) with (2 := H1).
    rewrite endpoint_file_is_json. reflexivity.
  - apply (write_kept _ _ _ _ _) with (2 := H2).
    rewrite doc_file_is_markdown. apply orb_true_r.
Qed.

Lemma family_step_kept (family_dir : path) (entry : string * json)
    (a a' : list json * world) :
  EnhancedRamlSplitter.family_step h output_dir family_dir entry a = Ok a' ->
  kept (family_tree a) (family_tree a').
Proof.
  destruct a as [l a], a' as [l' a']. intros H. destruct entry as [endpoint data].
  unfold family_tree. simpl in *.
  destruct data; try (injection H as _ <-; apply kept_refl).
  apply bind_Ok_inv in H as ([processed w1] & H1 & H). injection H as _ <-.
  exact (process_endpoint_kept _ _ _ _ _ _ H1).
Qed.

Lemma process_family_kept (family : string) (endpoints : json) (family_dir : path)
    (w w' : world) :
  EnhancedRamlSplitter.process_family h output_dir family endpoints family_dir w = Ok w' ->
  kept (files w) (files w').
Proof.
  intros H. apply process_family_inv in H as (es & processed & w1 & _ & Hl & Hw & _).
  pose proof (for_each_kept family_tree es _ (family_step_kept family_dir) _ _ Hl) as M.
  apply (kept_trans _ _ _ M). apply (write_kept _ _ _ _ _) with (2 := Hw).
  change "_index.json" with ("_index" ++ ".json").
  destruct (joinpath_suffix family_dir "_index" ".json")
    as (piece & up & ->); [reflexivity | simpl; lia |].
  simpl. rewrite endswith_app. reflexivity.
Qed.

Lemma split_step_kept (entry : string * json) (w w' : world) :
  EnhancedRamlSplitter.split_step h output_dir entry w = Ok w' ->
  kept (files w) (files w').
Proof.
  intros H. destruct entry as [family endpoints]. simpl in H.
  destruct (Py.startswith family "/"); [| injection H as <-; apply kept_refl].
  apply bind_Ok_inv in H as ([family_dir w1] & H1 & H2).
  apply create_family_directory_inv in H1 as (t1 & _ & M1 & M2 & _).
  apply process_family_kept in H2.
  destruct (mkdir_parents_adds _ _ _ _ M1) as [A1 _]. destruct (mkdir_adds _ _ _ _ M2) as [A2 _].
  exact (kept_trans _ _ _
           (adds_directories_kept _ _ (adds_directories_trans _ _ _ A1 A2)) H2).
Qed.

Lemma process_raml_kept (doc : json) (w w' : world) :
  EnhancedRamlSplitter.process_raml h output_dir doc w = Ok w' ->
  kept (files w) (files w').
Proof.
  intros H. apply process_raml_inv in H as (w1 & w2 & H1 & H2 & H3).
  apply (kept_trans _ (files w1)); [| apply (kept_trans _ (files w2))].
  - refine (for_each_kept files _ _ _ _ _ H1). intros dir_path a a' Ha.
    apply on_files_inv in Ha as [Ha _].
    destruct (mkdir_parents_adds _ _ _ _ Ha) as [A _]. exact (adds_directories_kept _ _ A).
  - unfold EnhancedRamlSplitter.split_raml in H2.
    apply bind_Ok_inv in H2 as (fs & _ & H2).
    exact (for_each_kept files fs _ split_step_kept _ _ H2).
  - apply generate_index_inv in H3 as (families & _ & Hw & _).
    apply (write_kept _ _ _ _ _) with (2 := Hw). reflexivity.
Qed.

End Kept.

(** X23. A run of the splitter that succeeds removes nothing from the
    output directory and turns no file into a directory or back: whatever
    was at a path before the run is there after it, unchanged, unless it
    was a file under a name that ends in [.json] or [.md], which is then
    still a file, possibly with another content. *)
Theorem splitter_rewrites_json_and_markdown_only (h : host) (output_dir : string)
    (doc : json) (w w' : world) (q : path) (n : node) :
  EnhancedRamlSplitter.process_raml h output_dir doc w = Ok w' ->
  lookup (files w) q = Some n ->
  lookup (files w') q = Some n
  \/ (exists f f', n = File f /\ lookup (files w') q = Some (File f')
                   /\ Py.endswith (name q) ".json" || Py.endswith (name q) ".md" = true).
Proof.
  intros H Hq. exact (process_raml_kept h output_dir doc w w' H q n Hq).
Qed.

Lemma splitter_rewrites_json_and_markdown_only_witness :
  exists w',
    EnhancedRamlSplitter.process_raml demo_host "api" demo_document
      {| files := [(["notes.txt"], File (text_file "kept"))]; ticks := 0 |} = Ok w'
    /\ lookup [(["notes.txt"], File (text_file "kept"))] ["notes.txt"]
       = Some (File (text_file "kept"))
    /\ (lookup (files w') ["notes.txt"] = Some (File (text_file "kept"))
        \/ (exists f f', File (text_file "kept") = File f
                         /\ lookup (files w') ["notes.txt"] = Some (File f')
                         /\ Py.endswith (name ["notes.txt"]) ".json"
                            || Py.endswith (name ["notes.txt"]) ".md" = true)).
Proof.
  eexists. split; [vm_compute; reflexivity |]. split; [reflexivity |].
  apply (splitter_rewrites_json_and_markdown_only demo_host "api" demo_document
           {| files := [(["notes.txt"], File (text_file "kept"))]; ticks := 0 |} _
           ["notes.txt"] (File (text_file "kept")));
    vm_compute; reflexivity.
Defined.

(** ** The unreachable keyword *)

Lemma by_type_ipv6 (t : string) :
  Py.get_default ExampleGenerator.example_values t (JStr "example_value")
  = JStr "2001:db8::1" ->
  t = "ipv6".
Proof.
  unfold Py.get_default, ExampleGenerator.example_values. cbn [Py.get].
  repeat match goal with
         | |- context [String.eqb ?k t] =>
             destruct (String.eqb_spec k t) as [<- | _]; [auto; discriminate |]
         end.
  discriminate.
Qed.

(** X24. [get_example_value] gives the example IPv6 address only to a
    parameter declared of type [ipv6] in whose name [ip] does not occur:
    a name that mentions [ipv6] mentions [ip], which comes first in the
    table, so that the key [ipv6] is never the one found in a name. *)
Theorem ipv6_example_only_by_declared_type (param_type : json) (param_name : string) :
  ExampleGenerator.get_example_value param_type param_name = Ok (JStr "2001:db8::1") ->
  param_type = JStr "ipv6" /\ Py.contains (Py.lower param_name) "ip" = false.
Proof.
  unfold ExampleGenerator.get_example_value.
  generalize (Py.lower param_name) as n. intros n H.
  destruct (Py.contains n "ip") eqn:Hip.
  { cbv -[Py.contains] in H. rewrite Hip in H. discriminate. }
  assert (H6 : Py.contains n "ipv6" = false).
  { destruct (Py.contains n "ipv6") eqn:E; [| reflexivity].
    apply (contains_weaken n "ip" "v6") in E. congruence. }
  split; [| reflexivity].
  cbv -[Py.contains Py.get_default] in H.
  rewrite Hip, H6 in H.
  repeat match type of H with
         | context [Py.contains n ?k] => destruct (Py.contains n k); [discriminate |]
         end.
  destruct param_type as [| b | z | t | l | d]; try discriminate.
  injection H as H. apply by_type_ipv6 in H. congruence.
Qed.

Lemma ipv6_example_only_by_declared_type_witness :
  ExampleGenerator.get_example_value (JStr "ipv6") "gateway" = Ok (JStr "2001:db8::1")
  /\ JStr "ipv6" = JStr "ipv6" /\ Py.contains (Py.lower "gateway") "ip" = false.
Proof.
  split; [reflexivity |].
  apply (ipv6_example_only_by_declared_type (JStr "ipv6") "gateway"). reflexivity.
Defined.
